(** * tieredcache: a two-tier cache (in-process engine + clustered remote store)

    Shallow embedding of the Go package [tieredcache] and the properties of
    its orchestration logic: fallback reads, write-through writes, metrics
    recording, the fuzzy-delete protocol, shard validation and the lifecycle
    of the shared connection pool.

    Conventions of the embedding.
    - A Go method with side effects is a computation [GoM S A]: it takes the
      state [S] of the object behind its receiver and yields an outcome (a
      returned value or a panic), the state afterwards and the list of calls
      it made to its collaborators, in order.
    - A nilable Go [error] is [option error]; [None] is [nil].
    - A nilable interface or pointer field is an [option]; calling through
      [None] panics, as a nil dereference does.
    - The [context.Context] parameter is dropped: no function of the package
      reads it, except to hang a tracing span on it.
    - Collaborators that are not part of the package (bigcache, redigo/redisc,
      encoding/gob) are type classes; reference instances used in examples
      are collected in the [Doubles] module. *)

From Stdlib Require Import ZArith String List Ascii Lia.
From Stdlib.Strings Require Import Byte.
From stdpp Require Import base option gmap strings list pretty.

Set Implicit Arguments.
Set Default Proof Using "Type".

Local Open Scope string_scope.
Local Open Scope list_scope.

(* ================================================================== *)
(** ** Basic data *)

(** [[]byte]; the nil slice and the empty slice are both [[]]. *)
Definition bytes : Type := list byte.

(** A non-nil Go [error], identified with its message. *)
Definition error : Type := string.

(** [time.Duration], in nanoseconds. *)
Definition Duration : Type := Z.

(** Values that travel through [interface{}] parameters. *)
Inductive Value : Type :=
| VNil
| VBool (b : bool)
| VInt (n : Z)
| VString (s : string)
| VBytes (b : bytes)
| VPair (a b : Value).   (* a struct, field after field *)

(** The concrete (dynamic) type held by an interface value of type [Cache]. *)
Inductive GoType : Type :=
| TyRemoteCache
| TyLocalCache
| TyTieredCache
| TyPtrMockCache
| TyNamed (name : string).

#[global] Instance GoType_eq_dec : EqDecision GoType.
Proof. solve_decision. Defined.

(* ================================================================== *)
(** ** Calls to collaborators *)

Inductive Tier : Type := LocalTier | RemoteTier.

#[global] Instance Tier_eq_dec : EqDecision Tier.
Proof. solve_decision. Defined.

#[global] Instance byte_eq_dec : EqDecision byte := Byte.byte_eq_dec.

Inductive Arg : Type :=
| AStr (s : string)
| ABytes (b : bytes)
| AInt (n : Z).

#[global] Instance Arg_eq_dec : EqDecision Arg.
Proof. solve_decision. Defined.

(** Who receives a call. *)
Inductive Callee : Type :=
| ToTier (t : Tier)   (* a method of [tc.Local] or [tc.Remote] *)
| ToEngine            (* the bigcache engine *)
| ToCluster           (* the [*redisc.Cluster] *)
| ToConn              (* a connection taken from the cluster *)
| ToSpan.             (* an opentracing span *)

#[global] Instance Callee_eq_dec : EqDecision Callee.
Proof. solve_decision. Defined.

(** One entry of a call trace.  [Within t e] is a call [e] made by tier [t]
    while it served a call of the tiered cache. *)
Inductive Event : Type :=
| Call (c : Callee) (name : string) (args : list Arg)
| Within (t : Tier) (e : Event).

Definition Trace : Type := list Event.

(* ================================================================== *)
(** ** Computations *)

Inductive Outcome (A : Type) : Type :=
| Ret (a : A)
| Panic (msg : string).
Arguments Ret {A} a.
Arguments Panic {A} msg.

Definition GoM (S A : Type) : Type := S -> Outcome A * S * Trace.

Definition ret {S A : Type} (a : A) : GoM S A :=
  fun s => (Ret a, s, []).

Definition bind {S A B : Type} (m : GoM S A) (k : A -> GoM S B) : GoM S B :=
  fun s =>
    match m s with
    | (Ret a, s1, t1) =>
        match k a s1 with
        | (o, s2, t2) => (o, s2, t1 ++ t2)
        end
    | (Panic msg, s1, t1) => (Panic msg, s1, t1)
    end.

Notation "x <- m ;; k" := (bind m (fun x => k))
  (at level 100, m at next level, right associativity).
Notation "m ;;; k" := (bind m (fun _ => k))
  (at level 100, right associativity).

Definition panic {S A : Type} (msg : string) : GoM S A :=
  fun s => (Panic msg, s, []).

Definition emit {S : Type} (e : Event) : GoM S unit :=
  fun s => (Ret tt, s, [e]).

Definition get {S : Type} : GoM S S :=
  fun s => (Ret s, s, []).

Definition modify {S : Type} (f : S -> S) : GoM S unit :=
  fun s => (Ret tt, f s, []).

Definition when {S : Type} (b : bool) (m : GoM S unit) : GoM S unit :=
  if b then m else ret tt.

(** [defer cleanup] placed before [body]: [cleanup] runs when [body] is
    over, whether it returned or panicked; the function's outcome is the
    body's unless the deferred call itself panics. *)
Definition defer {S A : Type} (cleanup : GoM S unit) (body : GoM S A) : GoM S A :=
  fun s =>
    match body s with
    | (o, s1, t1) =>
        match cleanup s1 with
        | (Ret _, s2, t2) => (o, s2, t1 ++ t2)
        | (Panic msg, s2, t2) => (Panic msg, s2, t1 ++ t2)
        end
    end.

(** Lifting a pure call that may panic. *)
Definition liftO {S A : Type} (o : Outcome A) : GoM S A :=
  fun s => (o, s, []).

Definition nil_deref : string :=
  "runtime error: invalid memory address or nil pointer dereference".

Definition outcome_of {A S : Type} (r : Outcome A * S * Trace) : Outcome A := r.1.1.
Definition state_of {A S : Type} (r : Outcome A * S * Trace) : S := r.1.2.
Definition trace_of {A S : Type} (r : Outcome A * S * Trace) : Trace := r.2.

(** [err != nil] *)
Definition failed (err : option error) : bool :=
  match err with Some _ => true | None => false end.

(* ================================================================== *)
(** ** CacheMetrics (tieredcache_metrics.go) *)

Module CacheMetrics.

(** The eight methods of the interface. *)
Inductive call : Type :=
| Hit | Miss | Set_ | SetCollision
| DeleteHit | DeleteMiss | PurgeHit | PurgeMiss.

#[global] Instance call_eq_dec : EqDecision call.
Proof. solve_decision. Defined.

(** A recorder is known by the calls it has received, oldest first (what
    [MockCacheMetrics] keeps, and what the Prometheus counters count). *)
Definition t : Type := list call.

(** A call through a field that was checked to be non-nil:
    [if x.Metrics != nil { x.Metrics.c() }]. *)
Definition record (m : option t) (c : call) : option t :=
  match m with
  | Some calls => Some (calls ++ [c])
  | None => None
  end.

(** How often [c] was recorded. *)
Definition count (c : call) (m : option t) : nat :=
  match m with
  | Some calls => count_occ call_eq_dec calls c
  | None => 0
  end.

End CacheMetrics.

(* ================================================================== *)
(** ** CacheEncoder (gobencoder.go) *)

Module CacheEncoder.

(** [Decode] writes through its [target] pointer: it takes what the
    target holds and returns what it holds afterwards. *)
Record t : Type := mk {
  Encode : Value -> Outcome (bytes * option error);
  Decode : bytes -> Value -> Outcome (option error * Value)
}.

(** Calls through a possibly nil interface field. *)
Definition callEncode {S : Type} (enc : option t) (value : Value)
  : GoM S (bytes * option error) :=
  match enc with
  | Some e => liftO (Encode e value)
  | None => panic nil_deref
  end.

Definition callDecode {S : Type} (enc : option t) (cachedValue : bytes) (target : Value)
  : GoM S (option error * Value) :=
  match enc with
  | Some e => liftO (Decode e cachedValue target)
  | None => panic nil_deref
  end.

End CacheEncoder.

(** encoding/gob, as far as the package uses it: an encoder writes the
    encoding of a value to a buffer, a decoder reads a value into a target. *)
Class Gob : Type := {
  gob_Encode : Value -> bytes * option error;
  gob_Decode : bytes -> Value -> option error * Value
}.

Module GobCacheEncoder.
Section WithGob.
Context `{Gob}.

Definition Encode (value : Value) : Outcome (bytes * option error) :=
  let '(buf, err) := gob_Encode value in
  match err with
  | Some e => Ret ([], Some e)
  | None => Ret (buf, None)
  end.

Definition Decode (cachedValue : bytes) (target : Value) : Outcome (option error * Value) :=
  Ret (gob_Decode cachedValue target).

Definition encoder : CacheEncoder.t := CacheEncoder.mk Encode Decode.

End WithGob.
End GobCacheEncoder.

(** The fake encoder of the test helpers. *)
Module MockCacheEncoder.

(** [return value.([]byte), nil] *)
Definition Encode (value : Value) : Outcome (bytes * option error) :=
  match value with
  | VBytes b => Ret (b, None)
  | _ => Panic "interface conversion: interface {} is not []uint8"
  end.

(** [return nil]; the target is left as it was. *)
Definition Decode (cachedValue : bytes) (target : Value) : Outcome (option error * Value) :=
  Ret (None, target).

Definition encoder : CacheEncoder.t := CacheEncoder.mk Encode Decode.

End MockCacheEncoder.


(* ================================================================== *)
(** ** The Cache interface (tieredcache.go) *)

Module Cache.

(** An implementation of [Cache] over the state [T] of the object behind
    the interface value.  [Get] takes what the target holds and returns,
    next to the error, what it holds afterwards. *)
Class t (T : Type) : Type := mk {
  dynType : GoType;
  GetBytes : string -> GoM T (bytes * option error);
  Get : string -> Value -> GoM T (option error * Value);
  SetBytes : string -> bytes -> GoM T (option error);
  Set_ : string -> Value -> GoM T (option error);
  Delete : string -> GoM T (option error);
  Purge : GoM T (option error)
}.
Arguments dynType T {_}.

End Cache.

(* ================================================================== *)
(** ** The in-process engine (github.com/allegro/bigcache) *)

Module bigcache.

(** The fields of [bigcache.Config] that the package sets. *)
Record Config : Type := mkConfig {
  Shards : Z;
  LifeWindow : Duration;
  CleanWindow : Duration
}.

(** The engine behind a [*bigcache.BigCache], with state [E]. *)
Class Engine (E : Type) : Type := mkEngine {
  DefaultConfig : Duration -> Config;
  NewBigCache : Config -> option E * option error;
  Get : string -> E -> (bytes * option error) * E;
  Set_ : string -> bytes -> E -> option error * E;
  Delete : string -> E -> option error * E;
  Reset : E -> option error * E
}.
Arguments DefaultConfig E {_}.

End bigcache.

(** 64-bit [uint] and [int]. *)
Definition uint_max : Z := 2 ^ 64.

Definition is_uint (n : Z) : Prop := (0 <= n < uint_max)%Z.

(** The conversion [int(n)] of a [uint]: two's complement reading. *)
Definition int_of_uint (n : Z) : Z :=
  if (n <? 2 ^ 63)%Z then n else (n - 2 ^ 64)%Z.

(* ================================================================== *)
(** ** LocalCache (localcache.go) *)

Module LocalCache.
Section WithEngine.
Context {E : Type} `{!bigcache.Engine E}.

Record t : Type := mk {
  Cache : option E;
  Encoder : option CacheEncoder.t;
  Metrics : option CacheMetrics.t;
  TracingEnabled : bool
}.

Definition withCache (lc : t) (c : option E) : t :=
  mk c (Encoder lc) (Metrics lc) (TracingEnabled lc).

Definition withMetrics (lc : t) (m : option CacheMetrics.t) : t :=
  mk (Cache lc) (Encoder lc) m (TracingEnabled lc).

(** A call [lc.Cache.f(...)] on the engine; a method entered on a nil
    [*bigcache.BigCache] panics at its first field access. *)
Definition onEngine {A : Type} (name : string) (args : list Arg) (f : E -> A * E) : GoM t A :=
  fun lc =>
    match Cache lc with
    | Some e => (Ret (f e).1, withCache lc (Some (f e).2), [Call ToEngine name args])
    | None => (Panic nil_deref, lc, [Call ToEngine name args])
    end.

(** [if lc.Metrics != nil { if err != nil { onErr } else { onOk } }] *)
Definition observe (err : option error) (onErr onOk : CacheMetrics.call) : GoM t unit :=
  modify (fun lc =>
    withMetrics lc (CacheMetrics.record (Metrics lc) (if failed err then onErr else onOk))).

Definition GetBytes (key : string) : GoM t (bytes * option error) :=
  onEngine "Get" [AStr key] (bigcache.Get key).

Definition Get (key : string) (target : Value) : GoM t (option error * Value) :=
  r <- GetBytes key ;;
  let '(data, err) := r in
  observe err CacheMetrics.Miss CacheMetrics.Hit ;;;
  match err with
  | Some e => ret (Some e, target)
  | None =>
      lc <- get ;;
      CacheEncoder.callDecode (Encoder lc) data target
  end.

Definition SetBytes (key : string) (value : bytes) : GoM t (option error) :=
  onEngine "Set" [AStr key; ABytes value] (bigcache.Set_ key value).

Definition Set_ (key : string) (value : Value) : GoM t (option error) :=
  lc <- get ;;
  r <- CacheEncoder.callEncode (Encoder lc) value ;;
  let '(encodedData, err) := r in
  observe err CacheMetrics.SetCollision CacheMetrics.Set_ ;;;
  match err with
  | Some e => ret (Some e)
  | None => SetBytes key encodedData
  end.

Definition Delete (key : string) : GoM t (option error) :=
  err <- onEngine "Delete" [AStr key] (bigcache.Delete key) ;;
  observe err CacheMetrics.DeleteMiss CacheMetrics.DeleteHit ;;;
  ret err.

Definition Purge : GoM t (option error) :=
  err <- onEngine "Reset" [] bigcache.Reset ;;
  observe err CacheMetrics.PurgeMiss CacheMetrics.PurgeHit ;;;
  ret err.

End WithEngine.
Arguments t E : clear implicits.
End LocalCache.

Module LocalCacheConfig.

Record t : Type := mk {
  Eviction : Duration;
  TTL : Duration;
  Shards : Z;   (* uint; "Must be power of 2" *)
  TracingEnabled : bool
}.

(** The guard of [NewCache]: [lcc.Shards != 0 && lcc.Shards%2 != 0]. *)
Definition shardsRejected (lcc : t) : bool :=
  negb (Shards lcc =? 0)%Z && negb (Shards lcc mod 2 =? 0)%Z.

(** [fmt.Errorf("shards must be power of 2 - %v is invalid", lcc.Shards)] *)
Definition shardsError (lcc : t) : error :=
  "shards must be power of 2 - " +:+ pretty (Shards lcc) +:+ " is invalid".

Section WithEngine.
Context {E : Type} `{!bigcache.Engine E}.

(** The configuration handed to [bigcache.NewBigCache]. *)
Definition engineConfig (lcc : t) : bigcache.Config :=
  let config := bigcache.DefaultConfig E (Eviction lcc) in
  let config :=
    if negb (TTL lcc =? 0)%Z
    then bigcache.mkConfig (bigcache.Shards config) (TTL lcc) (bigcache.CleanWindow config)
    else config in
  if negb (Shards lcc =? 0)%Z
  then bigcache.mkConfig (int_of_uint (Shards lcc)) (bigcache.LifeWindow config)
         (bigcache.CleanWindow config)
  else config.

(** [NewCache] has no receiver state: it returns the cache and the error,
    and the trace tells whether the engine was constructed. *)
Definition NewCache (lcc : t) (encoder : option CacheEncoder.t)
    (metrics : option CacheMetrics.t) : GoM unit (LocalCache.t E * option error) :=
  let cache := LocalCache.mk None encoder None (TracingEnabled lcc) in
  if shardsRejected lcc then
    ret (cache, Some (shardsError lcc))
  else
    let config := engineConfig lcc in
    emit (Call ToEngine "NewBigCache" [AInt (bigcache.Shards config)]) ;;;
    let '(engine, err) := bigcache.NewBigCache config in
    let cache := LocalCache.withCache cache engine in
    let cache :=
      match metrics with
      | Some m => LocalCache.withMetrics cache (Some m)
      | None => cache
      end in
    ret (cache, err).

End WithEngine.
End LocalCacheConfig.

(* ================================================================== *)
(** ** The remote store (github.com/gomodule/redigo, github.com/mna/redisc) *)

Module redis.

(** An element of an array reply. *)
Inductive Elem : Type :=
| ENil
| EBulk (b : bytes)
| EInt (n : Z).

(** What [conn.Do] returns as its [interface{}] reply. *)
Inductive Reply : Type :=
| RNil
| RInt (n : Z)
| RBulk (b : bytes)
| RStatus (s : string)
| RError (msg : string)
| RArray (elems : list Elem).

Definition ErrNil : error := "redigo: nil returned".

(** [redis.Bytes(reply, err)] *)
Definition Bytes (r : Reply * option error) : bytes * option error :=
  match r with
  | (_, Some e) => ([], Some e)
  | (RBulk b, None) => (b, None)
  | (RStatus s, None) => (list_byte_of_string s, None)
  | (RNil, None) => ([], Some ErrNil)
  | (RError msg, None) => ([], Some msg)
  | (_, None) => ([], Some "redigo: unexpected type for Bytes")
  end.

(** The loop of [redis.Strings] over the elements of an array reply:
    [None] when an element is neither nil nor a bulk string. *)
Fixpoint elemStrings (elems : list Elem) : option (list string) :=
  match elems with
  | [] => Some []
  | ENil :: rest => cons "" <$> elemStrings rest
  | EBulk b :: rest => cons (string_of_list_byte b) <$> elemStrings rest
  | EInt _ :: _ => None
  end.

(** [redis.Strings(reply, err)] *)
Definition Strings (r : Reply * option error) : list string * option error :=
  match r with
  | (_, Some e) => ([], Some e)
  | (RArray elems, None) =>
      match elemStrings elems with
      | Some l => (l, None)
      | None => ([], Some "redigo: unexpected element type for Strings")
      end
  | (RNil, None) => ([], Some ErrNil)
  | (RError msg, None) => ([], Some msg)
  | (_, None) => ([], Some "redigo: unexpected type for Strings")
  end.

End redis.

Module redisc.

(** A [*redisc.Cluster] with the servers behind it and the connection in
    use, with state [N].  [Get] takes a connection from the cluster; [Do],
    [Send] and [ConnClose] are the methods of that connection. *)
Class Cluster (N : Type) : Type := mkCluster {
  New : list string -> Duration -> N;
  Refresh : N -> option error * N;
  Close : N -> option error * N;
  Get : N -> N;
  Do : string -> list Arg -> N -> (redis.Reply * option error) * N;
  Send : string -> list Arg -> N -> option error * N;
  ConnClose : N -> option error * N
}.

End redisc.

(** [sync.Once]: [done] tells whether [Do] has run its function. *)
Module sync.

Definition Once : Type := bool.

(** [once.Do(f)], for a [Once] stored in the state and reached through
    [done] and [mark]: [f] runs if the flag is clear, and the flag is set
    when [f] is over, also when it panicked. *)
Definition Do {S : Type} (done : S -> Once) (mark : S -> S) (f : GoM S unit) : GoM S unit :=
  fun s =>
    if done s then (Ret tt, s, [])
    else
      match f s with
      | (o, s', tr) => (o, mark s', tr)
      end.

End sync.

(** The package variable [sharedCluster]. *)
Module sharedCluster.

Record t (N : Type) : Type := mk {
  cluster : option N;
  onceCreate : sync.Once;
  onceClose : sync.Once
}.

(** Its value when the process starts. *)
Definition init {N : Type} : t N := mk None false false.

Definition withCluster {N : Type} (s : t N) (c : option N) : t N :=
  mk c (onceCreate s) (onceClose s).

Definition markCreate {N : Type} (s : t N) : t N :=
  mk (cluster s) true (onceClose s).

Definition markClose {N : Type} (s : t N) : t N :=
  mk (cluster s) (onceCreate s) true.

(** A method call on [sharedCluster.cluster]; a method entered on a nil
    [*redisc.Cluster] panics at its first field access. *)
Definition onCluster {N A : Type} (c : Callee) (name : string) (args : list Arg)
    (f : N -> A * N) : GoM (t N) A :=
  fun s =>
    match cluster s with
    | Some n => (Ret (f n).1, withCluster s (Some (f n).2), [Call c name args])
    | None => (Panic nil_deref, s, [Call c name args])
    end.

End sharedCluster.

(* ================================================================== *)
(** ** Tracing (github.com/opentracing/opentracing-go) *)

Module span.

Definition Start (operation : string) : Event :=
  Call ToSpan "StartSpanFromContext" [AStr operation].

Definition SetTag (key : string) (value : Arg) : Event :=
  Call ToSpan "SetTag" [AStr key; value].

Definition Finish : Event := Call ToSpan "Finish" [].

End span.

(* ================================================================== *)
(** ** RemoteCache *)

Module RemoteCache.
Section WithCluster.
Context {N : Type} `{!redisc.Cluster N}.

Record t : Type := mk {
  cluster : option N;
  Encoder : option CacheEncoder.t;
  Metrics : option CacheMetrics.t;
  TracingEnabled : bool
}.

Definition withCluster (rc : t) (c : option N) : t :=
  mk c (Encoder rc) (Metrics rc) (TracingEnabled rc).

Definition withMetrics (rc : t) (m : option CacheMetrics.t) : t :=
  mk (cluster rc) (Encoder rc) m (TracingEnabled rc).

(** A call on [rc.cluster] or on the connection taken from it. *)
Definition onCluster {A : Type} (c : Callee) (name : string) (args : list Arg)
    (f : N -> A * N) : GoM t A :=
  fun rc =>
    match cluster rc with
    | Some n => (Ret (f n).1, withCluster rc (Some (f n).2), [Call c name args])
    | None => (Panic nil_deref, rc, [Call c name args])
    end.

(** [conn := rc.cluster.Get()] *)
Definition getConn : GoM t unit :=
  onCluster ToCluster "Get" [] (fun n => (tt, redisc.Get n)).

(** [conn.Close()], as deferred by every method. *)
Definition closeConn : GoM t unit :=
  onCluster ToConn "Close" [] redisc.ConnClose ;;; ret tt.

(** [conn.Do(cmd, args...)] *)
Definition connDo (cmd : string) (args : list Arg) : GoM t (redis.Reply * option error) :=
  onCluster ToConn "Do" (AStr cmd :: args) (redisc.Do cmd args).

(** [conn.Send(cmd, args...)] *)
Definition connSend (cmd : string) (args : list Arg) : GoM t (option error) :=
  onCluster ToConn "Send" (AStr cmd :: args) (redisc.Send cmd args).

(** [if rc.TracingEnabled { ... }] *)
Definition traced (rc : t) (events : list Event) : GoM t unit :=
  when (TracingEnabled rc) (fun s => (Ret tt, s, events)).

(** [if rc.Metrics != nil { if bad { onBad } else { onOk } }] *)
Definition observe (bad : bool) (onBad onOk : CacheMetrics.call) : GoM t unit :=
  modify (fun rc =>
    withMetrics rc (CacheMetrics.record (Metrics rc) (if bad then onBad else onOk))).

Definition GetBytes (key : string) : GoM t (bytes * option error) :=
  rc <- get ;;
  traced rc [span.Start "remote-cache-get-bytes";
             span.SetTag "command" (AStr "GET");
             span.SetTag "key" (AStr key)] ;;;
  getConn ;;;
  defer closeConn (
    r <- connDo "GET" [AStr key] ;;
    let '(data, err) := redis.Bytes r in
    traced rc [span.SetTag "result" (AStr (if failed err then "miss" else "hit"));
               span.Finish] ;;;
    ret (data, err)).

Definition Get (key : string) (target : Value) : GoM t (option error * Value) :=
  r <- GetBytes key ;;
  let '(data, err) := r in
  observe (failed err) CacheMetrics.Miss CacheMetrics.Hit ;;;
  match err with
  | Some e => ret (Some e, target)
  | None =>
      rc <- get ;;
      CacheEncoder.callDecode (Encoder rc) data target
  end.

Definition SetBytes (key : string) (value : bytes) : GoM t (option error) :=
  rc <- get ;;
  traced rc [span.Start "remote-cache-set-bytes";
             span.SetTag "command" (AStr "SET");
             span.SetTag "key" (AStr key)] ;;;
  getConn ;;;
  defer closeConn (
    r <- connDo "SET" [AStr key; ABytes value] ;;
    let err := r.2 in
    traced rc [span.SetTag "result" (AStr (if failed err then "fail" else "set"));
               span.Finish] ;;;
    ret err).

Definition Set_ (key : string) (value : Value) : GoM t (option error) :=
  rc <- get ;;
  r <- CacheEncoder.callEncode (Encoder rc) value ;;
  let '(encodedData, err) := r in
  observe (failed err) CacheMetrics.SetCollision CacheMetrics.Set_ ;;;
  match err with
  | Some e => ret (Some e)
  | None => SetBytes key encodedData
  end.

(** [for _, keyToDelete := range keysToDelete { err = conn.Send("DEL", keyToDelete) }];
    the errors are overwritten by the [EXEC] that follows. *)
Fixpoint sendDeletes (keysToDelete : list string) : GoM t unit :=
  match keysToDelete with
  | [] => ret tt
  | keyToDelete :: rest =>
      connSend "DEL" [AStr keyToDelete] ;;;
      sendDeletes rest
  end.

Definition Delete (key : string) : GoM t (option error) :=
  rc <- get ;;
  traced rc [span.Start "remote-cache-delete";
             span.SetTag "command" (AStr "Pipeline:KEYS:MULTI:DEL:EXEC");
             span.SetTag "key" (AStr key)] ;;;
  getConn ;;;
  defer closeConn (
    r <- connDo "KEYS" [AStr key] ;;
    let keysToDelete := (redis.Strings r).1 in
    err <- connSend "MULTI" [] ;;
    traced rc [span.SetTag "num_keys" (AInt (Z.of_nat (length keysToDelete)))] ;;;
    observe (failed err || (Z.of_nat (length keysToDelete) <=? 0)%Z)
      CacheMetrics.DeleteMiss CacheMetrics.DeleteHit ;;;
    sendDeletes keysToDelete ;;;
    r <- connDo "EXEC" [] ;;
    let err := r.2 in
    traced rc [span.SetTag "result" (AStr (if failed err then "fail" else "delete"));
               span.Finish] ;;;
    ret err).

Definition Purge : GoM t (option error) :=
  rc <- get ;;
  traced rc [span.Start "remote-cache-delete";
             span.SetTag "command" (AStr "FLUSHALL")] ;;;
  getConn ;;;
  defer closeConn (
    r <- connDo "FLUSHALL" [] ;;
    let err := r.2 in
    observe (failed err) CacheMetrics.PurgeMiss CacheMetrics.PurgeHit ;;;
    traced rc [span.SetTag "result" (AStr (if failed err then "fail" else "purge"));
               span.Finish] ;;;
    ret err).

(** [Close] does not read its receiver: it works on the package variable. *)
Definition Close : GoM (sharedCluster.t N) unit :=
  sync.Do (@sharedCluster.onceClose N) sharedCluster.markClose
    (sharedCluster.onCluster ToCluster "Close" [] redisc.Close ;;; ret tt).

End WithCluster.
Arguments t N : clear implicits.
End RemoteCache.

Module RemoteCacheConfig.

Record t : Type := mk {
  URLs : list string;
  AuthToken : string;
  Timeout : Duration;
  TracingEnabled : bool
}.

Section WithCluster.
Context {N : Type} `{!redisc.Cluster N}.

(** The function handed to [sharedCluster.onceCreate.Do]. *)
Definition createCluster (rcc : t) : GoM (sharedCluster.t N) unit :=
  emit (Call ToCluster "New" (map AStr (URLs rcc) ++ [AInt (Timeout rcc)])) ;;;
  modify (fun s => sharedCluster.withCluster s (Some (redisc.New (URLs rcc) (Timeout rcc)))).

(** [NewCache] works on the package variable.  The [cluster] field of the
    cache it returns points to the shared cluster; it is given here as the
    state of that cluster when [NewCache] returns. *)
Definition NewCache (rcc : t) (encoder : option CacheEncoder.t)
    (metrics : option CacheMetrics.t)
    : GoM (sharedCluster.t N) (RemoteCache.t N * option error) :=
  sync.Do (@sharedCluster.onceCreate N) sharedCluster.markCreate (createCluster rcc) ;;;
  err <- sharedCluster.onCluster ToCluster "Refresh" [] redisc.Refresh ;;
  err <- (if negb (failed err) && negb (String.eqb (AuthToken rcc) "")
          then
            sharedCluster.onCluster ToCluster "Get" [] (fun n => (tt, redisc.Get n)) ;;;
            defer (sharedCluster.onCluster ToConn "Close" [] redisc.ConnClose ;;; ret tt) (
              r <- sharedCluster.onCluster ToConn "Do" [AStr "AUTH"; AStr (AuthToken rcc)]
                     (redisc.Do "AUTH" [AStr (AuthToken rcc)]) ;;
              ret r.2)
          else ret err) ;;
  s <- get ;;
  ret (RemoteCache.mk (sharedCluster.cluster s) encoder metrics (TracingEnabled rcc), err).

End WithCluster.
End RemoteCacheConfig.

(* ================================================================== *)
(** ** MockCache (the test double of the package) *)

Module MockCache.

(** The object behind a [*MockCache].  A nil map reads as empty and
    panics when written. *)
Record t : Type := mk {
  Cache : option (gmap string bytes);
  Encoder : option CacheEncoder.t;
  Metrics : option CacheMetrics.t
}.

Definition withCache (mc : t) (c : option (gmap string bytes)) : t :=
  mk c (Encoder mc) (Metrics mc).

(** [mc.Cache[key]] with the comma-ok form. *)
Definition lookup (mc : t) (key : string) : option bytes :=
  match Cache mc with
  | Some m => m !! key
  | None => None
  end.

(** [NewMockCache(encoder)] *)
Definition NewMockCache (encoder : option CacheEncoder.t) : t :=
  mk (Some ∅) encoder (Some []).

Definition GetBytes (key : string) : GoM t (bytes * option error) :=
  mc <- get ;;
  match lookup mc key with
  | Some value => ret (value, None)
  | None => ret ([], Some "key not found")
  end.

Definition Get (key : string) (target : Value) : GoM t (option error * Value) :=
  r <- GetBytes key ;;
  let '(data, err) := r in
  match err with
  | Some e => ret (Some e, target)
  | None =>
      mc <- get ;;
      CacheEncoder.callDecode (Encoder mc) data target
  end.

Definition SetBytes (key : string) (value : bytes) : GoM t (option error) :=
  mc <- get ;;
  match Cache mc with
  | Some m =>
      modify (fun mc => withCache mc (Some (<[key := value]> m))) ;;;
      ret None
  | None => panic "assignment to entry in nil map"
  end.

Definition Set_ (key : string) (value : Value) : GoM t (option error) :=
  mc <- get ;;
  r <- CacheEncoder.callEncode (Encoder mc) value ;;
  let '(cacheBytes, err) := r in
  match err with
  | Some e => ret (Some e)
  | None => SetBytes key cacheBytes
  end.

Definition Delete (key : string) : GoM t (option error) :=
  mc <- get ;;
  match lookup mc key with
  | None => ret (Some "key not found for deletion")
  | Some _ =>
      modify (fun mc => withCache mc (delete key <$> Cache mc)) ;;;
      ret None
  end.

Definition Purge : GoM t (option error) :=
  modify (fun mc => withCache mc (Some ∅)) ;;;
  ret None.

End MockCache.

(* ================================================================== *)
(** ** The implementations of Cache *)

#[global] Instance LocalCache_Cache {E : Type} `{!bigcache.Engine E}
  : Cache.t (LocalCache.t E) :=
  Cache.mk TyLocalCache LocalCache.GetBytes LocalCache.Get LocalCache.SetBytes
    LocalCache.Set_ LocalCache.Delete LocalCache.Purge.

#[global] Instance RemoteCache_Cache {N : Type} `{!redisc.Cluster N}
  : Cache.t (RemoteCache.t N) :=
  Cache.mk TyRemoteCache RemoteCache.GetBytes RemoteCache.Get RemoteCache.SetBytes
    RemoteCache.Set_ RemoteCache.Delete RemoteCache.Purge.

#[global] Instance MockCache_Cache : Cache.t MockCache.t :=
  Cache.mk TyPtrMockCache MockCache.GetBytes MockCache.Get MockCache.SetBytes
    MockCache.Set_ MockCache.Delete MockCache.Purge.

(* ================================================================== *)
(** ** TieredCache (tieredcache.go) *)

Module TieredCache.
Section WithTiers.
Context {L R : Type} `{!Cache.t L, !Cache.t R}.

(** The state behind the two interface fields is kept in the fields. *)
Record t : Type := mk {
  Remote : option R;
  Local : option L;
  Metrics : option CacheMetrics.t;
  TracingEnabled : bool
}.

Definition withLocal (tc : t) (l : option L) : t :=
  mk (Remote tc) l (Metrics tc) (TracingEnabled tc).

Definition withRemote (tc : t) (r : option R) : t :=
  mk r (Local tc) (Metrics tc) (TracingEnabled tc).

Definition withMetrics (tc : t) (m : option CacheMetrics.t) : t :=
  mk (Remote tc) (Local tc) m (TracingEnabled tc).

(** A method call [tc.Local.name(args)]: the call is traced, then the
    calls the tier makes itself. *)
Definition onLocal {A : Type} (name : string) (args : list Arg) (m : GoM L A) : GoM t A :=
  fun tc =>
    match Local tc with
    | Some l =>
        match m l with
        | (o, l', tr) =>
            (o, withLocal tc (Some l'),
             Call (ToTier LocalTier) name args :: map (Within LocalTier) tr)
        end
    | None => (Panic nil_deref, tc, [])
    end.

(** A method call [tc.Remote.name(args)]. *)
Definition onRemote {A : Type} (name : string) (args : list Arg) (m : GoM R A) : GoM t A :=
  fun tc =>
    match Remote tc with
    | Some r =>
        match m r with
        | (o, r', tr) =>
            (o, withRemote tc (Some r'),
             Call (ToTier RemoteTier) name args :: map (Within RemoteTier) tr)
        end
    | None => (Panic nil_deref, tc, [])
    end.

(** [if tc.Metrics != nil { if err != nil { onErr } else { onOk } }] *)
Definition observe (err : option error) (onErr onOk : CacheMetrics.call) : GoM t unit :=
  modify (fun tc =>
    withMetrics tc (CacheMetrics.record (Metrics tc) (if failed err then onErr else onOk))).

(** [tc.Remote.(RemoteCache).Close()]: the assertion holds when the
    interface value is not nil and its dynamic type is [RemoteCache]. *)
Definition Close {N : Type} `{!redisc.Cluster N} (tc : t) : GoM (sharedCluster.t N) unit :=
  match Remote tc with
  | Some _ =>
      if decide (Cache.dynType R = TyRemoteCache)
      then RemoteCache.Close
      else panic "interface conversion: tieredcache.Cache is not tieredcache.RemoteCache"
  | None =>
      panic "interface conversion: interface is nil, not tieredcache.RemoteCache"
  end.

Definition GetBytes (key : string) : GoM t (bytes * option error) :=
  r <- onLocal "GetBytes" [AStr key] (Cache.GetBytes key) ;;
  let '(data, err) := r in
  match err with
  | Some _ => onRemote "GetBytes" [AStr key] (Cache.GetBytes key)
  | None => ret (data, err)
  end.

(** Both tiers are handed the same target pointer. *)
Definition Get (key : string) (target : Value) : GoM t (option error * Value) :=
  r <- onLocal "Get" [AStr key] (Cache.Get key target) ;;
  let '(err, target1) := r in
  r <- match err with
       | Some _ => onRemote "Get" [AStr key] (Cache.Get key target1)
       | None => ret (err, target1)
       end ;;
  observe r.1 CacheMetrics.Miss CacheMetrics.Hit ;;;
  ret r.

Definition SetBytes (key : string) (value : bytes) : GoM t (option error) :=
  err <- onLocal "SetBytes" [AStr key; ABytes value] (Cache.SetBytes key value) ;;
  match err with
  | None => onRemote "SetBytes" [AStr key; ABytes value] (Cache.SetBytes key value)
  | Some _ => ret err
  end.

Definition Set_ (key : string) (value : Value) : GoM t (option error) :=
  err <- onLocal "Set" [AStr key] (Cache.Set_ key value) ;;
  err <- match err with
         | None => onRemote "Set" [AStr key] (Cache.Set_ key value)
         | Some _ => ret err
         end ;;
  observe err CacheMetrics.SetCollision CacheMetrics.Set_ ;;;
  ret err.

Definition Delete (key : string) : GoM t (option error) :=
  err <- onLocal "Delete" [AStr key] (Cache.Delete key) ;;
  err <- match err with
         | None => onRemote "Delete" [AStr key] (Cache.Delete key)
         | Some _ => ret err
         end ;;
  observe err CacheMetrics.DeleteMiss CacheMetrics.DeleteHit ;;;
  ret err.

Definition Purge : GoM t (option error) :=
  err <- onLocal "Purge" [] Cache.Purge ;;
  err <- match err with
         | None => onRemote "Purge" [] Cache.Purge
         | Some _ => ret err
         end ;;
  observe err CacheMetrics.PurgeMiss CacheMetrics.PurgeHit ;;;
  ret err.

End WithTiers.
Arguments t L R : clear implicits.
End TieredCache.

#[global] Instance TieredCache_Cache {L R : Type} `{!Cache.t L, !Cache.t R}
  : Cache.t (TieredCache.t L R) :=
  Cache.mk TyTieredCache TieredCache.GetBytes TieredCache.Get TieredCache.SetBytes
    TieredCache.Set_ TieredCache.Delete TieredCache.Purge.

Module TieredCacheConfig.

Record t : Type := mk {
  RemoteConfig : RemoteCacheConfig.t;
  LocalConfig : LocalCacheConfig.t;
  Encoder : option CacheEncoder.t;
  TracingEnabled : bool
}.

Section WithCollaborators.
Context {E N : Type} `{!bigcache.Engine E, !redisc.Cluster N}.

(** A function without receiver state, called where the package variable
    is the state. *)
Definition stateless {S A : Type} (m : GoM unit A) : GoM S A :=
  fun s =>
    match m tt with
    | (o, _, tr) => (o, s, tr)
    end.

(** [TieredCache{}] *)
Definition zero : TieredCache.t (LocalCache.t E) (RemoteCache.t N) :=
  TieredCache.mk None None None false.

Definition NewCache (tcc : t) (encoder : option CacheEncoder.t)
    (metrics localMetrics remoteMetrics : option CacheMetrics.t)
    : GoM (sharedCluster.t N)
        (TieredCache.t (LocalCache.t E) (RemoteCache.t N) * option error) :=
  r <- RemoteCacheConfig.NewCache (RemoteConfig tcc) encoder remoteMetrics ;;
  let '(remote, err) := r in
  match err with
  | Some e => ret (zero, Some e)
  | None =>
      r <- stateless (LocalCacheConfig.NewCache (LocalConfig tcc) encoder localMetrics) ;;
      let '(local, err) := r in
      match err with
      | Some e => ret (zero, Some e)
      | None =>
          ret (TieredCache.mk (Some remote) (Some local) metrics (TracingEnabled tcc), None)
      end
  end.

End WithCollaborators.
End TieredCacheConfig.

(** The testify mock of the encoder (mockcacheencoder.go): [onEncode] and
    [onDecode] are the programmed expectations, [args.Get(0)] and
    [args.Error(1)] of a matching call; a call that matches none panics. *)
Module MockedCacheEncoder.

Record t : Type := mk {
  onEncode : Value -> option (option bytes * option error);
  onDecode : bytes -> Value -> option (option error)
}.

Definition unexpected : string := "mock: I don't know what to return because the method call was unexpected.".

Definition Encode (mce : t) (value : Value) : Outcome (bytes * option error) :=
  match onEncode mce value with
  | Some (None, err) => Ret ([], err)
  | Some (Some b, err) => Ret (b, err)
  | None => Panic unexpected
  end.

(** The target is not written. *)
Definition Decode (mce : t) (cachedValue : bytes) (target : Value)
  : Outcome (option error * Value) :=
  match onDecode mce cachedValue target with
  | Some err => Ret (err, target)
  | None => Panic unexpected
  end.

Definition encoder (mce : t) : CacheEncoder.t :=
  CacheEncoder.mk (Encode mce) (Decode mce).

End MockedCacheEncoder.

(* ================================================================== *)
(** ** Reference collaborators

    Small executable stand-ins for the collaborators, in the role that
    miniredis and the mocks play in the package's tests.  They serve the
    examples; the theorems about the package quantify over every
    implementation of the collaborator classes. *)

Module Doubles.

(** *** An engine over a finite map *)

(** bigcache's own test on [Config.Shards]. *)
Definition isPowerOfTwo (n : Z) : bool :=
  (0 <? n)%Z && (Z.land n (n - 1) =? 0)%Z.

Definition entryNotFound : error := "Entry not found".

#[global] Instance MapEngine : bigcache.Engine (gmap string bytes) := {|
  bigcache.DefaultConfig eviction := bigcache.mkConfig 1024%Z eviction 1000000000%Z;
  bigcache.NewBigCache config :=
    if isPowerOfTwo (bigcache.Shards config)
    then (Some ∅, None)
    else (None, Some "Shards number must be power of two");
  bigcache.Get key e :=
    match e !! key with
    | Some v => ((v, None), e)
    | None => (([], Some entryNotFound), e)
    end;
  bigcache.Set_ key value e := (None, <[key := value]> e);
  bigcache.Delete key e :=
    match e !! key with
    | Some _ => (None, delete key e)
    | None => (Some entryNotFound, e)
    end;
  bigcache.Reset e := (None, ∅)
|}.

(** *** A store in the manner of miniredis *)

(** Glob matching with [*] and [?], as [KEYS] does it. *)
Fixpoint globMatch (pattern text : list ascii) : bool :=
  match pattern with
  | [] => match text with [] => true | _ :: _ => false end
  | p :: pattern' =>
      if Ascii.eqb p "*" then
        (fix star (text : list ascii) : bool :=
           globMatch pattern' text ||
           match text with
           | [] => false
           | _ :: text' => star text'
           end) text
      else
        match text with
        | [] => false
        | c :: text' => (Ascii.eqb p "?" || Ascii.eqb p c) && globMatch pattern' text'
        end
  end.

Definition glob (pattern text : string) : bool :=
  globMatch (list_ascii_of_string pattern) (list_ascii_of_string text).

(** [faults] scripts the transport: each call on the connection consumes
    one entry, and fails when it is [true]; calls beyond the script go
    through.  [queued] holds the keys of the deletes sent since [MULTI]. *)
Record MiniRedis : Type := mkMiniRedis {
  store : gmap string bytes;
  faults : list bool;
  queued : option (list string);
  closed : bool
}.

Definition connRefused : error := "dial tcp: connection refused".

(** Does the next call reach the server? *)
Definition attempt (s : MiniRedis) : bool * MiniRedis :=
  if closed s then (false, s)
  else
    match faults s with
    | fault :: rest => (negb fault, mkMiniRedis (store s) rest (queued s) (closed s))
    | [] => (true, s)
    end.

Definition matchingKeys (pattern : string) (s : MiniRedis) : list string :=
  filter (fun k => Is_true (glob pattern k)) (map fst (map_to_list (store s))).

Definition deleteAll (keys : list string) (m : gmap string bytes) : gmap string bytes :=
  foldr delete m keys.

(** The server's answer to one command. *)
Definition serve (cmd : string) (args : list Arg) (s : MiniRedis)
  : (redis.Reply * option error) * MiniRedis :=
  if String.eqb cmd "GET" then
    match args with
    | [AStr k] =>
        ((match store s !! k with Some v => redis.RBulk v | None => redis.RNil end, None), s)
    | _ => ((redis.RNil, Some "ERR wrong number of arguments"), s)
    end
  else if String.eqb cmd "SET" then
    match args with
    | [AStr k; ABytes v] =>
        ((redis.RStatus "OK", None),
         mkMiniRedis (<[k := v]> (store s)) (faults s) (queued s) (closed s))
    | _ => ((redis.RNil, Some "ERR wrong number of arguments"), s)
    end
  else if String.eqb cmd "KEYS" then
    match args with
    | [AStr pattern] =>
        ((redis.RArray (map (fun k => redis.EBulk (list_byte_of_string k))
                          (matchingKeys pattern s)), None), s)
    | _ => ((redis.RNil, Some "ERR wrong number of arguments"), s)
    end
  else if String.eqb cmd "MULTI" then
    ((redis.RStatus "OK", None), mkMiniRedis (store s) (faults s) (Some []) (closed s))
  else if String.eqb cmd "DEL" then
    match args, queued s with
    | [AStr k], Some q =>
        ((redis.RStatus "QUEUED", None),
         mkMiniRedis (store s) (faults s) (Some (q ++ [k])) (closed s))
    | [AStr k], None =>
        ((redis.RInt 1, None),
         mkMiniRedis (delete k (store s)) (faults s) None (closed s))
    | _, _ => ((redis.RNil, Some "ERR wrong number of arguments"), s)
    end
  else if String.eqb cmd "EXEC" then
    match queued s with
    | Some q =>
        ((redis.RArray (map (fun _ => redis.EInt 1) q), None),
         mkMiniRedis (deleteAll q (store s)) (faults s) None (closed s))
    | None => ((redis.RNil, Some "ERR EXEC without MULTI"), s)
    end
  else if String.eqb cmd "FLUSHALL" then
    ((redis.RStatus "OK", None), mkMiniRedis ∅ (faults s) (queued s) (closed s))
  else if String.eqb cmd "AUTH" then
    ((redis.RStatus "OK", None), s)
  else ((redis.RNil, Some "ERR unknown command"), s).

#[global] Instance MiniRedisCluster : redisc.Cluster MiniRedis := {|
  redisc.New urls timeout := mkMiniRedis ∅ [] None false;
  redisc.Refresh s :=
    match attempt s with
    | (true, s') => (None, s')
    | (false, s') => (Some connRefused, s')
    end;
  redisc.Close s := (None, mkMiniRedis (store s) (faults s) (queued s) true);
  redisc.Get s := s;
  redisc.Do cmd args s :=
    match attempt s with
    | (true, s') => serve cmd args s'
    | (false, s') => ((redis.RNil, Some connRefused), s')
    end;
  redisc.Send cmd args s :=
    match attempt s with
    | (true, s') => (None, (serve cmd args s').2)
    | (false, s') => (Some connRefused, s')
    end;
  redisc.ConnClose s := (None, s)
|}.

Definition miniredis (entries : list (string * bytes)) (faults : list bool) : MiniRedis :=
  mkMiniRedis (list_to_map entries) faults None false.

(** *** A codec for byte slices, standing in for encoding/gob *)

#[global] Instance ByteGob : Gob := {|
  gob_Encode value :=
    match value with
    | VBytes b => (b, None)
    | VNil => ([], Some "gob: cannot encode nil pointer of type *interface {}")
    | _ => ([], Some "gob: type not registered for interface")
    end;
  gob_Decode cachedValue target := (None, VBytes cachedValue)
|}.

(** [[]byte("...")] *)
Definition b (s : string) : bytes := list_byte_of_string s.

End Doubles.

(* ================================================================== *)
(** ** Prometheus metrics (tieredcache_metrics.go) *)

(** The Prometheus client, as far as the package uses it: counter vectors
    that live at an address, and the default registry.  A count is a
    natural number. *)
Module prometheus.

Record CounterVec : Type := mkCounterVec {
  Name : string;
  Help : string;
  labelNames : list string;
  series : gmap (list string) nat   (* label values to count *)
}.

Record Registry : Type := mkRegistry {
  heap : gmap nat CounterVec;    (* the vectors allocated so far, by address *)
  registered : list nat          (* the addresses registered, oldest first *)
}.

Definition empty : Registry := mkRegistry ∅ [].

(** The names under which collectors are registered. *)
Definition registeredNames (r : Registry) : list string :=
  omap (fun p => Name <$> heap r !! p) (registered r).

(** [prometheus.NewCounterVec(opts, labels)]: a new vector at a fresh
    address. *)
Definition NewCounterVec (name help : string) (labels : list string) : GoM Registry nat :=
  fun r =>
    let p := fresh (dom (heap r)) in
    (Ret p, mkRegistry (<[p := mkCounterVec name help labels ∅]> (heap r)) (registered r), []).

(** [prometheus.MustRegister(c)]: panics when a collector of that name is
    registered already. *)
Definition MustRegister (p : nat) : GoM Registry unit :=
  fun r =>
    match heap r !! p with
    | Some v =>
        if bool_decide (Name v ∈ registeredNames r)
        then (Panic "duplicate metrics collector registration attempted", r, [])
        else (Ret tt, mkRegistry (heap r) (registered r ++ [p]), [])
    | None => (Panic nil_deref, r, [])
    end.

(** [prometheus.Unregister(c)] *)
Definition Unregister (p : nat) : GoM Registry bool :=
  fun r =>
    (Ret (bool_decide (p ∈ registered r)),
     mkRegistry (heap r) (filter (fun q => q <> p) (registered r)), []).

(** [vec.WithLabelValues(lvs...).Inc()]: panics when the number of values
    is not the number of labels. *)
Definition Inc (p : nat) (lvs : list string) : GoM Registry unit :=
  fun r =>
    match heap r !! p with
    | Some v =>
        if bool_decide (length lvs = length (labelNames v))
        then
          let n := default 0 (series v !! lvs) in
          (Ret tt,
           mkRegistry
             (<[p := mkCounterVec (Name v) (Help v) (labelNames v) (<[lvs := S n]> (series v))]>
                (heap r))
             (registered r), [])
        else (Panic "inconsistent label cardinality", r, [])
    | None => (Panic nil_deref, r, [])
    end.

(** The count of one series of the vector at [p]; 0 when there is none. *)
Definition value (r : Registry) (p : nat) (lvs : list string) : nat :=
  match heap r !! p with
  | Some v => default 0 (series v !! lvs)
  | None => 0
  end.

End prometheus.

Module PrometheusCacheMetrics.

(** The eight package variables [hits], [misses], [sets], ...: each is
    named here by the method of [CacheMetrics] that increments it.  A
    variable holds the address of its vector, or nil. *)
Definition Vars : Type := CacheMetrics.call -> option nat.

(** The state of the package: its variables and the default registry. *)
Record Pkg : Type := mkPkg {
  vars : Vars;
  registry : prometheus.Registry
}.

(** The state when the process starts. *)
Definition init : Pkg := mkPkg (fun _ => None) prometheus.empty.

Definition setVar (s : Pkg) (c : CacheMetrics.call) (p : option nat) : Pkg :=
  mkPkg (fun c' => if decide (c' = c) then p else vars s c') (registry s).

(** A call of the client library, on the registry of the package state. *)
Definition onRegistry {A : Type} (m : GoM prometheus.Registry A) : GoM Pkg A :=
  fun s =>
    match m (registry s) with
    | (o, r, tr) => (o, mkPkg (vars s) r, tr)
    end.

(** [prometheus.CounterOpts{Name: ..., Help: ...}] of each variable. *)
Definition counterName (c : CacheMetrics.call) : string :=
  match c with
  | CacheMetrics.Hit => "cache_hits"
  | CacheMetrics.Miss => "cache_misses"
  | CacheMetrics.Set_ => "cache_sets"
  | CacheMetrics.SetCollision => "cache_sets_collisions"
  | CacheMetrics.DeleteHit => "cache_deletes_hits"
  | CacheMetrics.DeleteMiss => "cache_deletes_misses"
  | CacheMetrics.PurgeHit => "cache_purges_hits"
  | CacheMetrics.PurgeMiss => "cache_purges_misses"
  end.

Definition counterHelp (c : CacheMetrics.call) : string :=
  match c with
  | CacheMetrics.Hit => "Total number of cache hits"
  | CacheMetrics.Miss => "Total number of cache misses"
  | CacheMetrics.Set_ => "Total number of cache sets"
  | CacheMetrics.SetCollision => "Total number of cache sets collisions"
  | CacheMetrics.DeleteHit => "Total number of cache deletes hits"
  | CacheMetrics.DeleteMiss => "Total number of cache deletes misses"
  | CacheMetrics.PurgeHit => "Total number of cache purges hits"
  | CacheMetrics.PurgeMiss => "Total number of cache purges misses"
  end.

Definition labels : list string := ["client"; "cache_name"].

(** The variables in the order in which the constructor looks at them. *)
Definition variables : list CacheMetrics.call :=
  [CacheMetrics.Hit; CacheMetrics.Miss; CacheMetrics.Set_; CacheMetrics.SetCollision;
   CacheMetrics.DeleteHit; CacheMetrics.DeleteMiss; CacheMetrics.PurgeHit;
   CacheMetrics.PurgeMiss].

(** [if v == nil { v = prometheus.NewCounterVec(...); prometheus.MustRegister(v) }] *)
Definition ensure (c : CacheMetrics.call) : GoM Pkg unit :=
  s <- get ;;
  match vars s c with
  | Some _ => ret tt
  | None =>
      p <- onRegistry (prometheus.NewCounterVec (counterName c) (counterHelp c) labels) ;;
      modify (fun s => setVar s c (Some p)) ;;;
      onRegistry (prometheus.MustRegister p)
  end.

(** The eight blocks of the constructor, one after the other. *)
Fixpoint ensureAll (cs : list CacheMetrics.call) : GoM Pkg unit :=
  match cs with
  | [] => ret tt
  | c :: rest => ensure c ;;; ensureAll rest
  end.

(** The object behind a [*PrometheusCacheMetrics]: its two labels and the
    address of a vector per method. *)
Record t : Type := mk {
  client : string;
  name : string;
  counters : CacheMetrics.call -> option nat
}.

Definition NewPrometheusCacheMetrics (client cacheName : string) : GoM Pkg t :=
  ensureAll variables ;;;
  s <- get ;;
  ret (mk client cacheName (vars s)).

(** [pcm.v.WithLabelValues(pcm.client, pcm.name).Inc()] for the vector [v]
    of method [c]. *)
Definition inc (pcm : t) (c : CacheMetrics.call) : GoM Pkg unit :=
  match counters pcm c with
  | Some p => onRegistry (prometheus.Inc p [client pcm; name pcm])
  | None => panic nil_deref
  end.

Definition Hit (pcm : t) : GoM Pkg unit := inc pcm CacheMetrics.Hit.
Definition Miss (pcm : t) : GoM Pkg unit := inc pcm CacheMetrics.Miss.
Definition Set_ (pcm : t) : GoM Pkg unit := inc pcm CacheMetrics.Set_.
Definition SetCollision (pcm : t) : GoM Pkg unit := inc pcm CacheMetrics.SetCollision.
Definition DeleteHit (pcm : t) : GoM Pkg unit := inc pcm CacheMetrics.DeleteHit.
Definition DeleteMiss (pcm : t) : GoM Pkg unit := inc pcm CacheMetrics.DeleteMiss.
Definition PurgeHit (pcm : t) : GoM Pkg unit := inc pcm CacheMetrics.PurgeHit.
Definition PurgeMiss (pcm : t) : GoM Pkg unit := inc pcm CacheMetrics.PurgeMiss.

(** The method of [pcm] behind a call of the interface. *)
Definition method (pcm : t) (c : CacheMetrics.call) : GoM Pkg unit :=
  match c with
  | CacheMetrics.Hit => Hit pcm
  | CacheMetrics.Miss => Miss pcm
  | CacheMetrics.Set_ => Set_ pcm
  | CacheMetrics.SetCollision => SetCollision pcm
  | CacheMetrics.DeleteHit => DeleteHit pcm
  | CacheMetrics.DeleteMiss => DeleteMiss pcm
  | CacheMetrics.PurgeHit => PurgeHit pcm
  | CacheMetrics.PurgeMiss => PurgeMiss pcm
  end.

(** The test helper [deregister(pcm)]: the vectors are unregistered, the
    package variables keep pointing to them. *)
Fixpoint unregisterAll (pcm : t) (cs : list CacheMetrics.call) : GoM Pkg unit :=
  match cs with
  | [] => ret tt
  | c :: rest =>
      match counters pcm c with
      | Some p => onRegistry (prometheus.Unregister p) ;;; unregisterAll pcm rest
      | None => panic nil_deref
      end
  end.

Definition deregister (pcm : t) : GoM Pkg unit := unregisterAll pcm variables.

End PrometheusCacheMetrics.

(* ================================================================== *)
(** ** Command-line flags (cli.go) *)

(** A [*pflag.FlagSet], as far as the package uses it: the flags defined
    so far, by name, each with its default value and usage. *)
Module pflag.

Inductive Value : Type :=
| StringSlice (l : list string)
| String_ (s : string)
| Duration_ (d : Duration)
| Bool (b : bool)
| Uint (n : Z).

Record Flag : Type := mkFlag {
  DefValue : Value;
  Usage : string
}.

(** The set has a name, which its messages show. *)
Record FlagSet : Type := mkFlagSet {
  name : string;
  formal : gmap string Flag
}.

(** [pflag.NewFlagSet(name, ...)] *)
Definition NewFlagSet (name : string) : FlagSet := mkFlagSet name ∅.

(** [flags.Lookup(name)] *)
Definition Lookup (flags : FlagSet) (flagName : string) : option Flag :=
  formal flags !! flagName.

(** [flags.AddFlag]: defining a name twice panics. *)
Definition AddFlag (flagName : string) (value : Value) (usage : string) : GoM FlagSet unit :=
  fun flags =>
    match formal flags !! flagName with
    | Some _ => (Panic (name flags +:+ " flag redefined: " +:+ flagName), flags, [])
    | None =>
        (Ret tt, mkFlagSet (name flags) (<[flagName := mkFlag value usage]> (formal flags)), [])
    end.

End pflag.

(** [time.Second] and [time.Minute] *)
Definition Second : Duration := 1000000000%Z.
Definition Minute : Duration := (60 * Second)%Z.

(** The [RegisterFlags] methods.  Their state is the configuration
    behind the receiver and the flag set.  A [...Var(&field, name, value,
    usage)] call of pflag stores the default in the field, then adds the
    flag. *)
Module cli.

Definition defaultURLs : list string :=
  ["127.0.0.1:7000"; "127.0.0.1:7001"; "127.0.0.1:7002";
   "127.0.0.1:7003"; "127.0.0.1:7004"; "127.0.0.1:7005"].

(** One [...Var] call: [store] writes the default through the pointer. *)
Definition var {C : Type} (store : C -> C) (name : string) (value : pflag.Value)
    (usage : string) : GoM (C * pflag.FlagSet) unit :=
  fun s =>
    match pflag.AddFlag name value usage s.2 with
    | (o, flags, tr) => (o, (store s.1, flags), tr)
    end.

Definition RemoteCacheConfig_RegisterFlags
  : GoM (RemoteCacheConfig.t * pflag.FlagSet) unit :=
  var (fun rcc => RemoteCacheConfig.mk defaultURLs (RemoteCacheConfig.AuthToken rcc)
                    (RemoteCacheConfig.Timeout rcc) (RemoteCacheConfig.TracingEnabled rcc))
    "cache-urls" (pflag.StringSlice defaultURLs)
    "Remote Clustered Redis Cache URLs as a comma-separated list" ;;;
  var (fun rcc => RemoteCacheConfig.mk (RemoteCacheConfig.URLs rcc) ""
                    (RemoteCacheConfig.Timeout rcc) (RemoteCacheConfig.TracingEnabled rcc))
    "cache-auth-token" (pflag.String_ "") "Redis Auth Token, If Any" ;;;
  var (fun rcc => RemoteCacheConfig.mk (RemoteCacheConfig.URLs rcc)
                    (RemoteCacheConfig.AuthToken rcc) (Second * 5)%Z
                    (RemoteCacheConfig.TracingEnabled rcc))
    "cache-timeout" (pflag.Duration_ (Second * 5)%Z)
    "Remote Redis Cache Connection Timeout" ;;;
  var (fun rcc => RemoteCacheConfig.mk (RemoteCacheConfig.URLs rcc)
                    (RemoteCacheConfig.AuthToken rcc) (RemoteCacheConfig.Timeout rcc) true)
    "remote-cache-tracing-enabled" (pflag.Bool true) "Enable tracing on remote cache".

Definition LocalCacheConfig_RegisterFlags
  : GoM (LocalCacheConfig.t * pflag.FlagSet) unit :=
  var (fun lcc => LocalCacheConfig.mk (Second * 5)%Z (LocalCacheConfig.TTL lcc)
                    (LocalCacheConfig.Shards lcc) (LocalCacheConfig.TracingEnabled lcc))
    "cache-eviction" (pflag.Duration_ (Second * 5)%Z)
    "How frequently to evict from cache" ;;;
  var (fun lcc => LocalCacheConfig.mk (LocalCacheConfig.Eviction lcc) (Minute * 60)%Z
                    (LocalCacheConfig.Shards lcc) (LocalCacheConfig.TracingEnabled lcc))
    "cache-ttl" (pflag.Duration_ (Minute * 60)%Z) "Cache Entry TTL for local cache" ;;;
  var (fun lcc => LocalCacheConfig.mk (LocalCacheConfig.Eviction lcc)
                    (LocalCacheConfig.TTL lcc) 0%Z (LocalCacheConfig.TracingEnabled lcc))
    "cache-shards" (pflag.Uint 0%Z)
    "Number of shards for local cluster. 0 means the program decides itself. Must be power of 2." ;;;
  var (fun lcc => LocalCacheConfig.mk (LocalCacheConfig.Eviction lcc)
                    (LocalCacheConfig.TTL lcc) (LocalCacheConfig.Shards lcc) true)
    "local-cache-tracing-enabled" (pflag.Bool true) "Enable tracing on local cache".

(** A method called on a field of the receiver. *)
Definition onField {C F A : Type} (read : C -> F) (write : C -> F -> C)
    (m : GoM (F * pflag.FlagSet) A) : GoM (C * pflag.FlagSet) A :=
  fun s =>
    match m (read s.1, s.2) with
    | (o, (f, flags), tr) => (o, (write s.1 f, flags), tr)
    end.

Definition TieredCacheConfig_RegisterFlags
  : GoM (TieredCacheConfig.t * pflag.FlagSet) unit :=
  onField TieredCacheConfig.RemoteConfig
    (fun tcc rcc => TieredCacheConfig.mk rcc (TieredCacheConfig.LocalConfig tcc)
                      (TieredCacheConfig.Encoder tcc) (TieredCacheConfig.TracingEnabled tcc))
    RemoteCacheConfig_RegisterFlags ;;;
  onField TieredCacheConfig.LocalConfig
    (fun tcc lcc => TieredCacheConfig.mk (TieredCacheConfig.RemoteConfig tcc) lcc
                      (TieredCacheConfig.Encoder tcc) (TieredCacheConfig.TracingEnabled tcc))
    LocalCacheConfig_RegisterFlags ;;;
  var (fun tcc => TieredCacheConfig.mk (TieredCacheConfig.RemoteConfig tcc)
                    (TieredCacheConfig.LocalConfig tcc) (TieredCacheConfig.Encoder tcc) true)
    "tiered-cache-tracing-enabled" (pflag.Bool true) "Enable tracing on tiered cache".

(** The names that the three methods define. *)
Definition remoteFlags : list string :=
  ["cache-urls"; "cache-auth-token"; "cache-timeout"; "remote-cache-tracing-enabled"].

Definition localFlags : list string :=
  ["cache-eviction"; "cache-ttl"; "cache-shards"; "local-cache-tracing-enabled"].

Definition tieredFlags : list string :=
  remoteFlags ++ localFlags ++ ["tiered-cache-tracing-enabled"].

End cli.

(* ================================================================== *)
(** * Vocabulary of the properties *)

(** ** Reading traces *)

(** The method calls that the tiered cache made on tier [t], in order. *)
Fixpoint tierCalls (t : Tier) (tr : Trace) : list (string * list Arg) :=
  match tr with
  | [] => []
  | Call (ToTier t') name args :: rest =>
      if decide (t = t') then (name, args) :: tierCalls t rest else tierCalls t rest
  | _ :: rest => tierCalls t rest
  end.

(** The calls made on a connection, in order. *)
Fixpoint connCalls (tr : Trace) : list (string * list Arg) :=
  match tr with
  | [] => []
  | Call ToConn name args :: rest => (name, args) :: connCalls rest
  | _ :: rest => connCalls rest
  end.

(** How many calls [name] the cluster received. *)
Fixpoint clusterCalls (name : string) (tr : Trace) : nat :=
  match tr with
  | [] => 0
  | Call ToCluster name' _ :: rest =>
      if String.eqb name name' then S (clusterCalls name rest) else clusterCalls name rest
  | _ :: rest => clusterCalls name rest
  end.

(** Was the engine constructed? *)
Definition engineConstructed (tr : Trace) : bool :=
  existsb (fun e =>
    match e with
    | Call ToEngine name _ => String.eqb name "NewBigCache"
    | _ => false
    end) tr.

(** ** Statements *)

(** Reads of a tier do not change what later reads of it return. *)
Definition ReadStable (T : Type) `{!Cache.t T} : Prop :=
  forall (s : T) (key key' : string) (target : Value),
    outcome_of (Cache.GetBytes key' (state_of (Cache.Get key target s))) =
      outcome_of (Cache.GetBytes key' s) /\
    outcome_of (Cache.GetBytes key' (state_of (Cache.GetBytes key s))) =
      outcome_of (Cache.GetBytes key' s).
Arguments ReadStable T {_}.

(** [n] is [2 ^ k] for some [k]. *)
Definition powerOfTwo (n : Z) : Prop := exists k : nat, n = (2 ^ Z.of_nat k)%Z.



(** The steps of [Delete] on the connection taken from cluster [n]. *)
Section DeleteSteps.
Context {N : Type} `{!redisc.Cluster N}.
Variables (n : N) (key : string).

Definition keysStep : (redis.Reply * option error) * N :=
  redisc.Do "KEYS" [AStr key] (redisc.Get n).

Definition keysToDelete : list string := (redis.Strings keysStep.1).1.

Definition keysError : option error := (redis.Strings keysStep.1).2.

Definition multiStep : option error * N :=
  redisc.Send "MULTI" [] keysStep.2.

Definition execStep : (redis.Reply * option error) * N :=
  redisc.Do "EXEC" []
    (foldl (fun n k => (redisc.Send "DEL" [AStr k] n).2) multiStep.2 keysToDelete).

(** The call that [Delete] records. *)
Definition deleteRecorded : CacheMetrics.call :=
  if failed multiStep.1 || (Z.of_nat (length keysToDelete) <=? 0)%Z
  then CacheMetrics.DeleteMiss else CacheMetrics.DeleteHit.

(** The call that the specification expects. *)
Definition deleteExpected : CacheMetrics.call :=
  if failed keysError || (Z.of_nat (length keysToDelete) <=? 0)%Z
  then CacheMetrics.DeleteMiss else CacheMetrics.DeleteHit.

End DeleteSteps.

(** The calls of a process that reach the package variable, in the order in
    which they are made.  A call that panics leaves the variable as the
    panic left it; the calls that follow are those of a caller that
    recovered. *)
Section Process.
Context {E N : Type} `{!bigcache.Engine E, !redisc.Cluster N}.

Inductive PoolCall : Type :=
| NewRemote (rcc : RemoteCacheConfig.t) (encoder : option CacheEncoder.t)
    (metrics : option CacheMetrics.t)
| NewTiered (tcc : TieredCacheConfig.t) (encoder : option CacheEncoder.t)
    (metrics localMetrics remoteMetrics : option CacheMetrics.t)
| CloseRemote
| CloseTiered (tc : TieredCache.t (LocalCache.t E) (RemoteCache.t N)).

Definition perform (c : PoolCall) (s : sharedCluster.t N) : sharedCluster.t N * Trace :=
  match c with
  | NewRemote rcc encoder metrics =>
      let r := RemoteCacheConfig.NewCache rcc encoder metrics s in
      (state_of r, trace_of r)
  | NewTiered tcc encoder metrics localMetrics remoteMetrics =>
      let r := TieredCacheConfig.NewCache (E := E) tcc encoder metrics localMetrics
                 remoteMetrics s in
      (state_of r, trace_of r)
  | CloseRemote =>
      let r := RemoteCache.Close s in
      (state_of r, trace_of r)
  | CloseTiered tc =>
      let r := TieredCache.Close tc s in
      (state_of r, trace_of r)
  end.

Fixpoint run (calls : list PoolCall) (s : sharedCluster.t N) : sharedCluster.t N * Trace :=
  match calls with
  | [] => (s, [])
  | c :: rest =>
      let r1 := perform c s in
      let r2 := run rest r1.1 in
      (r2.1, r1.2 ++ r2.2)
  end.

(** Does the call reach [onceCreate.Do], or [onceClose.Do]? *)
Definition constructs (c : PoolCall) : bool :=
  match c with
  | NewRemote _ _ _ | NewTiered _ _ _ _ _ => true
  | CloseRemote | CloseTiered _ => false
  end.

Definition closes (c : PoolCall) : bool :=
  match c with
  | CloseRemote => true
  | CloseTiered tc => bool_decide (is_Some (TieredCache.Remote tc))
  | NewRemote _ _ _ | NewTiered _ _ _ _ _ => false
  end.

End Process.





(** ** Caches of the examples *)

(** A [MockCache] that holds [entries]. *)
Definition mockHolding (entries : list (string * bytes)) (encoder : option CacheEncoder.t)
  : MockCache.t :=
  MockCache.mk (Some (list_to_map entries)) encoder (Some []).

(** The tiers of [TestTieredGetBytesRemote]: only Remote holds the key. *)
Definition remoteOnly : TieredCache.t MockCache.t MockCache.t :=
  TieredCache.mk (Some (mockHolding [("test-key", Doubles.b "test-value")] None))
    (Some (MockCache.NewMockCache None)) None false.

(** A Local test double that holds nothing, in front of a store whose
    transport fails on the first command. *)
Definition brokenRemote : TieredCache.t MockCache.t (RemoteCache.t Doubles.MiniRedis) :=
  TieredCache.mk
    (Some (RemoteCache.mk (Some (Doubles.miniredis [] [true]))
             (Some MockCacheEncoder.encoder) (Some []) false))
    (Some (MockCache.NewMockCache (Some MockCacheEncoder.encoder)))
    (Some []) false.

(** [TestTieredGetRemote], with the byte-slice codec as encoder. *)
Definition remoteOnlyGob : TieredCache.t MockCache.t MockCache.t :=
  TieredCache.mk
    (Some (mockHolding [("test-key", Doubles.b "test-value")]
             (Some GobCacheEncoder.encoder)))
    (Some (MockCache.NewMockCache (Some GobCacheEncoder.encoder))) (Some []) false.

(** An encoder mock whose [Decode] is programmed to fail, as in
    [TestLocalGetError]. *)
Definition failingDecoder : CacheEncoder.t :=
  MockedCacheEncoder.encoder
    (MockedCacheEncoder.mk (fun _ => None) (fun _ _ => Some (Some "error"))).



(** A store that holds a matching key, behind a transport that carries the
    [KEYS] command and then fails on the [MULTI]. *)
Definition multiFails : RemoteCache.t Doubles.MiniRedis :=
  RemoteCache.mk (Some (Doubles.miniredis [("foo1", Doubles.b "a")] [false; true]))
    None (Some []) false.

(** A transport that fails on the [KEYS] command only. *)
Definition keysFails : RemoteCache.t Doubles.MiniRedis :=
  RemoteCache.mk (Some (Doubles.miniredis [("foo1", Doubles.b "a")] [true]))
    None (Some []) false.

(** The three configurations over the reference collaborators. *)
Definition gobLocal : LocalCache.t (gmap string bytes) :=
  LocalCache.mk (Some ∅) (Some GobCacheEncoder.encoder) (Some []) false.

Definition gobRemote : RemoteCache.t Doubles.MiniRedis :=
  RemoteCache.mk (Some (Doubles.miniredis [] [])) (Some GobCacheEncoder.encoder)
    (Some []) true.


(** ** Vocabulary of the further properties *)

(** The calls made on tracing spans, in order. *)
Fixpoint spanCalls (tr : Trace) : list (string * list Arg) :=
  match tr with
  | [] => []
  | Call ToSpan name args :: rest => (name, args) :: spanCalls rest
  | _ :: rest => spanCalls rest
  end.

(** All the calls the cluster received, in order. *)
Fixpoint clusterCallNames (tr : Trace) : list string :=
  match tr with
  | [] => []
  | Call ToCluster name _ :: rest => name :: clusterCallNames rest
  | _ :: rest => clusterCallNames rest
  end.

(** The calls the engine received, in order. *)
Fixpoint engineCalls (tr : Trace) : list (string * list Arg) :=
  match tr with
  | [] => []
  | Call ToEngine name args :: rest => (name, args) :: engineCalls rest
  | _ :: rest => engineCalls rest
  end.

(** How many calls [name] the connection received. *)
Definition connCount (name : string) (tr : Trace) : nat :=
  length (filter (fun c => c.1 = name) (connCalls tr)).

(** The [DEL] commands sent for a list of keys. *)
Definition delSends (keys : list string) : Trace :=
  map (fun k => Call ToConn "Send" [AStr "DEL"; AStr k]) keys.

(** The connection after the [DEL]s for [keys] were sent on [n]. *)
Definition afterDeletes {N : Type} `{!redisc.Cluster N} (n : N) (keys : list string) : N :=
  foldl (fun n k => (redisc.Send "DEL" [AStr k] n).2) n keys.

(** The cluster that [NewCache] works on: the one in the package variable
    when [onceCreate] is done, a new one from the configuration of the
    caller otherwise. *)
Definition clusterFor {N : Type} `{!redisc.Cluster N} (rcc : RemoteCacheConfig.t)
    (s : sharedCluster.t N) : option N :=
  if sharedCluster.onceCreate s then sharedCluster.cluster s
  else Some (redisc.New (RemoteCacheConfig.URLs rcc) (RemoteCacheConfig.Timeout rcc)).

(** The package variable never says "created" without holding a cluster. *)
Definition created_has_cluster {N : Type} (s : sharedCluster.t N) : Prop :=
  sharedCluster.onceCreate s = true -> is_Some (sharedCluster.cluster s).

(** A list of metric calls made on a Prometheus recorder, one after the
    other. *)
Fixpoint recordAll (pcm : PrometheusCacheMetrics.t) (cs : list CacheMetrics.call)
  : GoM PrometheusCacheMetrics.Pkg unit :=
  match cs with
  | [] => ret tt
  | c :: rest => PrometheusCacheMetrics.method pcm c ;;; recordAll pcm rest
  end.

(** The count that the recorder of method [c] shows for labels [lvs]. *)
Definition counterValue (s : PrometheusCacheMetrics.Pkg) (c : CacheMetrics.call)
    (lvs : list string) : nat :=
  match PrometheusCacheMetrics.vars s c with
  | Some p => prometheus.value (PrometheusCacheMetrics.registry s) p lvs
  | None => 0
  end.

(** The package variables all point to vectors with two labels, each to
    its own. *)
Definition vectorsReady (s : PrometheusCacheMetrics.Pkg) : Prop :=
  (forall c, exists p v,
      PrometheusCacheMetrics.vars s c = Some p /\
      prometheus.heap (PrometheusCacheMetrics.registry s) !! p = Some v /\
      length (prometheus.labelNames v) = 2) /\
  (forall c c', PrometheusCacheMetrics.vars s c = PrometheusCacheMetrics.vars s c' -> c = c').


(** The package state once the eight blocks of the constructor have run
    from the initial state. *)
Definition registeredState : PrometheusCacheMetrics.Pkg :=
  Eval vm_compute in
    state_of (PrometheusCacheMetrics.ensureAll PrometheusCacheMetrics.variables
                PrometheusCacheMetrics.init).

(* ================================================================== *)
(** * Properties *)

(** ** Tactics and trace lemmas *)

(** Unfolding the plumbing of computations. *)
Ltac unfold_go :=
  unfold bind, ret, get, modify, when, emit, panic, liftO, defer,
    outcome_of, state_of, trace_of in *.

(** Case analysis on the innermost scrutinee of the goal. *)
Ltac break_match :=
  match goal with
  | |- context [match ?x with _ => _ end] =>
      lazymatch x with
      | context [match _ with _ => _ end] => fail
      | _ => destruct x eqn:?
      end
  end.

Ltac crunch := repeat (simpl in *; break_match); simpl in *.

Lemma tierCalls_app (t : Tier) (tr1 tr2 : Trace) :
  tierCalls t (tr1 ++ tr2) = tierCalls t tr1 ++ tierCalls t tr2.
Proof.
  induction tr1 as [|e tr1 IH]; simpl; [reflexivity|].
  destruct e as [[t'| | | |] name args|]; simpl; try exact IH.
  destruct (decide (t = t')); simpl; congruence.
Qed.

Lemma tierCalls_within (t t' : Tier) (tr : Trace) :
  tierCalls t (map (Within t') tr) = [].
Proof. induction tr; simpl; auto. Qed.

Lemma connCalls_app (tr1 tr2 : Trace) :
  connCalls (tr1 ++ tr2) = connCalls tr1 ++ connCalls tr2.
Proof.
  induction tr1 as [|e tr1 IH]; simpl; [reflexivity|].
  destruct e as [[| | | |] name args|]; simpl; congruence.
Qed.

Lemma clusterCalls_app (name : string) (tr1 tr2 : Trace) :
  clusterCalls name (tr1 ++ tr2) = clusterCalls name tr1 + clusterCalls name tr2.
Proof.
  induction tr1 as [|e tr1 IH]; simpl; [reflexivity|].
  destruct e as [[| | | |] name' args|]; simpl; try exact IH.
  destruct (String.eqb name name'); simpl; congruence.
Qed.

Create Rewrite HintDb trace.
#[local] Hint Rewrite tierCalls_app tierCalls_within connCalls_app : trace.

(** ** Fallback reads *)

(** C1.  [TieredCache.GetBytes] calls [Local.GetBytes] first.  It calls
    [Remote.GetBytes] exactly when the Local call returned a non-nil error,
    and then the value and error it returns are Remote's; when the Local
    call succeeded its result is returned and Remote is neither called nor
    changed. *)
Theorem TieredCache_GetBytes_fallback {L R : Type} `{!Cache.t L, !Cache.t R}
    (tc : TieredCache.t L R) (l : L) (r : R) (key : string) :
  TieredCache.Local tc = Some l ->
  TieredCache.Remote tc = Some r ->
  let local := Cache.GetBytes key l in
  let remote := Cache.GetBytes key r in
  let res := TieredCache.GetBytes key tc in
  head (trace_of res) = Some (Call (ToTier LocalTier) "GetBytes" [AStr key]) /\
  tierCalls LocalTier (trace_of res) = [("GetBytes", [AStr key])] /\
  TieredCache.Local (state_of res) = Some (state_of local) /\
  (forall data e, outcome_of local = Ret (data, Some e) ->
     tierCalls RemoteTier (trace_of res) = [("GetBytes", [AStr key])] /\
     outcome_of res = outcome_of remote /\
     TieredCache.Remote (state_of res) = Some (state_of remote)) /\
  (forall data, outcome_of local = Ret (data, None) ->
     tierCalls RemoteTier (trace_of res) = [] /\
     outcome_of res = Ret (data, None) /\
     TieredCache.Remote (state_of res) = Some r) /\
  (forall msg, outcome_of local = Panic msg ->
     tierCalls RemoteTier (trace_of res) = [] /\
     outcome_of res = Panic msg /\
     TieredCache.Remote (state_of res) = Some r).
Proof.
  intros Hl Hr local remote res. subst local remote res.
  unfold TieredCache.GetBytes, TieredCache.onLocal, TieredCache.onRemote.
  unfold_go. rewrite Hl.
  destruct (Cache.GetBytes key l) as [[ol l'] trl].
  destruct ol as [[data [e|]]|msg]; simpl; rewrite ?Hr;
    [destruct (Cache.GetBytes key r) as [[or r'] trr]; simpl|..];
    autorewrite with trace; simpl; autorewrite with trace;
    repeat split; try discriminate; intros; simplify_eq; repeat split.
Qed.

Lemma TieredCache_GetBytes_fallback_witness :
  TieredCache.Local remoteOnly = Some (MockCache.NewMockCache None) /\
  TieredCache.Remote remoteOnly =
    Some (mockHolding [("test-key", Doubles.b "test-value")] None) /\
  tierCalls RemoteTier (trace_of (TieredCache.GetBytes "test-key" remoteOnly)) =
    [("GetBytes", [AStr "test-key"])] /\
  outcome_of (TieredCache.GetBytes "test-key" remoteOnly) =
    Ret (Doubles.b "test-value", None).
Proof.
  split; [reflexivity|]. split; [reflexivity|].
  destruct (TieredCache_GetBytes_fallback remoteOnly "test-key" eq_refl eq_refl)
    as (_ & _ & _ & Hmiss & _).
  destruct (Hmiss [] "key not found" eq_refl) as (Hcalls & Hout & _).
  split; [exact Hcalls|]. rewrite Hout. reflexivity.
Defined.

(** ** Write-through writes *)

(** C2.  [TieredCache.SetBytes] and [TieredCache.Set] call the Local tier
    first and the Remote tier only when the Local write returned no error.
    The error returned is Local's when Local failed and Remote's otherwise.
    Whatever Remote answers, the Local tier is left exactly as its own write
    left it: the tiered cache makes no second call on Local, so a Remote
    failure does not roll the Local write back. *)
Theorem TieredCache_Set_write_through {L R : Type} `{!Cache.t L, !Cache.t R}
    (tc : TieredCache.t L R) (l : L) (r : R) (key : string) (bs : bytes) (value : Value) :
  TieredCache.Local tc = Some l ->
  TieredCache.Remote tc = Some r ->
  (let local := Cache.SetBytes key bs l in
   let remote := Cache.SetBytes key bs r in
   let res := TieredCache.SetBytes key bs tc in
   head (trace_of res) = Some (Call (ToTier LocalTier) "SetBytes" [AStr key; ABytes bs]) /\
   tierCalls LocalTier (trace_of res) = [("SetBytes", [AStr key; ABytes bs])] /\
   TieredCache.Local (state_of res) = Some (state_of local) /\
   (forall e, outcome_of local = Ret (Some e) ->
      tierCalls RemoteTier (trace_of res) = [] /\
      outcome_of res = Ret (Some e) /\
      TieredCache.Remote (state_of res) = Some r) /\
   (outcome_of local = Ret None ->
      tierCalls RemoteTier (trace_of res) = [("SetBytes", [AStr key; ABytes bs])] /\
      outcome_of res = outcome_of remote /\
      TieredCache.Remote (state_of res) = Some (state_of remote))) /\
  (let local := Cache.Set_ key value l in
   let remote := Cache.Set_ key value r in
   let res := TieredCache.Set_ key value tc in
   head (trace_of res) = Some (Call (ToTier LocalTier) "Set" [AStr key]) /\
   tierCalls LocalTier (trace_of res) = [("Set", [AStr key])] /\
   TieredCache.Local (state_of res) = Some (state_of local) /\
   (forall e, outcome_of local = Ret (Some e) ->
      tierCalls RemoteTier (trace_of res) = [] /\
      outcome_of res = Ret (Some e) /\
      TieredCache.Remote (state_of res) = Some r) /\
   (outcome_of local = Ret None ->
      tierCalls RemoteTier (trace_of res) = [("Set", [AStr key])] /\
      outcome_of res = outcome_of remote /\
      TieredCache.Remote (state_of res) = Some (state_of remote))).
Proof.
  intros Hl Hr. split; intros local remote res; subst local remote res.
  - unfold TieredCache.SetBytes, TieredCache.onLocal, TieredCache.onRemote.
    unfold_go. rewrite Hl.
    destruct (Cache.SetBytes key bs l) as [[ol l'] trl].
    destruct ol as [[e|]|msg]; simpl; rewrite ?Hr;
      [..|destruct (Cache.SetBytes key bs r) as [[or r'] trr]; simpl|];
      autorewrite with trace; simpl; autorewrite with trace;
      repeat split; try discriminate; intros; simplify_eq; repeat split.
  - unfold TieredCache.Set_, TieredCache.observe, TieredCache.onLocal,
      TieredCache.onRemote.
    unfold_go. rewrite Hl.
    destruct (Cache.Set_ key value l) as [[ol l'] trl].
    destruct ol as [[e|]|msg]; simpl; rewrite ?Hr;
      [..|destruct (Cache.Set_ key value r) as [[[er|] r'] trr]; simpl|];
      autorewrite with trace; simpl; autorewrite with trace;
      repeat split; try discriminate; intros; simplify_eq; repeat split.
Qed.

Lemma TieredCache_Set_write_through_witness :
  let res := TieredCache.Set_ "test-key" (VBytes (Doubles.b "test-value")) brokenRemote in
  TieredCache.Local brokenRemote =
    Some (MockCache.NewMockCache (Some MockCacheEncoder.encoder)) /\
  TieredCache.Remote brokenRemote =
    Some (RemoteCache.mk (Some (Doubles.miniredis [] [true]))
            (Some MockCacheEncoder.encoder) (Some []) false) /\
  outcome_of res = Ret (Some Doubles.connRefused) /\
  (fun l => MockCache.lookup l "test-key") <$> TieredCache.Local (state_of res) =
    Some (Some (Doubles.b "test-value")).
Proof.
  intros res. split; [reflexivity|]. split; [reflexivity|].
  destruct (TieredCache_Set_write_through brokenRemote "test-key" []
              (VBytes (Doubles.b "test-value")) eq_refl eq_refl)
    as (_ & _ & _ & Hlocal & _ & Hok).
  destruct (Hok eq_refl) as (_ & Hout & _).
  split.
  - subst res. rewrite Hout. reflexivity.
  - subst res. rewrite Hlocal. reflexivity.
Defined.

(** ** No promotion *)

Lemma MockCache_ReadStable : ReadStable MockCache.t.
Proof.
  intros s key key' target. split.
  - replace (state_of (Cache.Get key target s)) with s; [reflexivity|].
    simpl. unfold MockCache.Get, MockCache.GetBytes, CacheEncoder.callDecode. unfold_go.
    destruct (MockCache.lookup s key); simpl; [|reflexivity].
    destruct (MockCache.Encoder s) as [enc|]; reflexivity.
  - replace (state_of (Cache.GetBytes key s)) with s; [reflexivity|].
    simpl. unfold MockCache.GetBytes. unfold_go.
    destruct (MockCache.lookup s key); reflexivity.
Qed.

(** C8.  When the Local read of a key fails, [TieredCache.Get] and
    [TieredCache.GetBytes] return what Remote returns, and the only call
    they make on the Local tier is that read: nothing is written into
    Local.  For a Local tier whose reads are stable, every later read of
    Local, of this key or another, returns what it returned before. *)
Theorem TieredCache_Get_no_promotion {L R : Type} `{!Cache.t L, !Cache.t R}
    (tc : TieredCache.t L R) (l : L) (r : R) (key : string) (target : Value) :
  TieredCache.Local tc = Some l ->
  TieredCache.Remote tc = Some r ->
  ReadStable L ->
  (forall e target1,
     outcome_of (Cache.Get key target l) = Ret (Some e, target1) ->
     let res := TieredCache.Get key target tc in
     outcome_of res = outcome_of (Cache.Get key target1 r) /\
     tierCalls LocalTier (trace_of res) = [("Get", [AStr key])] /\
     exists l', TieredCache.Local (state_of res) = Some l' /\
       forall key', outcome_of (Cache.GetBytes key' l') = outcome_of (Cache.GetBytes key' l)) /\
  (forall e data,
     outcome_of (Cache.GetBytes key l) = Ret (data, Some e) ->
     let res := TieredCache.GetBytes key tc in
     outcome_of res = outcome_of (Cache.GetBytes key r) /\
     tierCalls LocalTier (trace_of res) = [("GetBytes", [AStr key])] /\
     exists l', TieredCache.Local (state_of res) = Some l' /\
       forall key', outcome_of (Cache.GetBytes key' l') = outcome_of (Cache.GetBytes key' l)).
Proof.
  intros Hl Hr Hstable. split.
  - intros e target1 Hmiss res. subst res.
    pose proof (fun key' => proj1 (Hstable l key key' target)) as Hsame.
    unfold TieredCache.Get, TieredCache.observe, TieredCache.onLocal,
      TieredCache.onRemote.
    unfold_go. rewrite Hl.
    destruct (Cache.Get key target l) as [[ol l'] trl]. simpl in *. subst ol.
    simpl. rewrite Hr.
    destruct (Cache.Get key target1 r) as [[[er|] r'] trr]; simpl;
      autorewrite with trace; simpl; autorewrite with trace;
      (split; [reflexivity|]); (split; [reflexivity|]); eauto.
  - intros e data Hmiss res. subst res.
    pose proof (fun key' => proj2 (Hstable l key key' target)) as Hsame.
    unfold TieredCache.GetBytes, TieredCache.onLocal, TieredCache.onRemote.
    unfold_go. rewrite Hl.
    destruct (Cache.GetBytes key l) as [[ol l'] trl]. simpl in *. subst ol.
    simpl. rewrite Hr.
    destruct (Cache.GetBytes key r) as [[or r'] trr]; simpl;
      autorewrite with trace; simpl; autorewrite with trace;
      (split; [reflexivity|]); (split; [reflexivity|]); eauto.
Qed.

Lemma TieredCache_Get_no_promotion_witness :
  let res := TieredCache.Get "test-key" VNil remoteOnlyGob in
  ReadStable MockCache.t /\
  outcome_of res = Ret (None, VBytes (Doubles.b "test-value")) /\
  tierCalls LocalTier (trace_of res) = [("Get", [AStr "test-key"])] /\
  (fun l => MockCache.lookup l "test-key") <$> TieredCache.Local (state_of res) = Some None.
Proof.
  intros res. split; [exact MockCache_ReadStable|].
  destruct (TieredCache_Get_no_promotion remoteOnlyGob "test-key" VNil
              eq_refl eq_refl MockCache_ReadStable) as (Hget & _).
  destruct (Hget "key not found" VNil eq_refl) as (Hout & Hcalls & _).
  split; [subst res; rewrite Hout; reflexivity|].
  split; [exact Hcalls|]. reflexivity.
Defined.

(** ** Shard validation *)

Lemma powerOfTwo_1 : powerOfTwo 1%Z.
Proof. exists 0%nat. reflexivity. Qed.

Lemma not_powerOfTwo_6 : ~ powerOfTwo 6%Z.
Proof.
  intros [k Hk].
  destruct k as [|[|[|k]]]; try discriminate Hk.
  assert (Hle : (2 ^ 3 <= 2 ^ Z.of_nat (S (S (S k))))%Z)
    by (apply Z.pow_le_mono_r; lia).
  rewrite <- Hk in Hle. simpl in Hle. lia.
Qed.

(** The guard of [NewCache] looks at the last bit of [Shards]. *)
Lemma shardsRejected_odd (lcc : LocalCacheConfig.t) :
  LocalCacheConfig.shardsRejected lcc = Z.odd (LocalCacheConfig.Shards lcc).
Proof.
  unfold LocalCacheConfig.shardsRejected.
  rewrite Zmod_odd.
  destruct (Z.odd (LocalCacheConfig.Shards lcc)) eqn:Hodd; simpl.
  - destruct (LocalCacheConfig.Shards lcc); simpl in *; congruence.
  - apply andb_false_r.
Qed.

(** What [NewCache] does on either side of its guard. *)
Lemma NewCache_guard {E : Type} `{!bigcache.Engine E} (lcc : LocalCacheConfig.t)
    (encoder : option CacheEncoder.t) (metrics : option CacheMetrics.t) :
  let res := LocalCacheConfig.NewCache (E := E) lcc encoder metrics tt in
  (LocalCacheConfig.shardsRejected lcc = true ->
     outcome_of res =
       Ret (LocalCache.mk None encoder None (LocalCacheConfig.TracingEnabled lcc),
            Some (LocalCacheConfig.shardsError lcc)) /\
     engineConstructed (trace_of res) = false) /\
  (LocalCacheConfig.shardsRejected lcc = false ->
     engineConstructed (trace_of res) = true /\
     exists cache,
       outcome_of res =
         Ret (cache, (bigcache.NewBigCache (LocalCacheConfig.engineConfig (E := E) lcc)).2) /\
       LocalCache.Cache cache =
         (bigcache.NewBigCache (LocalCacheConfig.engineConfig (E := E) lcc)).1).
Proof.
  intros res. subst res. unfold LocalCacheConfig.NewCache.
  destruct (LocalCacheConfig.shardsRejected lcc); split; try discriminate; intros _.
  - split; reflexivity.
  - unfold_go. simpl.
    destruct (bigcache.NewBigCache (LocalCacheConfig.engineConfig lcc)) as [engine err].
    simpl. split; [reflexivity|].
    destruct metrics; eexists; split; reflexivity.
Qed.

(** C3.  The guard of [LocalCacheConfig.NewCache] rejects the odd shard
    counts, not the counts that are no power of two.  It does reject 3 and
    lets 0 and 4 through.  But 6, which is not zero and no power of two,
    passes the guard, so that the engine is constructed and the error
    returned, if any, is the engine's; and 1, which is a power of two, is
    rejected by the guard. *)
Theorem LocalCacheConfig_NewCache_shards_guard {E : Type} `{!bigcache.Engine E}
    (eviction ttl : Duration) (tracing : bool)
    (encoder : option CacheEncoder.t) (metrics : option CacheMetrics.t) :
  let lcc n := LocalCacheConfig.mk eviction ttl n tracing in
  let res n := LocalCacheConfig.NewCache (E := E) (lcc n) encoder metrics tt in
  (LocalCacheConfig.shardsRejected (lcc 3%Z) = true /\
   LocalCacheConfig.shardsRejected (lcc 0%Z) = false /\
   LocalCacheConfig.shardsRejected (lcc 4%Z) = false) /\
  (~ powerOfTwo 6%Z /\
   engineConstructed (trace_of (res 6%Z)) = true /\
   exists cache,
     outcome_of (res 6%Z) =
       Ret (cache, (bigcache.NewBigCache (LocalCacheConfig.engineConfig (E := E) (lcc 6%Z))).2)) /\
  (powerOfTwo 1%Z /\
   engineConstructed (trace_of (res 1%Z)) = false /\
   outcome_of (res 1%Z) =
     Ret (LocalCache.mk None encoder None tracing,
          Some "shards must be power of 2 - 1 is invalid")).
Proof.
  intros lcc res. split; [repeat split|]. split.
  - split; [exact not_powerOfTwo_6|].
    destruct (NewCache_guard (E := E) (lcc 6%Z) encoder metrics) as [_ Hpass].
    destruct (Hpass eq_refl) as (Hc & cache & Hout & _).
    split; [exact Hc|]. exists cache. exact Hout.
  - split; [exact powerOfTwo_1|].
    destruct (NewCache_guard (E := E) (lcc 1%Z) encoder metrics) as [Hrej _].
    destruct (Hrej eq_refl) as (Hout & Hc).
    split; [exact Hc|]. exact Hout.
Qed.

(** With an engine that applies bigcache's own test, six shards are refused
    by the engine, and one shard would have been accepted by it. *)
Example NewCache_six_shards_refused_by_engine :
  outcome_of (LocalCacheConfig.NewCache (E := gmap string bytes)
                (LocalCacheConfig.mk 1000000000%Z 1000000000%Z 6%Z false) None None tt) =
    Ret (LocalCache.mk None None None false, Some "Shards number must be power of two") /\
  Doubles.isPowerOfTwo 1%Z = true.
Proof. split; reflexivity. Qed.

(** ** Closing a tiered cache *)

(** C10.  [TieredCache.Close] is [RemoteCache.Close] when the Remote field
    holds a [RemoteCache].  When it holds any other implementation of
    [Cache], the type assertion fails: [Close] panics, and neither the tier
    nor the shared cluster is touched. *)
Theorem TieredCache_Close_requires_RemoteCache {L R N : Type}
    `{!Cache.t L, !Cache.t R, !redisc.Cluster N}
    (tc : TieredCache.t L R) (r : R) :
  TieredCache.Remote tc = Some r ->
  (Cache.dynType R = TyRemoteCache ->
     TieredCache.Close (N := N) tc = RemoteCache.Close) /\
  (Cache.dynType R <> TyRemoteCache ->
     forall s : sharedCluster.t N,
       exists msg, TieredCache.Close tc s = (Panic msg, s, [])).
Proof.
  intros Hr. unfold TieredCache.Close. rewrite Hr.
  destruct (decide (Cache.dynType R = TyRemoteCache)) as [Heq|Hne]; split;
    intros Hty; try contradiction; try reflexivity.
  intros s. eexists. reflexivity.
Qed.

Lemma TieredCache_Close_requires_RemoteCache_witness :
  TieredCache.Remote remoteOnly =
    Some (mockHolding [("test-key", Doubles.b "test-value")] None) /\
  Cache.dynType MockCache.t <> TyRemoteCache /\
  exists msg,
    TieredCache.Close (N := Doubles.MiniRedis) remoteOnly sharedCluster.init =
      (Panic msg, sharedCluster.init, []).
Proof.
  split; [reflexivity|]. split; [discriminate|].
  apply (TieredCache_Close_requires_RemoteCache (N := Doubles.MiniRedis) remoteOnly eq_refl).
  discriminate.
Defined.

(** ** Hit and Miss *)






(** ** The delete protocol of the remote cache *)

(** [redis.Strings] returns no strings when it returns an error. *)
Lemma Strings_error (r : redis.Reply * option error) :
  (redis.Strings r).2 <> None -> (redis.Strings r).1 = [].
Proof.
  destruct r as [reply [e|]]; destruct reply; simpl; try reflexivity.
  destruct (redis.elemStrings elems); simpl; [congruence|reflexivity].
Qed.

(** The loop over the matched keys sends one [DEL] per key, and touches
    nothing but the connection. *)
Lemma sendDeletes_spec {N : Type} `{!redisc.Cluster N} (keys : list string) :
  forall (rc : RemoteCache.t N) (n : N),
    RemoteCache.cluster rc = Some n ->
    exists n' tr,
      RemoteCache.sendDeletes keys rc = (Ret tt, RemoteCache.withCluster rc (Some n'), tr) /\
      connCalls tr = map (fun k => ("Send", [AStr "DEL"; AStr k])) keys /\
      n' = foldl (fun n k => (redisc.Send "DEL" [AStr k] n).2) n keys.
Proof.
  induction keys as [|k keys IH]; intros rc n Hc; simpl.
  - exists n, []. unfold ret. destruct rc; simpl in *; subst. repeat split.
  - unfold bind, RemoteCache.connSend, RemoteCache.onCluster. rewrite Hc.
    destruct (IH (RemoteCache.withCluster rc (Some (redisc.Send "DEL" [AStr k] n).2))
                (redisc.Send "DEL" [AStr k] n).2 eq_refl)
      as (n' & tr & Hrun & Hcalls & Hn').
    rewrite Hrun. exists n', (Call ToConn "Send" [AStr "DEL"; AStr k] :: tr).
    simpl. rewrite Hcalls. repeat split. exact Hn'.
Qed.

(** [Delete], step by step. *)
Lemma RemoteCache_Delete_run {N : Type} `{!redisc.Cluster N}
    (rc : RemoteCache.t N) (n : N) (key : string) :
  RemoteCache.cluster rc = Some n ->
  let res := RemoteCache.Delete key rc in
  outcome_of res = Ret (execStep n key).1.2 /\
  RemoteCache.Metrics (state_of res) =
    CacheMetrics.record (RemoteCache.Metrics rc) (deleteRecorded n key) /\
  connCalls (trace_of res) =
    [("Do", [AStr "KEYS"; AStr key]); ("Send", [AStr "MULTI"])] ++
    map (fun k => ("Send", [AStr "DEL"; AStr k])) (keysToDelete n key) ++
    [("Do", [AStr "EXEC"]); ("Close", [])].
Proof.
  intros Hc res. subst res.
  unfold execStep, deleteRecorded, multiStep, keysToDelete, keysStep.
  unfold RemoteCache.Delete, RemoteCache.getConn, RemoteCache.closeConn,
    RemoteCache.connDo, RemoteCache.connSend, RemoteCache.traced,
    RemoteCache.observe, RemoteCache.onCluster.
  unfold_go.
  destruct rc as [c enc m tracing]. simpl in Hc. subst c.
  set (n1 := (redisc.Do "KEYS" [AStr key] (redisc.Get n)).2).
  set (keys := (redis.Strings (redisc.Do "KEYS" [AStr key] (redisc.Get n)).1).1).
  set (n2 := (redisc.Send "MULTI" [] n1).2).
  set (recorded := if failed (redisc.Send "MULTI" [] n1).1
                      || (Z.of_nat (length keys) <=? 0)%Z
                   then CacheMetrics.DeleteMiss else CacheMetrics.DeleteHit).
  destruct (sendDeletes_spec keys
              (RemoteCache.mk (Some n2) enc (CacheMetrics.record m recorded) tracing) eq_refl)
    as (n' & tr & Hrun & Hcalls & Hn').
  destruct tracing; simpl in *; fold n1 keys n2 recorded;
    unfold RemoteCache.withMetrics, RemoteCache.withCluster; simpl;
    rewrite Hrun; simpl; subst n';
    (split; [reflexivity|]); (split; [reflexivity|]);
    rewrite ?connCalls_app; simpl; rewrite ?connCalls_app, Hcalls; simpl;
    rewrite ?app_nil_r, <- ?app_assoc; reflexivity.
Qed.

(** C5, amended.  [RemoteCache.Delete] records [DeleteMiss] exactly when
    the [MULTI] that opens the batch could not be sent or no key is to be
    deleted, which is the case when the [KEYS] step failed or matched no
    key; it records [DeleteHit] exactly when the [KEYS] step succeeded with
    at least one key and the [MULTI] was sent. *)
Theorem RemoteCache_Delete_records {N : Type} `{!redisc.Cluster N}
    (rc : RemoteCache.t N) (n : N) (key : string) :
  RemoteCache.cluster rc = Some n ->
  RemoteCache.Metrics (state_of (RemoteCache.Delete key rc)) =
    CacheMetrics.record (RemoteCache.Metrics rc) (deleteRecorded n key) /\
  (deleteRecorded n key = CacheMetrics.DeleteMiss <->
     keysError n key <> None \/ keysToDelete n key = [] \/ (multiStep n key).1 <> None) /\
  (deleteRecorded n key = CacheMetrics.DeleteHit <->
     keysError n key = None /\ keysToDelete n key <> [] /\ (multiStep n key).1 = None).
Proof.
  intros Hc.
  split; [exact (proj1 (proj2 (RemoteCache_Delete_run rc key Hc)))|].
  pose proof (Strings_error (keysStep n key).1) as Hnil.
  fold (keysError n key) (keysToDelete n key) in Hnil.
  unfold deleteRecorded.
  destruct (multiStep n key).1 as [em|]; simpl;
    destruct (keysToDelete n key) as [|k keys]; simpl;
    destruct (keysError n key) as [ek|];
    split; split; try discriminate; try tauto; intuition congruence.
Qed.

Lemma RemoteCache_Delete_records_witness :
  RemoteCache.cluster multiFails =
    Some (Doubles.miniredis [("foo1", Doubles.b "a")] [false; true]) /\
  RemoteCache.Metrics (state_of (RemoteCache.Delete "foo*" multiFails)) =
    Some [CacheMetrics.DeleteMiss].
Proof.
  split; [reflexivity|].
  rewrite (proj1 (RemoteCache_Delete_records multiFails "foo*" eq_refl)).
  reflexivity.
Defined.

(** C5 as stated fails: the [KEYS] step succeeds and matches one key, and
    yet [DeleteMiss] is recorded, because the [MULTI] could not be sent. *)
Lemma RemoteCache_Delete_miss_despite_match :
  let n := Doubles.miniredis [("foo1", Doubles.b "a")] [false; true] in
  keysError n "foo*" = None /\
  keysToDelete n "foo*" = ["foo1"] /\
  deleteExpected n "foo*" = CacheMetrics.DeleteHit /\
  RemoteCache.Metrics (state_of (RemoteCache.Delete "foo*" multiFails)) =
    Some [CacheMetrics.DeleteMiss] /\
  RemoteCache.Metrics (state_of (RemoteCache.Delete "foo*" multiFails)) <>
    CacheMetrics.record (RemoteCache.Metrics multiFails) (deleteExpected n "foo*").
Proof.
  intros n. repeat split; try reflexivity.
  vm_compute. discriminate.
Qed.

(** C6.  When the [KEYS] step of [RemoteCache.Delete] fails, the calls made
    on the connection are still [KEYS], [MULTI], [EXEC] and the deferred
    [Close], and the error returned is the one [EXEC] returned. *)
Theorem RemoteCache_Delete_no_short_circuit {N : Type} `{!redisc.Cluster N}
    (rc : RemoteCache.t N) (n : N) (key : string) (e : error) :
  RemoteCache.cluster rc = Some n ->
  keysError n key = Some e ->
  let res := RemoteCache.Delete key rc in
  connCalls (trace_of res) =
    [("Do", [AStr "KEYS"; AStr key]); ("Send", [AStr "MULTI"]);
     ("Do", [AStr "EXEC"]); ("Close", [])] /\
  outcome_of res = Ret (redisc.Do "EXEC" [] (multiStep n key).2).1.2.
Proof.
  intros Hc Hkeys res. subst res.
  destruct (RemoteCache_Delete_run rc key Hc) as (Hout & _ & Hcalls).
  assert (Hnil : keysToDelete n key = []).
  { apply Strings_error. fold (keysError n key). congruence. }
  rewrite Hcalls, Hout. unfold execStep. rewrite Hnil. split; reflexivity.
Qed.

Lemma RemoteCache_Delete_no_short_circuit_witness :
  RemoteCache.cluster keysFails =
    Some (Doubles.miniredis [("foo1", Doubles.b "a")] [true]) /\
  keysError (Doubles.miniredis [("foo1", Doubles.b "a")] [true]) "foo*" =
    Some Doubles.connRefused /\
  connCalls (trace_of (RemoteCache.Delete "foo*" keysFails)) =
    [("Do", [AStr "KEYS"; AStr "foo*"]); ("Send", [AStr "MULTI"]);
     ("Do", [AStr "EXEC"]); ("Close", [])] /\
  outcome_of (RemoteCache.Delete "foo*" keysFails) = Ret None.
Proof.
  assert (Hkeys : keysError (Doubles.miniredis [("foo1", Doubles.b "a")] [true]) "foo*" =
                  Some Doubles.connRefused) by reflexivity.
  split; [reflexivity|]. split; [exact Hkeys|].
  destruct (RemoteCache_Delete_no_short_circuit keysFails "foo*" eq_refl Hkeys)
    as [Hcalls Hout].
  split; [exact Hcalls|]. rewrite Hout. reflexivity.
Defined.

(** The fuzzy delete of the specification's example. *)
Example RemoteCache_Delete_fuzzy :
  let rc := RemoteCache.mk
              (Some (Doubles.miniredis
                       [("foo1", Doubles.b "a"); ("foo2", Doubles.b "b");
                        ("bar", Doubles.b "c")] []))
              None (Some []) false in
  let res := RemoteCache.Delete "foo*" rc in
  outcome_of res = Ret None /\
  RemoteCache.Metrics (state_of res) = Some [CacheMetrics.DeleteHit] /\
  (Doubles.store <$> RemoteCache.cluster (state_of res)) =
    Some {[ "bar" := Doubles.b "c" ]}.
Proof. repeat split; vm_compute; reflexivity. Qed.

(** ** The shared connection pool *)

Section ProcessFacts.
Context {E N : Type} `{!bigcache.Engine E, !redisc.Cluster N}.

Lemma NewCache_once (rcc : RemoteCacheConfig.t) (encoder : option CacheEncoder.t)
    (metrics : option CacheMetrics.t) (s : sharedCluster.t N) :
  let r := RemoteCacheConfig.NewCache rcc encoder metrics s in
  sharedCluster.onceCreate (state_of r) = true /\
  sharedCluster.onceClose (state_of r) = sharedCluster.onceClose s /\
  clusterCalls "New" (trace_of r) = (if sharedCluster.onceCreate s then 0 else 1) /\
  clusterCalls "Close" (trace_of r) = 0.
Proof.
  unfold RemoteCacheConfig.NewCache, RemoteCacheConfig.createCluster, sync.Do,
    sharedCluster.onCluster.
  unfold_go. destruct s as [c created closed]. simpl.
  destruct created; crunch; repeat split; reflexivity.
Qed.

Lemma LocalNewCache_no_cluster_call (lcc : LocalCacheConfig.t)
    (encoder : option CacheEncoder.t) (metrics : option CacheMetrics.t) (name : string) :
  clusterCalls name (trace_of (LocalCacheConfig.NewCache (E := E) lcc encoder metrics tt)) = 0.
Proof.
  unfold LocalCacheConfig.NewCache. unfold_go.
  destruct (LocalCacheConfig.shardsRejected lcc); [reflexivity|].
  destruct (bigcache.NewBigCache (LocalCacheConfig.engineConfig lcc)). reflexivity.
Qed.

Lemma TieredNewCache_once (tcc : TieredCacheConfig.t) (encoder : option CacheEncoder.t)
    (metrics localMetrics remoteMetrics : option CacheMetrics.t) (s : sharedCluster.t N) :
  let r := TieredCacheConfig.NewCache (E := E) tcc encoder metrics localMetrics
             remoteMetrics s in
  sharedCluster.onceCreate (state_of r) = true /\
  sharedCluster.onceClose (state_of r) = sharedCluster.onceClose s /\
  clusterCalls "New" (trace_of r) = (if sharedCluster.onceCreate s then 0 else 1) /\
  clusterCalls "Close" (trace_of r) = 0.
Proof.
  pose proof (NewCache_once (TieredCacheConfig.RemoteConfig tcc) encoder remoteMetrics s)
    as Hremote.
  pose proof (LocalNewCache_no_cluster_call (TieredCacheConfig.LocalConfig tcc) encoder
                localMetrics) as Hlocal.
  unfold TieredCacheConfig.NewCache, TieredCacheConfig.stateless.
  unfold_go.
  destruct (RemoteCacheConfig.NewCache _ encoder remoteMetrics s) as [[o s1] tr1].
  destruct (LocalCacheConfig.NewCache _ encoder localMetrics tt) as [[ol u] trl].
  simpl in *. destruct Hremote as (Hc & Hx & Hnew & Hclose).
  destruct o as [[remote [e|]]|msg]; simpl; rewrite ?app_nil_r; [tauto| |tauto].
  destruct ol as [[local [e|]]|msg]; simpl;
    rewrite ?clusterCalls_app, ?Hlocal, ?app_nil_r, ?Nat.add_0_r; tauto.
Qed.

Lemma Close_once (s : sharedCluster.t N) :
  let r := RemoteCache.Close s in
  sharedCluster.onceCreate (state_of r) = sharedCluster.onceCreate s /\
  sharedCluster.onceClose (state_of r) = true /\
  clusterCalls "New" (trace_of r) = 0 /\
  clusterCalls "Close" (trace_of r) = (if sharedCluster.onceClose s then 0 else 1).
Proof.
  unfold RemoteCache.Close, sync.Do, sharedCluster.onCluster.
  unfold_go. destruct s as [c created closed]. simpl.
  destruct closed; crunch; repeat split; reflexivity.
Qed.

Lemma perform_once (c : PoolCall (E := E) (N := N)) (s : sharedCluster.t N) :
  sharedCluster.onceCreate (perform c s).1 = sharedCluster.onceCreate s || constructs c /\
  sharedCluster.onceClose (perform c s).1 = sharedCluster.onceClose s || closes c /\
  clusterCalls "New" (perform c s).2 =
    (if sharedCluster.onceCreate s then 0 else if constructs c then 1 else 0) /\
  clusterCalls "Close" (perform c s).2 =
    (if sharedCluster.onceClose s then 0 else if closes c then 1 else 0).
Proof.
  destruct c as [rcc enc m|tcc enc m lm rm| |tc]; simpl.
  - destruct (NewCache_once rcc enc m s) as (Hc & Hx & Hnew & Hclose).
    rewrite Hc, Hx, Hnew, Hclose, orb_true_r, orb_false_r.
    destruct (sharedCluster.onceClose s), (sharedCluster.onceCreate s); repeat split.
  - destruct (TieredNewCache_once tcc enc m lm rm s) as (Hc & Hx & Hnew & Hclose).
    rewrite Hc, Hx, Hnew, Hclose, orb_true_r, orb_false_r.
    destruct (sharedCluster.onceClose s), (sharedCluster.onceCreate s); repeat split.
  - destruct (Close_once s) as (Hc & Hx & Hnew & Hclose).
    rewrite Hc, Hx, Hnew, Hclose, orb_true_r, orb_false_r.
    destruct (sharedCluster.onceClose s), (sharedCluster.onceCreate s); repeat split.
  - unfold TieredCache.Close.
    destruct (TieredCache.Remote tc) as [r|]; simpl.
    + destruct (Close_once s) as (Hc & Hx & Hnew & Hclose).
      rewrite ?bool_decide_eq_true_2 by eauto.
      rewrite Hc, Hx, Hnew, Hclose, orb_true_r, orb_false_r.
      destruct (sharedCluster.onceClose s), (sharedCluster.onceCreate s); repeat split.
    + rewrite ?bool_decide_eq_false_2 by (intros [? ?]; discriminate).
      unfold panic, state_of, trace_of. simpl. rewrite !orb_false_r.
      destruct (sharedCluster.onceClose s), (sharedCluster.onceCreate s); repeat split.
Qed.

Lemma run_once (calls : list (PoolCall (E := E) (N := N))) :
  forall s : sharedCluster.t N,
    clusterCalls "New" (run calls s).2 =
      (if sharedCluster.onceCreate s then 0 else if existsb constructs calls then 1 else 0) /\
    clusterCalls "Close" (run calls s).2 =
      (if sharedCluster.onceClose s then 0 else if existsb closes calls then 1 else 0).
Proof.
  induction calls as [|c calls IH]; intros s; simpl.
  - destruct (sharedCluster.onceCreate s), (sharedCluster.onceClose s); split; reflexivity.
  - destruct (perform_once c s) as (Hc & Hx & Hnew & Hclose).
    destruct (IH (perform c s).1) as [IHnew IHclose].
    rewrite !clusterCalls_app, Hnew, Hclose, IHnew, IHclose, Hc, Hx.
    destruct (sharedCluster.onceCreate s), (sharedCluster.onceClose s),
      (constructs c), (closes c), (existsb constructs calls), (existsb closes calls);
      split; reflexivity.
Qed.

(** C9.  Whatever calls a process makes to [RemoteCacheConfig.NewCache],
    [TieredCacheConfig.NewCache], [RemoteCache.Close] and
    [TieredCache.Close], in whatever order and from whatever state of the
    package variable, the cluster is constructed at most once and closed at
    most once.  Starting from the initial state, it is constructed exactly
    once if some cache is built and not at all otherwise, and its close is
    called exactly once if some [Close] is called and not at all
    otherwise. *)
Theorem shared_cluster_created_and_closed_once (calls : list (PoolCall (E := E) (N := N)))
    (s : sharedCluster.t N) :
  clusterCalls "New" (run calls s).2 <= 1 /\
  clusterCalls "Close" (run calls s).2 <= 1 /\
  clusterCalls "New" (run calls sharedCluster.init).2 =
    (if existsb constructs calls then 1 else 0) /\
  clusterCalls "Close" (run calls sharedCluster.init).2 =
    (if existsb closes calls then 1 else 0).
Proof.
  destruct (run_once calls s) as [Hnew Hclose].
  destruct (run_once calls sharedCluster.init) as [Hnew0 Hclose0].
  rewrite Hnew, Hclose, Hnew0, Hclose0. simpl.
  destruct (sharedCluster.onceCreate s), (sharedCluster.onceClose s),
    (existsb constructs calls), (existsb closes calls); repeat split; lia.
Qed.

End ProcessFacts.

(** Two caches built from different seed lists, and three closes. *)
Example shared_cluster_example :
  let rcc urls := RemoteCacheConfig.mk urls "" 5000000000%Z false in
  let calls : list (PoolCall (E := gmap string bytes) (N := Doubles.MiniRedis)) :=
    [NewRemote (rcc ["127.0.0.1:7000"]) None None;
     NewRemote (rcc ["127.0.0.1:7001"]) None None;
     CloseRemote; CloseRemote; CloseRemote] in
  clusterCalls "New" (run calls sharedCluster.init).2 = 1 /\
  clusterCalls "Close" (run calls sharedCluster.init).2 = 1 /\
  (Doubles.closed <$> sharedCluster.cluster (run calls sharedCluster.init).1) = Some true.
Proof. repeat split; vm_compute; reflexivity. Qed.

(** ** Round trip *)






(** ** The tests of the package, replayed *)

(** [TestTieredSetBytes] *)
Example TestTieredSetBytes :
  let tc := TieredCache.mk (Some (MockCache.NewMockCache None))
              (Some (MockCache.NewMockCache None)) None false in
  let res := TieredCache.SetBytes "test-key" (Doubles.b "test-value") tc in
  outcome_of res = Ret None /\
  (fun l => MockCache.lookup l "test-key") <$> TieredCache.Local (state_of res) =
    Some (Some (Doubles.b "test-value")) /\
  (fun r => MockCache.lookup r "test-key") <$> TieredCache.Remote (state_of res) =
    Some (Some (Doubles.b "test-value")).
Proof. repeat split; reflexivity. Qed.

(** [TestTieredGetError]: a miss on both tiers records [Miss]. *)
Example TestTieredGetError :
  let tc := TieredCache.mk (Some (MockCache.NewMockCache (Some failingDecoder)))
              (Some (MockCache.NewMockCache (Some failingDecoder))) (Some []) false in
  let res := TieredCache.Get "test-key" VNil tc in
  outcome_of res = Ret (Some "key not found", VNil) /\
  TieredCache.Metrics (state_of res) = Some [CacheMetrics.Miss].
Proof. split; reflexivity. Qed.

(** [TestTieredDeleteError] *)
Example TestTieredDeleteError :
  let tc := TieredCache.mk (Some (MockCache.NewMockCache None))
              (Some (MockCache.NewMockCache None)) (Some []) false in
  let res := TieredCache.Delete "test-key" tc in
  outcome_of res = Ret (Some "key not found for deletion") /\
  TieredCache.Metrics (state_of res) = Some [CacheMetrics.DeleteMiss] /\
  tierCalls RemoteTier (trace_of res) = [].
Proof. repeat split; reflexivity. Qed.

(** [TestTieredPurge] *)
Example TestTieredPurge :
  let tc := TieredCache.mk
              (Some (mockHolding [("test-key", Doubles.b "test-value")] None))
              (Some (mockHolding [("test-key", Doubles.b "test-value")] None))
              (Some []) false in
  let res := TieredCache.Purge tc in
  outcome_of res = Ret None /\
  TieredCache.Metrics (state_of res) = Some [CacheMetrics.PurgeHit] /\
  (fun l => MockCache.lookup l "test-key") <$> TieredCache.Local (state_of res) = Some None /\
  (fun r => MockCache.lookup r "test-key") <$> TieredCache.Remote (state_of res) = Some None.
Proof. repeat split; reflexivity. Qed.

(** [TestLocalInvalidShards] *)
Example TestLocalInvalidShards :
  outcome_of (LocalCacheConfig.NewCache (E := gmap string bytes)
                (LocalCacheConfig.mk 0%Z 1000000000%Z 3%Z false) None None tt) =
    Ret (LocalCache.mk None None None false,
         Some "shards must be power of 2 - 3 is invalid").
Proof. reflexivity. Qed.

(** [TestRemoteDeleteError]: no key matches, [Delete] returns no error and
    records [DeleteMiss]. *)
Example TestRemoteDeleteError :
  let rc := RemoteCache.mk (Some (Doubles.miniredis [] [])) None (Some []) false in
  let res := RemoteCache.Delete "test-key" rc in
  outcome_of res = Ret None /\
  RemoteCache.Metrics (state_of res) = Some [CacheMetrics.DeleteMiss].
Proof. split; reflexivity. Qed.

(** [TestGobCacheEncoder_Error]: encoding nil fails. *)
Example TestGobCacheEncoder_Error :
  exists e, GobCacheEncoder.Encode VNil = Ret ([], Some e).
Proof. eexists. reflexivity. Qed.

(* ================================================================== *)
(** * Further properties *)

(** ** The tiered cache *)

Ltac unfold_tiered :=
  unfold TieredCache.GetBytes, TieredCache.Get, TieredCache.SetBytes, TieredCache.Set_,
    TieredCache.Delete, TieredCache.Purge, TieredCache.observe, TieredCache.onLocal,
    TieredCache.onRemote in *.

(** X1.  [TieredCache.Delete] and [TieredCache.Purge] make one call on the
    Local tier, first.  They call the Remote tier exactly when the Local
    call returned no error, and then return what Remote returns; when Local
    failed they return Local's error and leave Remote alone. *)
Theorem TieredCache_Delete_Purge_write_through {L R : Type} `{!Cache.t L, !Cache.t R}
    (tc : TieredCache.t L R) (l : L) (r : R) (key : string) :
  TieredCache.Local tc = Some l ->
  TieredCache.Remote tc = Some r ->
  (let local := Cache.Delete key l in
   let remote := Cache.Delete key r in
   let res := TieredCache.Delete key tc in
   head (trace_of res) = Some (Call (ToTier LocalTier) "Delete" [AStr key]) /\
   tierCalls LocalTier (trace_of res) = [("Delete", [AStr key])] /\
   TieredCache.Local (state_of res) = Some (state_of local) /\
   (forall e, outcome_of local = Ret (Some e) ->
      tierCalls RemoteTier (trace_of res) = [] /\
      outcome_of res = Ret (Some e) /\
      TieredCache.Remote (state_of res) = Some r) /\
   (outcome_of local = Ret None ->
      tierCalls RemoteTier (trace_of res) = [("Delete", [AStr key])] /\
      outcome_of res = outcome_of remote /\
      TieredCache.Remote (state_of res) = Some (state_of remote))) /\
  (let local := Cache.Purge l in
   let remote := Cache.Purge r in
   let res := TieredCache.Purge tc in
   head (trace_of res) = Some (Call (ToTier LocalTier) "Purge" []) /\
   tierCalls LocalTier (trace_of res) = [("Purge", [])] /\
   TieredCache.Local (state_of res) = Some (state_of local) /\
   (forall e, outcome_of local = Ret (Some e) ->
      tierCalls RemoteTier (trace_of res) = [] /\
      outcome_of res = Ret (Some e) /\
      TieredCache.Remote (state_of res) = Some r) /\
   (outcome_of local = Ret None ->
      tierCalls RemoteTier (trace_of res) = [("Purge", [])] /\
      outcome_of res = outcome_of remote /\
      TieredCache.Remote (state_of res) = Some (state_of remote))).
Proof.
  intros Hl Hr. split; intros local remote res; subst local remote res.
  - unfold_tiered. unfold_go. rewrite Hl.
    destruct (Cache.Delete key l) as [[ol l'] trl].
    destruct ol as [[e|]|msg]; simpl; rewrite ?Hr;
      [..|destruct (Cache.Delete key r) as [[[er|] r'] trr]; simpl|];
      autorewrite with trace; simpl; autorewrite with trace;
      repeat split; try discriminate; intros; simplify_eq; repeat split.
  - unfold_tiered. unfold_go. rewrite Hl.
    destruct (Cache.Purge l) as [[ol l'] trl].
    destruct ol as [[e|]|msg]; simpl; rewrite ?Hr;
      [..|destruct (Cache.Purge r) as [[[er|] r'] trr]; simpl|];
      autorewrite with trace; simpl; autorewrite with trace;
      repeat split; try discriminate; intros; simplify_eq; repeat split.
Qed.

Lemma TieredCache_Delete_Purge_write_through_witness :
  let tc := TieredCache.mk (Some (mockHolding [("test-key", Doubles.b "test-value")] None))
              (Some (MockCache.NewMockCache None)) (Some []) false in
  TieredCache.Local tc = Some (MockCache.NewMockCache None) /\
  TieredCache.Remote tc = Some (mockHolding [("test-key", Doubles.b "test-value")] None) /\
  outcome_of (TieredCache.Delete "test-key" tc) = Ret (Some "key not found for deletion") /\
  TieredCache.Remote (state_of (TieredCache.Delete "test-key" tc)) =
    Some (mockHolding [("test-key", Doubles.b "test-value")] None).
Proof.
  intros tc. split; [reflexivity|]. split; [reflexivity|].
  destruct (TieredCache_Delete_Purge_write_through tc "test-key" eq_refl eq_refl)
    as ((_ & _ & _ & Hfail & _) & _).
  destruct (Hfail "key not found for deletion" eq_refl) as (_ & Hout & Hremote).
  split; [exact Hout|exact Hremote].
Defined.

(** X2.  [Get], [Set], [Delete] and [Purge] of the tiered cache record one
    call on the cache's own metrics when they return, chosen by the error
    they return: [Miss], [SetCollision], [DeleteMiss], [PurgeMiss] for an
    error, [Hit], [Set], [DeleteHit], [PurgeHit] for none.  [GetBytes] and
    [SetBytes] record nothing.  A call that panics records nothing. *)
Theorem TieredCache_records_returned_error {L R : Type} `{!Cache.t L, !Cache.t R}
    (tc : TieredCache.t L R) (key : string) (bs : bytes) (value target : Value) :
  let recorded (res : Outcome (option error) * TieredCache.t L R * Trace)
               (onErr onOk : CacheMetrics.call) :=
    match outcome_of res with
    | Ret err =>
        TieredCache.Metrics (state_of res) =
          CacheMetrics.record (TieredCache.Metrics tc) (if failed err then onErr else onOk)
    | Panic _ => TieredCache.Metrics (state_of res) = TieredCache.Metrics tc
    end in
  match outcome_of (TieredCache.Get key target tc) with
  | Ret (err, _) =>
      TieredCache.Metrics (state_of (TieredCache.Get key target tc)) =
        CacheMetrics.record (TieredCache.Metrics tc)
          (if failed err then CacheMetrics.Miss else CacheMetrics.Hit)
  | Panic _ =>
      TieredCache.Metrics (state_of (TieredCache.Get key target tc)) = TieredCache.Metrics tc
  end /\
  recorded (TieredCache.Set_ key value tc) CacheMetrics.SetCollision CacheMetrics.Set_ /\
  recorded (TieredCache.Delete key tc) CacheMetrics.DeleteMiss CacheMetrics.DeleteHit /\
  recorded (TieredCache.Purge tc) CacheMetrics.PurgeMiss CacheMetrics.PurgeHit /\
  TieredCache.Metrics (state_of (TieredCache.GetBytes key tc)) = TieredCache.Metrics tc /\
  TieredCache.Metrics (state_of (TieredCache.SetBytes key bs tc)) = TieredCache.Metrics tc.
Proof.
  intros recorded. subst recorded. unfold_tiered. unfold_go.
  destruct tc as [r l m tracing]. simpl.
  repeat split; crunch; simplify_eq; reflexivity.
Qed.


(** ** The leaf caches *)

Ltac unfold_local :=
  unfold LocalCache.Get, LocalCache.Set_, LocalCache.Delete, LocalCache.Purge,
    LocalCache.GetBytes, LocalCache.SetBytes, LocalCache.observe, LocalCache.onEngine,
    LocalCache.withMetrics, LocalCache.withCache,
    CacheEncoder.callEncode, CacheEncoder.callDecode in *.

Ltac unfold_remote :=
  unfold RemoteCache.Get, RemoteCache.Set_, RemoteCache.Purge,
    RemoteCache.GetBytes, RemoteCache.SetBytes, RemoteCache.observe,
    RemoteCache.getConn, RemoteCache.closeConn, RemoteCache.connDo, RemoteCache.connSend,
    RemoteCache.traced, RemoteCache.onCluster,
    RemoteCache.withMetrics, RemoteCache.withCluster,
    CacheEncoder.callEncode, CacheEncoder.callDecode in *.

(** The loop over the matched keys, exactly. *)
Lemma sendDeletes_exact {N : Type} `{!redisc.Cluster N} (keys : list string) :
  forall (rc : RemoteCache.t N) (n : N),
    RemoteCache.cluster rc = Some n ->
    RemoteCache.sendDeletes keys rc =
      (Ret tt, RemoteCache.withCluster rc (Some (afterDeletes n keys)), delSends keys).
Proof.
  induction keys as [|k keys IH]; intros rc n Hc; simpl.
  - unfold ret. destruct rc; simpl in *; subst. reflexivity.
  - unfold bind, RemoteCache.connSend, RemoteCache.onCluster. rewrite Hc.
    rewrite (IH (RemoteCache.withCluster rc (Some (redisc.Send "DEL" [AStr k] n).2))
               (redisc.Send "DEL" [AStr k] n).2 eq_refl).
    reflexivity.
Qed.

(** [Delete] on a cache that has a cluster, exactly: what it returns, the
    cache it leaves and the calls it makes. *)
Lemma RemoteCache_Delete_exact {N : Type} `{!redisc.Cluster N}
    (n : N) (enc : option CacheEncoder.t) (m : option CacheMetrics.t) (tracing : bool)
    (key : string) :
  RemoteCache.Delete key (RemoteCache.mk (Some n) enc m tracing) =
    (Ret (execStep n key).1.2,
     RemoteCache.mk (Some (redisc.ConnClose (execStep n key).2).2) enc
       (CacheMetrics.record m (deleteRecorded n key)) tracing,
     (if tracing
      then [span.Start "remote-cache-delete";
            span.SetTag "command" (AStr "Pipeline:KEYS:MULTI:DEL:EXEC");
            span.SetTag "key" (AStr key)]
      else []) ++
     [Call ToCluster "Get" []; Call ToConn "Do" [AStr "KEYS"; AStr key];
      Call ToConn "Send" [AStr "MULTI"]] ++
     (if tracing
      then [span.SetTag "num_keys" (AInt (Z.of_nat (length (keysToDelete n key))))]
      else []) ++
     delSends (keysToDelete n key) ++
     [Call ToConn "Do" [AStr "EXEC"]] ++
     (if tracing
      then [span.SetTag "result" (AStr (if failed (execStep n key).1.2 then "fail" else "delete"));
            span.Finish]
      else []) ++
     [Call ToConn "Close" []]).
Proof.
  unfold execStep, deleteRecorded, multiStep, keysToDelete, keysStep.
  unfold RemoteCache.Delete, RemoteCache.getConn, RemoteCache.closeConn,
    RemoteCache.connDo, RemoteCache.connSend, RemoteCache.traced,
    RemoteCache.observe, RemoteCache.onCluster.
  unfold_go.
  set (n1 := (redisc.Do "KEYS" [AStr key] (redisc.Get n)).2).
  set (keys := (redis.Strings (redisc.Do "KEYS" [AStr key] (redisc.Get n)).1).1).
  set (n2 := (redisc.Send "MULTI" [] n1).2).
  set (recorded := if failed (redisc.Send "MULTI" [] n1).1
                      || (Z.of_nat (length keys) <=? 0)%Z
                   then CacheMetrics.DeleteMiss else CacheMetrics.DeleteHit).
  pose proof (sendDeletes_exact keys
                (RemoteCache.mk (Some n2) enc (CacheMetrics.record m recorded) tracing)
                eq_refl) as Hrun.
  destruct tracing; simpl in *; fold n1 keys n2 recorded;
    unfold RemoteCache.withMetrics, RemoteCache.withCluster in *; simpl in *;
    rewrite Hrun; simpl; unfold afterDeletes;
    rewrite <- ?app_assoc; simpl; reflexivity.
Qed.

Lemma connCalls_delSends (keys : list string) :
  connCalls (delSends keys) = map (fun k => ("Send", [AStr "DEL"; AStr k])) keys.
Proof. induction keys; simpl; congruence. Qed.

Lemma spanCalls_delSends (keys : list string) : spanCalls (delSends keys) = [].
Proof. induction keys; simpl; congruence. Qed.

Lemma clusterCallNames_delSends (keys : list string) : clusterCallNames (delSends keys) = [].
Proof. induction keys; simpl; congruence. Qed.

Lemma spanCalls_app (tr1 tr2 : Trace) :
  spanCalls (tr1 ++ tr2) = spanCalls tr1 ++ spanCalls tr2.
Proof.
  induction tr1 as [|e tr1 IH]; simpl; [reflexivity|].
  destruct e as [[t'| | | |] name args|]; simpl; congruence.
Qed.

Lemma clusterCallNames_app (tr1 tr2 : Trace) :
  clusterCallNames (tr1 ++ tr2) = clusterCallNames tr1 ++ clusterCallNames tr2.
Proof.
  induction tr1 as [|e tr1 IH]; simpl; [reflexivity|].
  destruct e as [[t'| | | |] name args|]; simpl; congruence.
Qed.

#[local] Hint Rewrite spanCalls_app clusterCallNames_app connCalls_delSends
  spanCalls_delSends clusterCallNames_delSends : trace.

(** X4.  [Set] of a leaf cache records by the outcome of [Encode] alone:
    [SetCollision] when the encoder returned an error, [Set] otherwise,
    and it records before it writes.  So a [Set] whose write fails, or
    panics for want of an engine or a cluster, has been counted as a
    [Set]; what [Set] returns after a successful [Encode] is what
    [SetBytes] returns for the encoded bytes. *)
Theorem Set_records_encode_outcome {E N : Type} `{!bigcache.Engine E, !redisc.Cluster N}
    (lc : LocalCache.t E) (rc : RemoteCache.t N) (enc : CacheEncoder.t)
    (key : string) (value : Value) (encoded : bytes) (err : option error) :
  CacheEncoder.Encode enc value = Ret (encoded, err) ->
  let recorded := if failed err then CacheMetrics.SetCollision else CacheMetrics.Set_ in
  (LocalCache.Encoder lc = Some enc ->
   let res := LocalCache.Set_ key value lc in
   LocalCache.Metrics (state_of res) = CacheMetrics.record (LocalCache.Metrics lc) recorded /\
   (err = None ->
      outcome_of res = outcome_of (LocalCache.SetBytes key encoded lc) /\
      trace_of res = trace_of (LocalCache.SetBytes key encoded lc))) /\
  (RemoteCache.Encoder rc = Some enc ->
   let res := RemoteCache.Set_ key value rc in
   RemoteCache.Metrics (state_of res) = CacheMetrics.record (RemoteCache.Metrics rc) recorded /\
   (err = None ->
      outcome_of res = outcome_of (RemoteCache.SetBytes key encoded rc) /\
      trace_of res = trace_of (RemoteCache.SetBytes key encoded rc))).
Proof.
  intros Henc recorded. subst recorded. split; intros He res; subst res.
  - destruct lc as [c e m tr]. simpl in He. subst e.
    unfold_local. unfold_go. simpl. rewrite Henc.
    destruct err as [e|]; simpl; (split; [|intros; simplify_eq]);
      destruct c; simpl; auto.
  - destruct rc as [c e m tr]. simpl in He. subst e.
    unfold_remote. unfold_go. simpl. rewrite Henc.
    destruct err as [e|]; simpl; (split; [|intros; simplify_eq]);
      destruct c, tr; simpl; auto.
Qed.

(** X5.  When [Encode] fails, [Set] of a leaf cache returns the encoder's
    error and touches nothing: no call reaches the engine, no connection
    is taken from the cluster and no span is started, and this also on a
    cache that has no engine or no cluster at all. *)
Theorem Set_encode_failure_writes_nothing {E N : Type}
    `{!bigcache.Engine E, !redisc.Cluster N}
    (lc : LocalCache.t E) (rc : RemoteCache.t N) (enc : CacheEncoder.t)
    (key : string) (value : Value) (encoded : bytes) (e : error) :
  CacheEncoder.Encode enc value = Ret (encoded, Some e) ->
  (LocalCache.Encoder lc = Some enc ->
   let res := LocalCache.Set_ key value lc in
   outcome_of res = Ret (Some e) /\ trace_of res = [] /\
   LocalCache.Cache (state_of res) = LocalCache.Cache lc) /\
  (RemoteCache.Encoder rc = Some enc ->
   let res := RemoteCache.Set_ key value rc in
   outcome_of res = Ret (Some e) /\ trace_of res = [] /\
   RemoteCache.cluster (state_of res) = RemoteCache.cluster rc).
Proof.
  intros Henc. split; intros He res; subst res.
  - destruct lc as [c e' m tr]. simpl in He. subst e'.
    unfold_local. unfold_go. simpl. rewrite Henc. simpl. auto.
  - destruct rc as [c e' m tr]. simpl in He. subst e'.
    unfold_remote. unfold_go. simpl. rewrite Henc. simpl. auto.
Qed.

Lemma Set_records_encode_outcome_witness :
  let rc := RemoteCache.mk (Some (Doubles.miniredis [] [true]))
              (Some GobCacheEncoder.encoder) (Some []) false in
  let value := VBytes (Doubles.b "test-value") in
  CacheEncoder.Encode GobCacheEncoder.encoder value = Ret (Doubles.b "test-value", None) /\
  outcome_of (RemoteCache.SetBytes "test-key" (Doubles.b "test-value") rc) =
    Ret (Some Doubles.connRefused) /\
  RemoteCache.Metrics (state_of (RemoteCache.Set_ "test-key" value rc)) =
    Some [CacheMetrics.Set_] /\
  outcome_of (RemoteCache.Set_ "test-key" value rc) = Ret (Some Doubles.connRefused).
Proof.
  intros rc value.
  assert (Henc : CacheEncoder.Encode GobCacheEncoder.encoder value =
                 Ret (Doubles.b "test-value", None)) by reflexivity.
  split; [exact Henc|]. split; [reflexivity|].
  destruct (Set_records_encode_outcome gobLocal rc GobCacheEncoder.encoder "test-key"
              value Henc) as (_ & Hremote).
  destruct (Hremote eq_refl) as (Hm & Hout).
  split; [exact Hm|]. exact (proj1 (Hout eq_refl)).
Defined.

Lemma Set_encode_failure_writes_nothing_witness :
  let lc : LocalCache.t (gmap string bytes) :=
    LocalCache.mk None (Some GobCacheEncoder.encoder) None false in
  let rc : RemoteCache.t Doubles.MiniRedis :=
    RemoteCache.mk None (Some GobCacheEncoder.encoder) None true in
  let e := "gob: cannot encode nil pointer of type *interface {}" in
  CacheEncoder.Encode GobCacheEncoder.encoder VNil = Ret ([], Some e) /\
  (outcome_of (LocalCache.Set_ "test-key" VNil lc) = Ret (Some e) /\
   trace_of (LocalCache.Set_ "test-key" VNil lc) = []) /\
  (outcome_of (RemoteCache.Set_ "test-key" VNil rc) = Ret (Some e) /\
   trace_of (RemoteCache.Set_ "test-key" VNil rc) = []).
Proof.
  intros lc rc e.
  assert (Henc : CacheEncoder.Encode GobCacheEncoder.encoder VNil = Ret ([], Some e))
    by reflexivity.
  split; [exact Henc|].
  destruct (Set_encode_failure_writes_nothing lc rc GobCacheEncoder.encoder "test-key"
              VNil Henc) as (Hl & Hr).
  destruct (Hl eq_refl) as (Hlo & Hlt & _). destruct (Hr eq_refl) as (Hro & Hrt & _).
  repeat split; assumption.
Defined.


(** ** The remote cache and its connection *)

Lemma connCount_app (name : string) (tr1 tr2 : Trace) :
  connCount name (tr1 ++ tr2) = connCount name tr1 + connCount name tr2.
Proof. unfold connCount. rewrite connCalls_app, filter_app, length_app. reflexivity. Qed.

Lemma connCount_delSends (keys : list string) : connCount "Close" (delSends keys) = 0.
Proof. induction keys as [|k keys IH]; [reflexivity|exact IH]. Qed.

(** X7.  Every method of [RemoteCache] that talks to the store takes one
    connection from the cluster and closes it once, as the last call it
    makes on it, whatever the store answers; it makes no other call on the
    cluster, and it returns rather than panics.  [Get] makes the calls of
    [GetBytes] and no other. *)
Theorem RemoteCache_connection_discipline {N : Type} `{!redisc.Cluster N}
    (rc : RemoteCache.t N) (n : N) (key : string) (bs : bytes) (target : Value) :
  RemoteCache.cluster rc = Some n ->
  let disciplined {A : Type} (res : Outcome A * RemoteCache.t N * Trace) :=
    clusterCallNames (trace_of res) = ["Get"] /\
    connCount "Close" (trace_of res) = 1 /\
    last (connCalls (trace_of res)) = Some ("Close", []) /\
    exists a, outcome_of res = Ret a in
  disciplined (RemoteCache.GetBytes key rc) /\
  disciplined (RemoteCache.SetBytes key bs rc) /\
  disciplined (RemoteCache.Delete key rc) /\
  disciplined (RemoteCache.Purge rc) /\
  trace_of (RemoteCache.Get key target rc) = trace_of (RemoteCache.GetBytes key rc).
Proof.
  intros Hc disciplined. subst disciplined. simpl.
  destruct rc as [c enc m tracing]. simpl in Hc. subst c.
  split; [|split; [|split; [|split]]].
  - unfold_remote. unfold_go. simpl.
    destruct tracing; simpl; crunch; eauto 10.
  - unfold_remote. unfold_go. simpl. destruct tracing; simpl; eauto 10.
  - rewrite RemoteCache_Delete_exact. unfold trace_of, outcome_of. cbn [fst snd].
    split; [|split; [|split; [|eauto]]].
    + autorewrite with trace. destruct tracing; reflexivity.
    + rewrite !connCount_app, connCount_delSends. destruct tracing; reflexivity.
    + rewrite !app_assoc. rewrite connCalls_app. apply last_snoc.
  - unfold_remote. unfold_go. simpl. destruct tracing; simpl; eauto 10.
  - unfold_remote. unfold_go. simpl.
    destruct tracing, enc; crunch; simplify_eq; rewrite ?app_nil_r; reflexivity.
Qed.

Lemma RemoteCache_connection_discipline_witness :
  RemoteCache.cluster keysFails = Some (Doubles.miniredis [("foo1", Doubles.b "a")] [true]) /\
  clusterCallNames (trace_of (RemoteCache.Delete "foo*" keysFails)) = ["Get"] /\
  connCount "Close" (trace_of (RemoteCache.Delete "foo*" keysFails)) = 1 /\
  last (connCalls (trace_of (RemoteCache.Delete "foo*" keysFails))) = Some ("Close", []).
Proof.
  split; [reflexivity|].
  destruct (RemoteCache_connection_discipline keysFails "foo*" [] VNil eq_refl)
    as (_ & _ & (Hget & Hclose & Hlast & _) & _).
  repeat split; assumption.
Defined.

(** X8.  With tracing off, the methods of [RemoteCache] make no call on a
    span.  With tracing on, each starts one span, first of all, and
    finishes it once, before the connection is closed; the "result" tag
    it sets agrees with the error it returns.  [Purge] starts its span
    under the operation name of [Delete]. *)
Theorem RemoteCache_spans {N : Type} `{!redisc.Cluster N}
    (rc : RemoteCache.t N) (n : N) (key : string) (bs : bytes) :
  RemoteCache.cluster rc = Some n ->
  let spans {A : Type} (res : Outcome A * RemoteCache.t N * Trace)
            (operation : string) (tags : list (string * list Arg))
            (err : option error) (bad ok : string) :=
    spanCalls (trace_of res) =
      (if RemoteCache.TracingEnabled rc
       then ("StartSpanFromContext", [AStr operation]) :: tags ++
            [("SetTag", [AStr "result"; AStr (if failed err then bad else ok)]);
             ("Finish", [])]
       else []) /\
    (RemoteCache.TracingEnabled rc = true ->
     head (trace_of res) = Some (span.Start operation) /\
     last (trace_of res) = Some (Call ToConn "Close" [])) in
  (exists data err,
     outcome_of (RemoteCache.GetBytes key rc) = Ret (data, err) /\
     spans (RemoteCache.GetBytes key rc) "remote-cache-get-bytes"
       [("SetTag", [AStr "command"; AStr "GET"]); ("SetTag", [AStr "key"; AStr key])]
       err "miss" "hit") /\
  (exists err,
     outcome_of (RemoteCache.SetBytes key bs rc) = Ret err /\
     spans (RemoteCache.SetBytes key bs rc) "remote-cache-set-bytes"
       [("SetTag", [AStr "command"; AStr "SET"]); ("SetTag", [AStr "key"; AStr key])]
       err "fail" "set") /\
  (exists err,
     outcome_of (RemoteCache.Delete key rc) = Ret err /\
     spans (RemoteCache.Delete key rc) "remote-cache-delete"
       [("SetTag", [AStr "command"; AStr "Pipeline:KEYS:MULTI:DEL:EXEC"]);
        ("SetTag", [AStr "key"; AStr key]);
        ("SetTag", [AStr "num_keys"; AInt (Z.of_nat (length (keysToDelete n key)))])]
       err "fail" "delete") /\
  (exists err,
     outcome_of (RemoteCache.Purge rc) = Ret err /\
     spans (RemoteCache.Purge rc) "remote-cache-delete"
       [("SetTag", [AStr "command"; AStr "FLUSHALL"])]
       err "fail" "purge").
Proof.
  intros Hc spans. subst spans. simpl.
  destruct rc as [c enc m tracing]. simpl in Hc. subst c. simpl.
  split; [|split; [|split]].
  - unfold_remote. unfold_go. simpl.
    destruct tracing; simpl;
      match goal with |- context [redis.Bytes ?x] => destruct (redis.Bytes x) as [data err] end;
      simpl; do 2 eexists;
      (split; [reflexivity|]); (split; [reflexivity|]); intros; simplify_eq; auto.
  - unfold_remote. unfold_go. simpl.
    destruct tracing; simpl; eexists;
      (split; [reflexivity|]); (split; [reflexivity|]); intros; simplify_eq; auto.
  - rewrite RemoteCache_Delete_exact. unfold trace_of, outcome_of. cbn [fst snd].
    eexists. split; [reflexivity|]. split.
    + autorewrite with trace. destruct tracing; reflexivity.
    + intros ->. split; [reflexivity|]. rewrite !app_assoc. apply last_snoc.
  - unfold_remote. unfold_go. simpl.
    destruct tracing; simpl; eexists;
      (split; [reflexivity|]); (split; [reflexivity|]); intros; simplify_eq; auto.
Qed.

Lemma RemoteCache_spans_witness :
  RemoteCache.cluster gobRemote = Some (Doubles.miniredis [] []) /\
  spanCalls (trace_of (RemoteCache.Purge gobRemote)) =
    [("StartSpanFromContext", [AStr "remote-cache-delete"]);
     ("SetTag", [AStr "command"; AStr "FLUSHALL"]);
     ("SetTag", [AStr "result"; AStr "purge"]);
     ("Finish", [])].
Proof.
  split; [reflexivity|].
  destruct (RemoteCache_spans gobRemote "test-key" [] eq_refl)
    as (_ & _ & _ & err & Hout & Hspans & _).
  vm_compute in Hout. injection Hout as <-. exact Hspans.
Defined.

(** X9.  Tracing only adds calls on spans: with the flag set the other
    way, every method of [RemoteCache] gives the same outcome, leaves the
    same cluster and the same metrics, and makes the same calls on the
    cluster and on the connection. *)
Theorem RemoteCache_tracing_does_not_interfere {N : Type} `{!redisc.Cluster N}
    (rc : RemoteCache.t N) (flag : bool) (key : string) (bs : bytes)
    (value target : Value) :
  let rc' := RemoteCache.mk (RemoteCache.cluster rc) (RemoteCache.Encoder rc)
               (RemoteCache.Metrics rc) flag in
  let same {A : Type} (f : GoM (RemoteCache.t N) A) :=
    outcome_of (f rc') = outcome_of (f rc) /\
    RemoteCache.cluster (state_of (f rc')) = RemoteCache.cluster (state_of (f rc)) /\
    RemoteCache.Metrics (state_of (f rc')) = RemoteCache.Metrics (state_of (f rc)) /\
    clusterCallNames (trace_of (f rc')) = clusterCallNames (trace_of (f rc)) /\
    connCalls (trace_of (f rc')) = connCalls (trace_of (f rc)) in
  same (RemoteCache.GetBytes key) /\ same (RemoteCache.Get key target) /\
  same (RemoteCache.SetBytes key bs) /\ same (RemoteCache.Set_ key value) /\
  same (RemoteCache.Delete key) /\ same RemoteCache.Purge.
Proof.
  intros rc' same. subst rc' same. simpl.
  destruct rc as [c enc m tracing]. simpl.
  split; [|split; [|split; [|split; [|split]]]].
  5: { destruct c as [n|].
       - rewrite !RemoteCache_Delete_exact. unfold trace_of, outcome_of, state_of.
         cbn [fst snd]. autorewrite with trace.
         destruct flag, tracing; repeat split.
       - unfold RemoteCache.Delete. unfold_remote. unfold_go.
         destruct flag, tracing; repeat split. }
  all: unfold_remote; unfold_go; simpl;
    destruct flag, tracing, c; simpl; repeat split; crunch; simplify_eq; reflexivity.
Qed.

(** X10.  [RemoteCache.Delete] sends [KEYS], [MULTI], one [DEL] for each
    key that [KEYS] matched, in the order of the reply, then [EXEC], and
    closes the connection.  The errors of [MULTI] and of the [DEL]s are
    dropped: the batch is sent to its end, the error returned is the one
    of [EXEC], and the connection is left as these commands left it. *)
Theorem RemoteCache_Delete_protocol {N : Type} `{!redisc.Cluster N}
    (rc : RemoteCache.t N) (n : N) (key : string) :
  RemoteCache.cluster rc = Some n ->
  let res := RemoteCache.Delete key rc in
  connCalls (trace_of res) =
    [("Do", [AStr "KEYS"; AStr key]); ("Send", [AStr "MULTI"])] ++
    map (fun k => ("Send", [AStr "DEL"; AStr k])) (keysToDelete n key) ++
    [("Do", [AStr "EXEC"]); ("Close", [])] /\
  outcome_of res =
    Ret (redisc.Do "EXEC" [] (afterDeletes (multiStep n key).2 (keysToDelete n key))).1.2 /\
  RemoteCache.cluster (state_of res) =
    Some (redisc.ConnClose
            (redisc.Do "EXEC" [] (afterDeletes (multiStep n key).2 (keysToDelete n key))).2).2.
Proof.
  intros Hc res. subst res.
  destruct rc as [c enc m tracing]. simpl in Hc. subst c.
  rewrite RemoteCache_Delete_exact. unfold trace_of, outcome_of, state_of. cbn [fst snd].
  split; [|split; reflexivity].
  autorewrite with trace. destruct tracing; simpl; rewrite ?app_nil_r; reflexivity.
Qed.

Lemma RemoteCache_Delete_protocol_witness :
  let store := Doubles.miniredis [("foo1", Doubles.b "a"); ("bar", Doubles.b "b");
                                  ("foo2", Doubles.b "c")] [] in
  let rc := RemoteCache.mk (Some store) None None false in
  RemoteCache.cluster rc = Some store /\
  keysToDelete store "foo*" = ["foo1"; "foo2"] /\
  connCalls (trace_of (RemoteCache.Delete "foo*" rc)) =
    [("Do", [AStr "KEYS"; AStr "foo*"]); ("Send", [AStr "MULTI"]);
     ("Send", [AStr "DEL"; AStr "foo1"]); ("Send", [AStr "DEL"; AStr "foo2"]);
     ("Do", [AStr "EXEC"]); ("Close", [])].
Proof.
  intros store rc.
  assert (Hkeys : keysToDelete store "foo*" = ["foo1"; "foo2"]) by (vm_compute; reflexivity).
  split; [reflexivity|]. split; [exact Hkeys|].
  pose proof (proj1 (RemoteCache_Delete_protocol rc "foo*" eq_refl)) as Hcalls.
  rewrite Hkeys in Hcalls. exact Hcalls.
Defined.

(** X11.  A [RemoteCache] without a cluster, such as the zero value,
    panics on the nil cluster in every method that talks to the store,
    before any command is sent and with the cache left as it was.  With
    tracing on, the span has been started by then and is never finished.
    [Get] panics before it records. *)
Theorem RemoteCache_without_cluster_panics {N : Type} `{!redisc.Cluster N}
    (rc : RemoteCache.t N) (key : string) (bs : bytes) (target : Value) :
  RemoteCache.cluster rc = None ->
  let stops {A : Type} (res : Outcome A * RemoteCache.t N * Trace) :=
    outcome_of res = Panic nil_deref /\
    state_of res = rc /\
    clusterCallNames (trace_of res) = ["Get"] /\
    connCalls (trace_of res) = [] /\
    ~ ("Finish", []) ∈ spanCalls (trace_of res) /\
    (RemoteCache.TracingEnabled rc = true ->
     exists operation, head (trace_of res) = Some (span.Start operation)) /\
    (RemoteCache.TracingEnabled rc = false -> spanCalls (trace_of res) = []) in
  stops (RemoteCache.GetBytes key rc) /\
  stops (RemoteCache.SetBytes key bs rc) /\
  stops (RemoteCache.Delete key rc) /\
  stops (RemoteCache.Purge rc) /\
  stops (RemoteCache.Get key target rc).
Proof.
  intros Hc stops. subst stops. simpl.
  destruct rc as [c enc m tracing]. simpl in Hc. subst c. simpl.
  unfold RemoteCache.Delete. unfold_remote. unfold_go. simpl.
  destruct tracing; simpl;
    repeat split; try reflexivity; try discriminate; try (intros; eauto; fail);
    rewrite ?elem_of_cons, ?elem_of_nil; intros Hin; intuition discriminate.
Qed.

Lemma RemoteCache_without_cluster_panics_witness :
  let rc : RemoteCache.t Doubles.MiniRedis := RemoteCache.mk None None (Some []) true in
  RemoteCache.cluster rc = None /\
  outcome_of (RemoteCache.Get "test-key" VNil rc) = Panic nil_deref /\
  state_of (RemoteCache.Get "test-key" VNil rc) = rc /\
  ~ ("Finish", []) ∈ spanCalls (trace_of (RemoteCache.Get "test-key" VNil rc)).
Proof.
  intros rc. split; [reflexivity|].
  destruct (RemoteCache_without_cluster_panics rc "test-key" [] VNil eq_refl)
    as (_ & _ & _ & _ & Hout & Hstate & _ & _ & Hfinish & _).
  repeat split; assumption.
Defined.

(** ** The constructors *)

(** X12.  A [LocalCache] without an engine panics in every method, and
    that is the cache [LocalCacheConfig.NewCache] hands back with its
    error when it turns the shard count down: no engine, the encoder of
    the caller, and no metrics recorder even when one was given. *)
Theorem LocalCacheConfig_NewCache_rejected_cache {E : Type} `{!bigcache.Engine E}
    (lcc : LocalCacheConfig.t) (encoder : option CacheEncoder.t)
    (metrics : option CacheMetrics.t) (key : string) (bs : bytes) (target : Value) :
  LocalCacheConfig.shardsRejected lcc = true ->
  exists cache : LocalCache.t E,
    LocalCacheConfig.NewCache lcc encoder metrics tt =
      (Ret (cache, Some (LocalCacheConfig.shardsError lcc)), tt, []) /\
    cache = LocalCache.mk None encoder None (LocalCacheConfig.TracingEnabled lcc) /\
    outcome_of (LocalCache.GetBytes key cache) = Panic nil_deref /\
    outcome_of (LocalCache.Get key target cache) = Panic nil_deref /\
    outcome_of (LocalCache.SetBytes key bs cache) = Panic nil_deref /\
    outcome_of (LocalCache.Delete key cache) = Panic nil_deref /\
    outcome_of (LocalCache.Purge cache) = Panic nil_deref.
Proof.
  intros Hrej. eexists. unfold LocalCacheConfig.NewCache. rewrite Hrej.
  split; [reflexivity|]. repeat split.
Qed.

Lemma LocalCacheConfig_NewCache_rejected_cache_witness :
  let lcc := LocalCacheConfig.mk 0%Z 0%Z 3%Z false in
  LocalCacheConfig.shardsRejected lcc = true /\
  exists cache : LocalCache.t (gmap string bytes),
    outcome_of (LocalCacheConfig.NewCache lcc None (Some []) tt) =
      Ret (cache, Some "shards must be power of 2 - 3 is invalid") /\
    LocalCache.Metrics cache = None /\
    outcome_of (LocalCache.Purge cache) = Panic nil_deref.
Proof.
  intros lcc. split; [reflexivity|].
  destruct (LocalCacheConfig_NewCache_rejected_cache (E := gmap string bytes) lcc None
              (Some []) "test-key" [] VNil eq_refl)
    as (cache & Hnew & Hcache & _ & _ & _ & _ & Hpurge).
  exists cache. rewrite Hnew. split; [reflexivity|]. split; [|exact Hpurge].
  rewrite Hcache. reflexivity.
Defined.

(** X13.  When the guard lets the shard count through, [NewCache] calls
    the engine's constructor once, with the engine's defaults for the
    eviction time except that a nonzero TTL replaces the life window and a
    nonzero shard count replaces the number of shards, converted from
    [uint] to [int]: an even count from 2^63 on reaches the engine as a
    negative number.  The cache returned holds what the constructor
    returned, engine and error alike, and the recorder given. *)
Theorem LocalCacheConfig_NewCache_engine_configuration {E : Type} `{!bigcache.Engine E}
    (lcc : LocalCacheConfig.t) (encoder : option CacheEncoder.t)
    (metrics : option CacheMetrics.t) :
  is_uint (LocalCacheConfig.Shards lcc) ->
  LocalCacheConfig.shardsRejected lcc = false ->
  let defaults := bigcache.DefaultConfig E (LocalCacheConfig.Eviction lcc) in
  let config := LocalCacheConfig.engineConfig (E := E) lcc in
  let res := LocalCacheConfig.NewCache (E := E) lcc encoder metrics tt in
  engineCalls (trace_of res) = [("NewBigCache", [AInt (bigcache.Shards config)])] /\
  outcome_of res =
    Ret (LocalCache.mk (bigcache.NewBigCache config).1 encoder metrics
           (LocalCacheConfig.TracingEnabled lcc),
         (bigcache.NewBigCache config).2) /\
  bigcache.CleanWindow config = bigcache.CleanWindow defaults /\
  bigcache.LifeWindow config =
    (if (LocalCacheConfig.TTL lcc =? 0)%Z then bigcache.LifeWindow defaults
     else LocalCacheConfig.TTL lcc) /\
  (LocalCacheConfig.Shards lcc = 0%Z -> bigcache.Shards config = bigcache.Shards defaults) /\
  (0 < LocalCacheConfig.Shards lcc < 2 ^ 63 ->
     bigcache.Shards config = LocalCacheConfig.Shards lcc)%Z /\
  (2 ^ 63 <= LocalCacheConfig.Shards lcc ->
     bigcache.Shards config = LocalCacheConfig.Shards lcc - 2 ^ 64 /\
     bigcache.Shards config < 0)%Z.
Proof.
  intros [Hlo Hhi] Hpass defaults config res. subst defaults config res.
  unfold uint_max in Hhi.
  unfold LocalCacheConfig.NewCache. rewrite Hpass. unfold_go.
  destruct (bigcache.NewBigCache (LocalCacheConfig.engineConfig lcc)) as [engine err] eqn:Hnew.
  split; [reflexivity|]. split; [destruct metrics; reflexivity|].
  unfold LocalCacheConfig.engineConfig, int_of_uint.
  destruct lcc as [eviction ttl shards tracing]. simpl in *.
  destruct (Z.eqb_spec ttl 0), (Z.eqb_spec shards 0), (Z.ltb_spec shards (2 ^ 63));
    simpl; repeat split; intros; try lia; try reflexivity.
Qed.

Lemma LocalCacheConfig_NewCache_engine_configuration_witness :
  let lcc := LocalCacheConfig.mk 0%Z 0%Z (2 ^ 63)%Z false in
  is_uint (LocalCacheConfig.Shards lcc) /\
  LocalCacheConfig.shardsRejected lcc = false /\
  engineCalls (trace_of (LocalCacheConfig.NewCache (E := gmap string bytes) lcc None None tt)) =
    [("NewBigCache", [AInt (- 2 ^ 63)%Z])].
Proof.
  intros lcc.
  assert (Hu : is_uint (LocalCacheConfig.Shards lcc)) by (unfold is_uint, uint_max; simpl; lia).
  split; [exact Hu|]. split; [reflexivity|].
  destruct (LocalCacheConfig_NewCache_engine_configuration (E := gmap string bytes) lcc None
              None Hu eq_refl) as (Hcalls & _).
  exact Hcalls.
Defined.

(** X14.  What [TieredCacheConfig.NewCache] returns with an error is
    the zero value [TieredCache{}], whichever tier failed.  That value has
    no tier: each of its six methods panics on the nil Local before any
    call is made or recorded, and its [Close] panics on the type
    assertion, leaving the package variable and its [onceClose] as they
    were. *)
Theorem TieredCacheConfig_NewCache_failure_gives_zero_value {E N : Type}
    `{!bigcache.Engine E, !redisc.Cluster N}
    (tcc : TieredCacheConfig.t) (encoder : option CacheEncoder.t)
    (metrics localMetrics remoteMetrics : option CacheMetrics.t)
    (s s' : sharedCluster.t N)
    (tc : TieredCache.t (LocalCache.t E) (RemoteCache.t N)) (e : error)
    (key : string) (bs : bytes) (value target : Value) :
  outcome_of (TieredCacheConfig.NewCache tcc encoder metrics localMetrics remoteMetrics s) =
    Ret (tc, Some e) ->
  tc = TieredCacheConfig.zero /\
  TieredCache.GetBytes key tc = (Panic nil_deref, tc, []) /\
  TieredCache.Get key target tc = (Panic nil_deref, tc, []) /\
  TieredCache.SetBytes key bs tc = (Panic nil_deref, tc, []) /\
  TieredCache.Set_ key value tc = (Panic nil_deref, tc, []) /\
  TieredCache.Delete key tc = (Panic nil_deref, tc, []) /\
  TieredCache.Purge tc = (Panic nil_deref, tc, []) /\
  TieredCache.Close tc s' =
    (Panic "interface conversion: interface is nil, not tieredcache.RemoteCache", s', []).
Proof.
  intros Hres.
  assert (Hzero : tc = TieredCacheConfig.zero).
  { revert Hres. unfold TieredCacheConfig.NewCache, TieredCacheConfig.stateless. unfold_go.
    destruct (RemoteCacheConfig.NewCache _ _ _ s) as [[[[remote [er|]]|msg] s1] tr1];
      simpl; try congruence.
    destruct (LocalCacheConfig.NewCache _ _ _ tt) as [[[[local [el|]]|msg] u] tr2];
      simpl; congruence. }
  subst tc. repeat split.
Qed.

Lemma TieredCacheConfig_NewCache_failure_gives_zero_value_witness :
  let tcc := TieredCacheConfig.mk (RemoteCacheConfig.mk ["127.0.0.1:6379"] "" 0%Z false)
               (LocalCacheConfig.mk 0%Z 0%Z 3%Z false) None false in
  let res := TieredCacheConfig.NewCache (E := gmap string bytes) (N := Doubles.MiniRedis)
               tcc None None None None sharedCluster.init in
  outcome_of res =
    Ret (TieredCacheConfig.zero, Some "shards must be power of 2 - 3 is invalid") /\
  outcome_of (TieredCache.Purge (TieredCacheConfig.zero (E := gmap string bytes)
                                   (N := Doubles.MiniRedis))) = Panic nil_deref.
Proof.
  intros tcc res.
  assert (Hres : outcome_of res =
            Ret (TieredCacheConfig.zero, Some "shards must be power of 2 - 3 is invalid"))
    by reflexivity.
  split; [exact Hres|].
  destruct (TieredCacheConfig_NewCache_failure_gives_zero_value tcc None None None None
              sharedCluster.init sharedCluster.init "test-key" [] VNil VNil Hres)
    as (_ & _ & _ & _ & _ & _ & Hpurge & _).
  rewrite Hpurge. reflexivity.
Defined.

(** X15.  [TieredCacheConfig.NewCache] builds the Remote tier first and
    the Local tier only when Remote returned no error.  It leaves the
    package variable as the Remote constructor left it, so a cluster that
    was created stays created, and open, when the Local tier is then
    turned down.  With no error from either, the cache returned holds the
    two tiers as their constructors returned them. *)
Theorem TieredCacheConfig_NewCache_order {E N : Type}
    `{!bigcache.Engine E, !redisc.Cluster N}
    (tcc : TieredCacheConfig.t) (encoder : option CacheEncoder.t)
    (metrics localMetrics remoteMetrics : option CacheMetrics.t)
    (s : sharedCluster.t N) (remote : RemoteCache.t N) (err : option error) :
  let r := RemoteCacheConfig.NewCache (TieredCacheConfig.RemoteConfig tcc) encoder
             remoteMetrics s in
  let l := LocalCacheConfig.NewCache (E := E) (TieredCacheConfig.LocalConfig tcc) encoder
             localMetrics tt in
  let res := TieredCacheConfig.NewCache tcc encoder metrics localMetrics remoteMetrics s in
  outcome_of r = Ret (remote, err) ->
  state_of res = state_of r /\
  sharedCluster.onceCreate (state_of res) = true /\
  clusterCalls "Close" (trace_of res) = 0 /\
  (forall e, err = Some e ->
     outcome_of res = Ret (TieredCacheConfig.zero, Some e) /\
     trace_of res = trace_of r) /\
  (err = None ->
     trace_of res = trace_of r ++ trace_of l /\
     (forall local e, outcome_of l = Ret (local, Some e) ->
        outcome_of res = Ret (TieredCacheConfig.zero, Some e)) /\
     (forall local, outcome_of l = Ret (local, None) ->
        outcome_of res =
          Ret (TieredCache.mk (Some remote) (Some local) metrics
                 (TieredCacheConfig.TracingEnabled tcc), None))).
Proof.
  intros r l res Hr.
  pose proof (TieredNewCache_once (E := E) tcc encoder metrics localMetrics remoteMetrics s)
    as (Hcreate & _ & _ & Hclose).
  fold res in Hcreate, Hclose.
  split; [|split; [exact Hcreate|split; [exact Hclose|]]]; clear Hcreate Hclose;
    subst res; revert Hr; subst r l;
    unfold TieredCacheConfig.NewCache, TieredCacheConfig.stateless; unfold_go;
    destruct (RemoteCacheConfig.NewCache _ _ _ s) as [[o s1] tr1]; simpl;
    intros ->; simpl;
    destruct (LocalCacheConfig.NewCache _ _ _ tt) as [[[[local [el|]]|msg] u] tr2];
    destruct err as [er|]; simpl; rewrite ?app_nil_r;
    repeat split; intros; simplify_eq; rewrite ?app_nil_r; reflexivity.
Qed.

Lemma TieredCacheConfig_NewCache_order_witness :
  let tcc := TieredCacheConfig.mk (RemoteCacheConfig.mk ["127.0.0.1:6379"] "" 0%Z false)
               (LocalCacheConfig.mk 0%Z 0%Z 3%Z false) None false in
  let res := TieredCacheConfig.NewCache (E := gmap string bytes) (N := Doubles.MiniRedis)
               tcc None None None None sharedCluster.init in
  outcome_of (RemoteCacheConfig.NewCache (TieredCacheConfig.RemoteConfig tcc) None None
                (sharedCluster.init (N := Doubles.MiniRedis))) =
    Ret (RemoteCache.mk (Some (Doubles.miniredis [] [])) None None false, None) /\
  sharedCluster.onceCreate (state_of res) = true /\
  clusterCalls "Close" (trace_of res) = 0.
Proof.
  intros tcc res.
  assert (Hr : outcome_of (RemoteCacheConfig.NewCache (TieredCacheConfig.RemoteConfig tcc)
                             None None (sharedCluster.init (N := Doubles.MiniRedis))) =
               Ret (RemoteCache.mk (Some (Doubles.miniredis [] [])) None None false, None))
    by reflexivity.
  split; [exact Hr|].
  destruct (TieredCacheConfig_NewCache_order (E := gmap string bytes) tcc None None None None
              sharedCluster.init Hr) as (_ & Hcreate & Hclose & _).
  split; assumption.
Defined.

(** ** The shared cluster *)

Section PoolFacts.
Context {E N : Type} `{!bigcache.Engine E, !redisc.Cluster N}.

(** X16.  Once [onceCreate] is done, [RemoteCacheConfig.NewCache] does
    not read the seed URLs or the timeout of its configuration: a second
    configuration gets the cluster of the first, whatever addresses it
    names. *)
Theorem RemoteCacheConfig_NewCache_ignores_later_seeds
    (rcc : RemoteCacheConfig.t) (urls : list string) (timeout : Duration)
    (encoder : option CacheEncoder.t) (metrics : option CacheMetrics.t)
    (s : sharedCluster.t N) :
  sharedCluster.onceCreate s = true ->
  RemoteCacheConfig.NewCache
    (RemoteCacheConfig.mk urls (RemoteCacheConfig.AuthToken rcc) timeout
       (RemoteCacheConfig.TracingEnabled rcc)) encoder metrics s =
  RemoteCacheConfig.NewCache rcc encoder metrics s.
Proof.
  intros Hdone.
  unfold RemoteCacheConfig.NewCache, sync.Do. unfold_go. rewrite Hdone. reflexivity.
Qed.

(** X17.  [RemoteCacheConfig.NewCache] refreshes the cluster once.  It
    authenticates exactly when the refresh succeeded and the token is not
    empty: it then takes a connection, sends [AUTH] with the token, closes
    the connection and returns the error of [AUTH].  Otherwise it takes no
    connection and returns the error of the refresh.  Either way, it
    returns a cache on the shared cluster together with the error. *)
Theorem RemoteCacheConfig_NewCache_authenticates
    (rcc : RemoteCacheConfig.t) (encoder : option CacheEncoder.t)
    (metrics : option CacheMetrics.t) (s : sharedCluster.t N) (n : N) :
  clusterFor rcc s = Some n ->
  let res := RemoteCacheConfig.NewCache rcc encoder metrics s in
  let refresh := redisc.Refresh n in
  let token := RemoteCacheConfig.AuthToken rcc in
  let auth := redisc.Do "AUTH" [AStr token] (redisc.Get refresh.2) in
  clusterCalls "Refresh" (trace_of res) = 1 /\
  (refresh.1 <> None \/ token = "" ->
     connCalls (trace_of res) = [] /\
     clusterCalls "Get" (trace_of res) = 0 /\
     outcome_of res =
       Ret (RemoteCache.mk (Some refresh.2) encoder metrics
              (RemoteCacheConfig.TracingEnabled rcc), refresh.1)) /\
  (refresh.1 = None -> token <> "" ->
     connCalls (trace_of res) = [("Do", [AStr "AUTH"; AStr token]); ("Close", [])] /\
     clusterCalls "Get" (trace_of res) = 1 /\
     outcome_of res =
       Ret (RemoteCache.mk (Some (redisc.ConnClose auth.2).2) encoder metrics
              (RemoteCacheConfig.TracingEnabled rcc), auth.1.2)).
Proof.
  intros Hn res refresh token auth. subst res refresh token auth.
  unfold clusterFor in Hn.
  unfold RemoteCacheConfig.NewCache, RemoteCacheConfig.createCluster, sync.Do,
    sharedCluster.onCluster.
  unfold_go. destruct s as [c created closed]. simpl in *.
  destruct rcc as [urls token timeout tracing]. simpl in *.
  destruct created; simpl; simplify_eq; simpl;
    match goal with
    | |- context [redisc.Refresh ?x] => destruct (redisc.Refresh x) as [[e|] n1] eqn:Href
    end; simpl;
    destruct (String.eqb_spec token ""); simpl;
    rewrite ?clusterCalls_app; simpl;
    (split; [reflexivity|]); split; intros; try reflexivity;
    repeat split; try congruence; try tauto;
    match goal with H : _ \/ _ |- _ => destruct H; congruence | _ => idtac end.
Qed.

Lemma created_has_cluster_perform (c : PoolCall (E := E) (N := N)) (s : sharedCluster.t N) :
  created_has_cluster s -> created_has_cluster (perform c s).1.
Proof.
  unfold created_has_cluster. intros Hinv.
  assert (Hclose : forall s0 : sharedCluster.t N,
            (sharedCluster.onceCreate s0 = true -> is_Some (sharedCluster.cluster s0)) ->
            sharedCluster.onceCreate (state_of (RemoteCache.Close s0)) = true ->
            is_Some (sharedCluster.cluster (state_of (RemoteCache.Close s0)))).
  { intros [c0 created closed]. unfold RemoteCache.Close, sync.Do, sharedCluster.onCluster.
    unfold_go. simpl. destruct closed, c0; simpl; eauto. }
  assert (Hnew : forall rcc enc m,
            is_Some (sharedCluster.cluster (state_of (RemoteCacheConfig.NewCache rcc enc m s)))).
  { intros rcc enc m. revert Hinv.
    unfold RemoteCacheConfig.NewCache, RemoteCacheConfig.createCluster, sync.Do,
      sharedCluster.onCluster.
    unfold_go. destruct s as [c0 created closed]. simpl.
    destruct created; simpl; intros Hinv.
    - destruct (Hinv eq_refl) as [n ->]. simpl. crunch; eauto.
    - crunch; eauto. }
  destruct c as [rcc enc m|tcc enc m lm rm| |tc]; simpl; intros Hcreated.
  - apply Hnew.
  - specialize (Hnew (TieredCacheConfig.RemoteConfig tcc) enc rm). revert Hnew.
    unfold TieredCacheConfig.NewCache, TieredCacheConfig.stateless. unfold_go.
    destruct (RemoteCacheConfig.NewCache _ _ _ s) as [[[[remote [er|]]|msg] s1] tr1];
      simpl; auto.
    destruct (LocalCacheConfig.NewCache _ _ _ tt) as [[[[local [el|]]|msg] u] tr2];
      simpl; auto.
  - apply Hclose; assumption.
  - revert Hcreated. unfold TieredCache.Close.
    destruct (TieredCache.Remote tc); [|simpl; exact Hinv].
    destruct (decide _); [|simpl; exact Hinv].
    apply Hclose; assumption.
Qed.

Lemma created_has_cluster_run (calls : list (PoolCall (E := E) (N := N))) :
  forall s : sharedCluster.t N, created_has_cluster s -> created_has_cluster (run calls s).1.
Proof.
  induction calls as [|c calls IH]; intros s Hinv; simpl; [exact Hinv|].
  apply IH, created_has_cluster_perform, Hinv.
Qed.

(** X18.  From the start of the process on, whatever constructors and
    closes were called before, also ones that panicked, the package
    variable never says that the cluster was created without holding one.
    So [RemoteCacheConfig.NewCache] never panics on a nil cluster: it
    returns a cache that has a cluster. *)
Theorem RemoteCacheConfig_NewCache_never_panics
    (calls : list (PoolCall (E := E) (N := N))) (rcc : RemoteCacheConfig.t)
    (encoder : option CacheEncoder.t) (metrics : option CacheMetrics.t) :
  let s := (run calls sharedCluster.init).1 in
  created_has_cluster s /\
  exists cache err,
    outcome_of (RemoteCacheConfig.NewCache rcc encoder metrics s) = Ret (cache, err) /\
    is_Some (RemoteCache.cluster cache).
Proof.
  intros s.
  assert (Hinv : created_has_cluster s).
  { apply created_has_cluster_run. intros Hcreated. discriminate Hcreated. }
  split; [exact Hinv|]. revert Hinv. generalize s. clear s.
  intros [c created closed]. unfold created_has_cluster. simpl. intros Hinv.
  unfold RemoteCacheConfig.NewCache, RemoteCacheConfig.createCluster, sync.Do,
    sharedCluster.onCluster.
  unfold_go. simpl.
  destruct created; simpl.
  - destruct (Hinv eq_refl) as [n ->]. simpl. crunch; eauto.
  - crunch; eauto.
Qed.

(** X19.  A [Close] called before any cache was built panics on the nil
    cluster and uses up [onceClose]: no later [Close] reaches the cluster
    that a later constructor creates. *)
Theorem Close_before_NewCache_disables_Close (calls : list (PoolCall (E := E) (N := N))) :
  let r := RemoteCache.Close (sharedCluster.init (N := N)) in
  outcome_of r = Panic nil_deref /\
  state_of r = sharedCluster.mk None false true /\
  clusterCalls "Close" (run calls (state_of r)).2 = 0 /\
  clusterCalls "New" (run calls (state_of r)).2 = (if existsb constructs calls then 1 else 0).
Proof.
  intros r. subst r.
  split; [reflexivity|]. split; [reflexivity|].
  destruct (run_once calls (state_of (RemoteCache.Close (sharedCluster.init (N := N)))))
    as [Hnew Hclose].
  split; [exact Hclose|exact Hnew].
Qed.

End PoolFacts.

Lemma RemoteCacheConfig_NewCache_ignores_later_seeds_witness :
  let first := RemoteCacheConfig.mk ["127.0.0.1:7000"] "" 5000000000%Z false in
  let s : sharedCluster.t Doubles.MiniRedis :=
    state_of (RemoteCacheConfig.NewCache first None None sharedCluster.init) in
  sharedCluster.onceCreate s = true /\
  trace_of (RemoteCacheConfig.NewCache
              (RemoteCacheConfig.mk ["10.0.0.1:6379"] "" 1%Z false) None None s) =
    [Call ToCluster "Refresh" []].
Proof.
  intros first s. split; [reflexivity|].
  rewrite (RemoteCacheConfig_NewCache_ignores_later_seeds first ["10.0.0.1:6379"] 1%Z None None
             s eq_refl).
  reflexivity.
Defined.

Lemma RemoteCacheConfig_NewCache_authenticates_witness :
  let rcc := RemoteCacheConfig.mk ["127.0.0.1:7000"] "secret" 5000000000%Z false in
  clusterFor rcc (sharedCluster.init (N := Doubles.MiniRedis)) =
    Some (Doubles.miniredis [] []) /\
  connCalls (trace_of (RemoteCacheConfig.NewCache rcc None None
                         (sharedCluster.init (N := Doubles.MiniRedis)))) =
    [("Do", [AStr "AUTH"; AStr "secret"]); ("Close", [])].
Proof.
  intros rcc. split; [reflexivity|].
  destruct (RemoteCacheConfig_NewCache_authenticates rcc None None
              (sharedCluster.init (N := Doubles.MiniRedis)) eq_refl) as (_ & _ & Hauth).
  assert (Hrefresh : (redisc.Refresh (Doubles.miniredis [] [])).1 = None) by reflexivity.
  assert (Htoken : RemoteCacheConfig.AuthToken rcc <> "") by discriminate.
  exact (proj1 (Hauth Hrefresh Htoken)).
Defined.

(** ** The test doubles of the package *)

Ltac unfold_mock :=
  unfold MockCache.GetBytes, MockCache.Get, MockCache.SetBytes, MockCache.Set_,
    MockCache.Delete, MockCache.Purge, MockCache.lookup, MockCache.withCache,
    CacheEncoder.callEncode, CacheEncoder.callDecode in *.

(** X20.  A [MockCache] whose map was made behaves as a map.  [SetBytes]
    binds the key and no other; [GetBytes] returns what the key is bound
    to, or "key not found"; [Delete] refuses a key that is not bound and
    otherwise unbinds it and no other; [Purge] unbinds every key.  None of
    them changes the encoder or the recorder of the mock, and reads leave
    the mock as it was. *)
Theorem MockCache_behaves_as_a_map (mc : MockCache.t) (m : gmap string bytes)
    (key other : string) (value : bytes) :
  MockCache.Cache mc = Some m ->
  other <> key ->
  (let res := MockCache.SetBytes key value mc in
   outcome_of res = Ret None /\
   MockCache.lookup (state_of res) key = Some value /\
   MockCache.lookup (state_of res) other = MockCache.lookup mc other /\
   MockCache.Encoder (state_of res) = MockCache.Encoder mc /\
   MockCache.Metrics (state_of res) = MockCache.Metrics mc) /\
  MockCache.GetBytes key mc =
    (Ret (match m !! key with
          | Some v => (v, None)
          | None => ([], Some "key not found")
          end), mc, []) /\
  (let res := MockCache.Delete key mc in
   (m !! key = None -> res = (Ret (Some "key not found for deletion"), mc, [])) /\
   (is_Some (m !! key) ->
      outcome_of res = Ret None /\
      MockCache.lookup (state_of res) key = None /\
      MockCache.lookup (state_of res) other = MockCache.lookup mc other /\
      MockCache.Encoder (state_of res) = MockCache.Encoder mc /\
      MockCache.Metrics (state_of res) = MockCache.Metrics mc)) /\
  (let res := MockCache.Purge mc in
   outcome_of res = Ret None /\
   (forall k, MockCache.lookup (state_of res) k = None) /\
   MockCache.Encoder (state_of res) = MockCache.Encoder mc /\
   MockCache.Metrics (state_of res) = MockCache.Metrics mc).
Proof.
  intros Hm Hne. destruct mc as [c enc metrics]. simpl in Hm. subst c.
  unfold_mock. unfold_go. simpl.
  split; [|split; [|split]].
  - rewrite lookup_insert_eq, lookup_insert_ne by congruence. repeat split.
  - destruct (m !! key); reflexivity.
  - split.
    + intros ->. reflexivity.
    + intros [v ->]. simpl.
      rewrite lookup_delete_eq, lookup_delete_ne by congruence. repeat split.
  - repeat split.
Qed.

Lemma MockCache_behaves_as_a_map_witness :
  let mc := mockHolding [("test-key", Doubles.b "test-value")] None in
  MockCache.Cache mc = Some (list_to_map [("test-key", Doubles.b "test-value")]) /\
  "other-key" <> "test-key" /\
  MockCache.lookup (state_of (MockCache.Delete "test-key" mc)) "test-key" = None /\
  outcome_of (MockCache.GetBytes "test-key" mc) = Ret (Doubles.b "test-value", None).
Proof.
  intros mc.
  assert (Hm : MockCache.Cache mc = Some (list_to_map [("test-key", Doubles.b "test-value")]))
    by reflexivity.
  assert (Hne : "other-key" <> "test-key") by discriminate.
  split; [exact Hm|]. split; [exact Hne|].
  destruct (MockCache_behaves_as_a_map mc (key := "test-key") (Doubles.b "test-value") Hm Hne)
    as (_ & Hget & (_ & Hdel) & _).
  split.
  - apply Hdel. vm_compute. eauto.
  - rewrite Hget. reflexivity.
Defined.

(** X21.  A [MockCache] whose map is nil, such as [&MockCache{}], reads
    as an empty one: [GetBytes] and [Delete] return their errors.  A
    write panics on the nil map, unless [Purge] was called before, which
    makes the map. *)
Theorem MockCache_nil_map (mc : MockCache.t) (key : string) (value : bytes) :
  MockCache.Cache mc = None ->
  MockCache.GetBytes key mc = (Ret ([], Some "key not found"), mc, []) /\
  MockCache.Delete key mc = (Ret (Some "key not found for deletion"), mc, []) /\
  MockCache.SetBytes key value mc = (Panic "assignment to entry in nil map", mc, []) /\
  (let purged := state_of (MockCache.Purge mc) in
   outcome_of (MockCache.SetBytes key value purged) = Ret None /\
   MockCache.lookup (state_of (MockCache.SetBytes key value purged)) key = Some value).
Proof.
  intros Hm. destruct mc as [c enc metrics]. simpl in Hm. subst c.
  unfold_mock. unfold_go. simpl. rewrite lookup_insert_eq. repeat split.
Qed.

Lemma MockCache_nil_map_witness :
  let mc := MockCache.mk None None None in
  MockCache.Cache mc = None /\
  outcome_of (MockCache.SetBytes "test-key" (Doubles.b "test-value") mc) =
    Panic "assignment to entry in nil map".
Proof.
  intros mc. split; [reflexivity|].
  destruct (MockCache_nil_map mc "test-key" (Doubles.b "test-value") eq_refl)
    as (_ & _ & Hset & _).
  rewrite Hset. reflexivity.
Defined.

(** X22.  [MockCacheEncoder] does not decode: its [Decode] returns no
    error and leaves the target as it was, so a [Get] through it succeeds
    on every key that is bound without delivering the value, on the mock
    cache and on the tiered cache made of two of them.  Its [Encode]
    passes byte slices through and panics on every other value. *)
Theorem MockCacheEncoder_delivers_nothing (mc remote : MockCache.t) (key : string)
    (value : bytes) (target : Value) (metrics : option CacheMetrics.t) (tracing : bool) :
  MockCache.Encoder mc = Some MockCacheEncoder.encoder ->
  MockCache.lookup mc key = Some value ->
  MockCache.Get key target mc = (Ret (None, target), mc, []) /\
  outcome_of (TieredCache.Get key target
                (TieredCache.mk (Some remote) (Some mc) metrics tracing)) =
    Ret (None, target) /\
  (forall v, MockCacheEncoder.Encode v =
     match v with
     | VBytes b => Ret (b, None)
     | _ => Panic "interface conversion: interface {} is not []uint8"
     end) /\
  (forall v, (forall b, v <> VBytes b) ->
     exists msg, outcome_of (MockCache.Set_ key v mc) = Panic msg /\
                 state_of (MockCache.Set_ key v mc) = mc).
Proof.
  intros Henc Hlookup. destruct mc as [c enc m]. simpl in Henc. subst enc.
  assert (Hget : MockCache.Get key target (MockCache.mk c (Some MockCacheEncoder.encoder) m) =
                 (Ret (None, target), MockCache.mk c (Some MockCacheEncoder.encoder) m, [])).
  { unfold MockCache.Get, MockCache.GetBytes, CacheEncoder.callDecode. unfold_go.
    rewrite Hlookup. reflexivity. }
  split; [exact Hget|]. split; [|split].
  - unfold TieredCache.Get, TieredCache.onLocal, TieredCache.observe. unfold_go. simpl.
    rewrite Hget. reflexivity.
  - intros v. reflexivity.
  - intros v Hv. unfold MockCache.Set_, CacheEncoder.callEncode. unfold_go. simpl.
    destruct v; simpl; eauto. destruct (Hv b eq_refl).
Qed.

Lemma MockCacheEncoder_delivers_nothing_witness :
  let mc := mockHolding [("test-key", Doubles.b "test-value")]
              (Some MockCacheEncoder.encoder) in
  MockCache.Encoder mc = Some MockCacheEncoder.encoder /\
  MockCache.lookup mc "test-key" = Some (Doubles.b "test-value") /\
  outcome_of (MockCache.Get "test-key" VNil mc) = Ret (None, VNil).
Proof.
  intros mc.
  assert (Hl : MockCache.lookup mc "test-key" = Some (Doubles.b "test-value"))
    by (vm_compute; reflexivity).
  split; [reflexivity|]. split; [exact Hl|].
  destruct (@MockCacheEncoder_delivers_nothing mc mc "test-key" (Doubles.b "test-value") VNil
              None false eq_refl Hl) as (Hget & _).
  rewrite Hget. reflexivity.
Defined.

(** ** The Prometheus recorder *)

(** One call on a recorder that shares the vectors of the package. *)
Lemma PrometheusCacheMetrics_method_run (s : PrometheusCacheMetrics.Pkg)
    (client cacheName : string) (c : CacheMetrics.call) :
  vectorsReady s ->
  let pcm := PrometheusCacheMetrics.mk client cacheName (PrometheusCacheMetrics.vars s) in
  exists s',
    PrometheusCacheMetrics.method pcm c s = (Ret tt, s', []) /\
    vectorsReady s' /\
    PrometheusCacheMetrics.vars s' = PrometheusCacheMetrics.vars s /\
    prometheus.registered (PrometheusCacheMetrics.registry s') =
      prometheus.registered (PrometheusCacheMetrics.registry s) /\
    forall c' lvs,
      counterValue s' c' lvs =
      counterValue s c' lvs +
      (if decide (c' = c /\ lvs = [client; cacheName]) then 1 else 0).
Proof.
  intros [Hvec Hinj] pcm. subst pcm.
  destruct (Hvec c) as (p & v & Hp & Hv & Hlen).
  assert (Hrun : PrometheusCacheMetrics.method
                   (PrometheusCacheMetrics.mk client cacheName (PrometheusCacheMetrics.vars s))
                   c s =
                 PrometheusCacheMetrics.onRegistry
                   (prometheus.Inc p [client; cacheName]) s).
  { destruct c; simpl;
      unfold PrometheusCacheMetrics.Hit, PrometheusCacheMetrics.Miss,
        PrometheusCacheMetrics.Set_, PrometheusCacheMetrics.SetCollision,
        PrometheusCacheMetrics.DeleteHit, PrometheusCacheMetrics.DeleteMiss,
        PrometheusCacheMetrics.PurgeHit, PrometheusCacheMetrics.PurgeMiss,
        PrometheusCacheMetrics.inc; simpl; rewrite Hp; reflexivity. }
  rewrite Hrun. clear Hrun.
  unfold PrometheusCacheMetrics.onRegistry, prometheus.Inc. rewrite Hv.
  rewrite bool_decide_eq_true_2 by (rewrite Hlen; reflexivity).
  eexists. split; [reflexivity|]. simpl.
  split; [|split; [reflexivity|split; [reflexivity|]]].
  - split; [|exact Hinj]. intros c'. simpl.
    destruct (Hvec c') as (p' & v' & Hp' & Hv' & Hlen').
    destruct (decide (p' = p)) as [->|Hne].
    + eexists p, _. split; [exact Hp'|]. rewrite lookup_insert_eq. split; [reflexivity|].
      exact Hlen.
    + exists p', v'. split; [exact Hp'|]. rewrite lookup_insert_ne by congruence.
      split; assumption.
  - intros c' lvs. unfold counterValue, prometheus.value. simpl.
    destruct (Hvec c') as (p' & v' & Hp' & Hv' & Hlen'). rewrite Hp'.
    destruct (decide (c' = c)) as [->|Hc].
    + assert (p' = p) by congruence. subst p'.
      rewrite lookup_insert_eq, Hv. simpl.
      destruct (decide (lvs = [client; cacheName])) as [->|Hl].
      * rewrite lookup_insert_eq. simpl.
        rewrite decide_True by auto. lia.
      * rewrite lookup_insert_ne by congruence.
        rewrite decide_False by tauto. lia.
    + assert (p' <> p).
      { intros ->. apply Hc, Hinj. congruence. }
      rewrite lookup_insert_ne by congruence. rewrite Hv'.
      rewrite decide_False by tauto. lia.
Qed.

(** Calls on a recorder, one after the other. *)
Lemma recordAll_run (cs : list CacheMetrics.call) :
  forall (s : PrometheusCacheMetrics.Pkg) (client cacheName : string),
    vectorsReady s ->
    let pcm := PrometheusCacheMetrics.mk client cacheName (PrometheusCacheMetrics.vars s) in
    exists s',
      recordAll pcm cs s = (Ret tt, s', []) /\
      vectorsReady s' /\
      PrometheusCacheMetrics.vars s' = PrometheusCacheMetrics.vars s /\
      prometheus.registered (PrometheusCacheMetrics.registry s') =
        prometheus.registered (PrometheusCacheMetrics.registry s) /\
      forall c lvs,
        counterValue s' c lvs =
        counterValue s c lvs +
        (if decide (lvs = [client; cacheName]) then CacheMetrics.count c (Some cs) else 0).
Proof.
  induction cs as [|c0 cs IH]; intros s client cacheName Hready pcm; subst pcm.
  - exists s. simpl. repeat split; try apply Hready.
    intros c lvs. destruct (decide _); lia.
  - destruct (PrometheusCacheMetrics_method_run client cacheName c0 Hready)
      as (s1 & Hrun1 & Hready1 & Hvars1 & Hreg1 & Hcount1).
    destruct (IH s1 client cacheName Hready1) as (s2 & Hrun2 & Hready2 & Hvars2 & Hreg2 & Hcount2).
    exists s2. simpl. unfold bind. rewrite Hrun1. rewrite Hvars1 in Hrun2. rewrite Hrun2.
    split; [reflexivity|]. split; [exact Hready2|].
    split; [congruence|]. split; [congruence|].
    intros c lvs. rewrite Hcount2, Hcount1. simpl.
    destruct (decide (lvs = [client; cacheName])) as [->|Hl].
    + destruct (CacheMetrics.call_eq_dec c0 c) as [->|Hc].
      * rewrite decide_True by auto. lia.
      * rewrite decide_False by (intros [? _]; congruence). lia.
    + rewrite decide_False by tauto. lia.
Qed.

(** X23.  The Prometheus recorder counts the calls: after any calls on a
    recorder of client [client] and cache [cacheName], the counter of each
    method, read at these two labels, has grown by the number of calls of
    that method, and no other series has moved.  No call panics, and the
    registrations stay as they were. *)
Theorem PrometheusCacheMetrics_counts_calls (s : PrometheusCacheMetrics.Pkg)
    (client cacheName : string) (cs : list CacheMetrics.call) :
  vectorsReady s ->
  let pcm := PrometheusCacheMetrics.mk client cacheName (PrometheusCacheMetrics.vars s) in
  exists s',
    recordAll pcm cs s = (Ret tt, s', []) /\
    vectorsReady s' /\
    prometheus.registered (PrometheusCacheMetrics.registry s') =
      prometheus.registered (PrometheusCacheMetrics.registry s) /\
    forall c lvs,
      counterValue s' c lvs =
      counterValue s c lvs +
      (if decide (lvs = [client; cacheName]) then CacheMetrics.count c (Some cs) else 0).
Proof.
  intros Hready pcm.
  destruct (recordAll_run cs client cacheName Hready) as (s' & Hrun & Hready' & _ & Hreg & Hcount).
  exists s'. repeat split; try assumption; apply Hready'.
Qed.

Lemma ensureAll_init :
  PrometheusCacheMetrics.ensureAll PrometheusCacheMetrics.variables
    PrometheusCacheMetrics.init = (Ret tt, registeredState, []).
Proof. vm_compute. reflexivity. Qed.

(** The first constructor call of the process. *)
Lemma NewPrometheusCacheMetrics_first (client cacheName : string) :
  PrometheusCacheMetrics.NewPrometheusCacheMetrics client cacheName
    PrometheusCacheMetrics.init =
    (Ret (PrometheusCacheMetrics.mk client cacheName
            (PrometheusCacheMetrics.vars registeredState)), registeredState, []) /\
  prometheus.registeredNames (PrometheusCacheMetrics.registry registeredState) =
    map PrometheusCacheMetrics.counterName PrometheusCacheMetrics.variables /\
  vectorsReady registeredState /\
  (forall c lvs, counterValue registeredState c lvs = 0).
Proof.
  unfold PrometheusCacheMetrics.NewPrometheusCacheMetrics. unfold_go.
  rewrite ensureAll_init.
  split; [reflexivity|]. split; [vm_compute; reflexivity|].
  split; [split|].
  - intros c. destruct c; eexists _, _; vm_compute; repeat split.
  - intros c c'. destruct c, c'; vm_compute; congruence.
  - intros c lvs. destruct c; reflexivity.
Qed.

(** Once the variables are set, the constructor only reads them. *)
Lemma NewPrometheusCacheMetrics_later (s : PrometheusCacheMetrics.Pkg)
    (client cacheName : string) :
  (forall c, is_Some (PrometheusCacheMetrics.vars s c)) ->
  PrometheusCacheMetrics.NewPrometheusCacheMetrics client cacheName s =
    (Ret (PrometheusCacheMetrics.mk client cacheName (PrometheusCacheMetrics.vars s)), s, []).
Proof.
  intros Hset.
  assert (Hensure : forall c, PrometheusCacheMetrics.ensure c s = (Ret tt, s, [])).
  { intros c. unfold PrometheusCacheMetrics.ensure. unfold_go.
    destruct (Hset c) as [p ->]. reflexivity. }
  unfold PrometheusCacheMetrics.NewPrometheusCacheMetrics,
    PrometheusCacheMetrics.variables. simpl. unfold bind.
  rewrite !Hensure. reflexivity.
Qed.

Lemma vectorsReady_set (s : PrometheusCacheMetrics.Pkg) :
  vectorsReady s -> forall c, is_Some (PrometheusCacheMetrics.vars s c).
Proof. intros [Hvec _] c. destruct (Hvec c) as (p & v & Hp & _). eauto. Qed.


Lemma PrometheusCacheMetrics_counts_calls_witness :
  let s := state_of (PrometheusCacheMetrics.NewPrometheusCacheMetrics "c" "n"
                       PrometheusCacheMetrics.init) in
  let pcm := PrometheusCacheMetrics.mk "c" "n" (PrometheusCacheMetrics.vars s) in
  let calls := [CacheMetrics.Hit; CacheMetrics.Miss; CacheMetrics.Hit] in
  vectorsReady s /\
  exists s',
    recordAll pcm calls s = (Ret tt, s', []) /\
    counterValue s' CacheMetrics.Hit ["c"; "n"] = 2 /\
    counterValue s' CacheMetrics.Hit ["c"; "other"] = 0 /\
    counterValue s' CacheMetrics.Set_ ["c"; "n"] = 0.
Proof.
  intros s pcm calls.
  destruct (NewPrometheusCacheMetrics_first "c" "n") as (Hfirst & _ & Hready & Hzero).
  subst pcm s. rewrite Hfirst. unfold state_of. cbn [fst snd].
  split; [exact Hready|].
  destruct (PrometheusCacheMetrics_counts_calls "c" "n" calls Hready)
    as (s' & Hrun & _ & _ & Hcount).
  exists s'. split; [exact Hrun|].
  rewrite !Hcount, !Hzero. repeat split.
Defined.

(** X25.  Unregistering the vectors of a recorder, as the tests of the
    package do when they end, is not undone by the constructor: the
    package variables still point to the vectors, so the next
    [NewPrometheusCacheMetrics] registers nothing and returns a recorder
    on the unregistered vectors, which still hold the counts of the
    calls made before. *)
Theorem deregister_is_not_undone (client cacheName client' cacheName' : string)
    (cs : list CacheMetrics.call) :
  let s0 := state_of (PrometheusCacheMetrics.NewPrometheusCacheMetrics client cacheName
                        PrometheusCacheMetrics.init) in
  let pcm := PrometheusCacheMetrics.mk client cacheName (PrometheusCacheMetrics.vars s0) in
  let s1 := state_of (recordAll pcm cs s0) in
  let s2 := state_of (PrometheusCacheMetrics.deregister pcm s1) in
  outcome_of (PrometheusCacheMetrics.deregister pcm s1) = Ret tt /\
  prometheus.registeredNames (PrometheusCacheMetrics.registry s2) = [] /\
  PrometheusCacheMetrics.NewPrometheusCacheMetrics client' cacheName' s2 =
    (Ret (PrometheusCacheMetrics.mk client' cacheName' (PrometheusCacheMetrics.vars s0)),
     s2, []) /\
  (forall c lvs, counterValue s2 c lvs = counterValue s1 c lvs) /\
  (forall c, counterValue s2 c [client; cacheName] = CacheMetrics.count c (Some cs)).
Proof.
  intros s0 pcm s1 s2.
  destruct (NewPrometheusCacheMetrics_first client cacheName)
    as (Hfirst & _ & Hready & Hzero).
  assert (Hs0 : s0 = registeredState) by (subst s0; rewrite Hfirst; reflexivity).
  clearbody s0. subst s0.
  destruct (recordAll_run cs client cacheName Hready)
    as (s' & Hrun & Hready' & Hvars & Hreg & Hcount).
  assert (Hs1 : s1 = s') by (subst s1 pcm; rewrite Hrun; reflexivity).
  clearbody s1. subst s1. clear Hrun.
  destruct s' as [vars' [heap' registered']]. cbn [PrometheusCacheMetrics.vars PrometheusCacheMetrics.registry
         prometheus.registered] in Hvars, Hreg.
  subst vars' registered'.
  assert (Hder : PrometheusCacheMetrics.deregister pcm
                   (PrometheusCacheMetrics.mkPkg (PrometheusCacheMetrics.vars registeredState)
                      (prometheus.mkRegistry heap'
                         (prometheus.registered
                            (PrometheusCacheMetrics.registry registeredState)))) =
                 (Ret tt,
                  PrometheusCacheMetrics.mkPkg (PrometheusCacheMetrics.vars registeredState)
                    (prometheus.mkRegistry heap' []), [])) by reflexivity.
  subst s2. rewrite Hder. unfold state_of, outcome_of. cbn [fst snd].
  split; [reflexivity|]. split; [reflexivity|]. split; [|split].
  - apply (NewPrometheusCacheMetrics_later
             (PrometheusCacheMetrics.mkPkg (PrometheusCacheMetrics.vars registeredState)
                (prometheus.mkRegistry heap' []))).
    intros c. simpl. apply (vectorsReady_set Hready).
  - intros c lvs. reflexivity.
  - intros c. change (counterValue _ c [client; cacheName]) with
      (counterValue (PrometheusCacheMetrics.mkPkg (PrometheusCacheMetrics.vars registeredState)
                       (prometheus.mkRegistry heap'
                          (prometheus.registered
                             (PrometheusCacheMetrics.registry registeredState))))
         c [client; cacheName]).
    rewrite Hcount, Hzero. rewrite decide_True by reflexivity. reflexivity.
Qed.

(** ** The command-line flags *)

(** One [...Var] call on a set that does not define the name. *)
Lemma var_run {C : Type} (store : C -> C) (flagName : string) (value : pflag.Value)
    (usage : string) (c : C) (nm : string) (fm : gmap string pflag.Flag) :
  fm !! flagName = None ->
  cli.var store flagName value usage (c, pflag.mkFlagSet nm fm) =
    (Ret tt, (store c, pflag.mkFlagSet nm (<[flagName := pflag.mkFlag value usage]> fm)), []).
Proof. intros Hfree. unfold cli.var, pflag.AddFlag. simpl. rewrite Hfree. reflexivity. Qed.

(** One [...Var] call on a set that defines the name already: the default
    is stored, then the call panics. *)
Lemma var_redefined {C : Type} (store : C -> C) (flagName : string) (value : pflag.Value)
    (usage : string) (c : C) (flags : pflag.FlagSet) :
  is_Some (pflag.Lookup flags flagName) ->
  cli.var store flagName value usage (c, flags) =
    (Panic (pflag.name flags +:+ " flag redefined: " +:+ flagName), (store c, flags), []).
Proof.
  intros [f Hf]. unfold cli.var, pflag.AddFlag, pflag.Lookup in *. simpl. rewrite Hf.
  reflexivity.
Qed.

Ltac run_var :=
  unfold bind at 1;
  rewrite var_run by (rewrite ?lookup_insert_ne by discriminate; assumption);
  cbv beta iota.

Lemma RemoteCacheConfig_RegisterFlags_run (rcc : RemoteCacheConfig.t) (nm : string)
    (fm : gmap string pflag.Flag) :
  (forall n, n ∈ cli.remoteFlags -> fm !! n = None) ->
  exists fm',
    cli.RemoteCacheConfig_RegisterFlags (rcc, pflag.mkFlagSet nm fm) =
      (Ret tt,
       (RemoteCacheConfig.mk cli.defaultURLs "" (5 * Second)%Z true, pflag.mkFlagSet nm fm'),
       []) /\
    (forall n, n ∈ cli.remoteFlags -> is_Some (fm' !! n)) /\
    (forall n, n ∉ cli.remoteFlags -> fm' !! n = fm !! n).
Proof.
  intros Hfree. unfold cli.remoteFlags in *.
  assert (H1 : fm !! "cache-urls" = None) by (apply Hfree; rewrite !elem_of_cons; tauto).
  assert (H2 : fm !! "cache-auth-token" = None) by (apply Hfree; rewrite !elem_of_cons; tauto).
  assert (H3 : fm !! "cache-timeout" = None) by (apply Hfree; rewrite !elem_of_cons; tauto).
  assert (H4 : fm !! "remote-cache-tracing-enabled" = None)
    by (apply Hfree; rewrite !elem_of_cons; tauto).
  eexists. unfold cli.RemoteCacheConfig_RegisterFlags.
  do 3 run_var. rewrite var_run by (rewrite ?lookup_insert_ne by discriminate; assumption).
  split; [reflexivity|]. split.
  - intros n Hn. rewrite !elem_of_cons, elem_of_nil in Hn.
    destruct Hn as [->|[->|[->|[->|[]]]]];
      rewrite ?lookup_insert_ne by discriminate; rewrite lookup_insert_eq; eauto.
  - intros n Hn. rewrite !elem_of_cons, elem_of_nil in Hn.
    rewrite !lookup_insert_ne by (intros <-; tauto). reflexivity.
Qed.

Lemma LocalCacheConfig_RegisterFlags_run (lcc : LocalCacheConfig.t) (nm : string)
    (fm : gmap string pflag.Flag) :
  (forall n, n ∈ cli.localFlags -> fm !! n = None) ->
  exists fm',
    cli.LocalCacheConfig_RegisterFlags (lcc, pflag.mkFlagSet nm fm) =
      (Ret tt,
       (LocalCacheConfig.mk (5 * Second)%Z (60 * Minute)%Z 0%Z true, pflag.mkFlagSet nm fm'),
       []) /\
    (forall n, n ∈ cli.localFlags -> is_Some (fm' !! n)) /\
    (forall n, n ∉ cli.localFlags -> fm' !! n = fm !! n).
Proof.
  intros Hfree. unfold cli.localFlags in *.
  assert (H1 : fm !! "cache-eviction" = None) by (apply Hfree; rewrite !elem_of_cons; tauto).
  assert (H2 : fm !! "cache-ttl" = None) by (apply Hfree; rewrite !elem_of_cons; tauto).
  assert (H3 : fm !! "cache-shards" = None) by (apply Hfree; rewrite !elem_of_cons; tauto).
  assert (H4 : fm !! "local-cache-tracing-enabled" = None)
    by (apply Hfree; rewrite !elem_of_cons; tauto).
  eexists. unfold cli.LocalCacheConfig_RegisterFlags.
  do 3 run_var. rewrite var_run by (rewrite ?lookup_insert_ne by discriminate; assumption).
  split; [reflexivity|]. split.
  - intros n Hn. rewrite !elem_of_cons, elem_of_nil in Hn.
    destruct Hn as [->|[->|[->|[->|[]]]]];
      rewrite ?lookup_insert_ne by discriminate; rewrite lookup_insert_eq; eauto.
  - intros n Hn. rewrite !elem_of_cons, elem_of_nil in Hn.
    rewrite !lookup_insert_ne by (intros <-; tauto). reflexivity.
Qed.

(** X26.  On a flag set that defines none of their nine names,
    [TieredCacheConfig.RegisterFlags] returns, defines the nine flags and
    no other, and leaves the defaults in the configuration: the six local
    seed addresses, no token, a timeout and an eviction time of five
    seconds, a TTL of an hour, a shard count of zero, and tracing on for
    the tiered cache and both tiers.  The encoder field is not touched. *)
Theorem TieredCacheConfig_RegisterFlags_defaults (tcc : TieredCacheConfig.t)
    (flags : pflag.FlagSet) :
  (forall n, n ∈ cli.tieredFlags -> pflag.Lookup flags n = None) ->
  let res := cli.TieredCacheConfig_RegisterFlags (tcc, flags) in
  outcome_of res = Ret tt /\
  (state_of res).1 =
    TieredCacheConfig.mk
      (RemoteCacheConfig.mk cli.defaultURLs "" (5 * Second)%Z true)
      (LocalCacheConfig.mk (5 * Second)%Z (60 * Minute)%Z 0%Z true)
      (TieredCacheConfig.Encoder tcc) true /\
  pflag.name (state_of res).2 = pflag.name flags /\
  (forall n, n ∈ cli.tieredFlags -> is_Some (pflag.Lookup (state_of res).2 n)) /\
  (forall n, n ∉ cli.tieredFlags ->
     pflag.Lookup (state_of res).2 n = pflag.Lookup flags n).
Proof.
  intros Hfree res. subst res. destruct flags as [nm fm]. unfold pflag.Lookup in *.
  simpl in Hfree. unfold cli.tieredFlags in *. setoid_rewrite elem_of_app in Hfree.
  setoid_rewrite elem_of_app in Hfree.
  destruct (RemoteCacheConfig_RegisterFlags_run (TieredCacheConfig.RemoteConfig tcc) nm
              fm) as (fm1 & Hrun1 & Hdef1 & Hkeep1); [auto|].
  destruct (LocalCacheConfig_RegisterFlags_run (TieredCacheConfig.LocalConfig tcc) nm
              fm1) as (fm2 & Hrun2 & Hdef2 & Hkeep2).
  { intros n Hn. rewrite Hkeep1; [auto|].
    unfold cli.localFlags, cli.remoteFlags in *.
    rewrite !elem_of_cons, elem_of_nil in *. intuition (subst; discriminate). }
  assert (H9 : fm2 !! "tiered-cache-tracing-enabled" = None).
  { rewrite Hkeep2, Hkeep1; [apply Hfree; right; right; rewrite elem_of_cons; auto
                            | |];
      unfold cli.localFlags, cli.remoteFlags;
      rewrite !elem_of_cons, elem_of_nil; intuition discriminate. }
  unfold cli.TieredCacheConfig_RegisterFlags, cli.onField. unfold bind.
  cbn [fst snd]. rewrite Hrun1. cbn [fst snd TieredCacheConfig.LocalConfig].
  rewrite Hrun2. rewrite var_run by exact H9.
  unfold outcome_of, state_of. cbn [fst snd pflag.name pflag.formal].
  split; [reflexivity|]. split; [destruct tcc; reflexivity|]. split; [reflexivity|].
  split.
  - intros n Hn. rewrite !elem_of_app in Hn.
    destruct (decide (n = "tiered-cache-tracing-enabled")) as [->|Hne];
      [rewrite lookup_insert_eq; eauto|].
    rewrite lookup_insert_ne by congruence.
    destruct (decide (n ∈ cli.localFlags)) as [Hl|Hl]; [auto|].
    rewrite Hkeep2 by exact Hl.
    destruct Hn as [Hn|[Hn|Hn]]; [auto|tauto|].
    rewrite elem_of_cons, elem_of_nil in Hn. tauto.
  - intros n Hn. rewrite !elem_of_app, elem_of_cons, elem_of_nil in Hn.
    rewrite lookup_insert_ne by (intros <-; tauto).
    rewrite Hkeep2, Hkeep1 by tauto. reflexivity.
Qed.

Lemma TieredCacheConfig_RegisterFlags_defaults_witness :
  let flags := pflag.NewFlagSet "app" in
  let tcc := TieredCacheConfig.mk (RemoteCacheConfig.mk [] "" 0%Z false)
               (LocalCacheConfig.mk 0%Z 0%Z 3%Z false) None false in
  (forall n, n ∈ cli.tieredFlags -> pflag.Lookup flags n = None) /\
  outcome_of (cli.TieredCacheConfig_RegisterFlags (tcc, flags)) = Ret tt /\
  LocalCacheConfig.Shards
    (TieredCacheConfig.LocalConfig
       (state_of (cli.TieredCacheConfig_RegisterFlags (tcc, flags))).1) = 0%Z.
Proof.
  intros flags tcc.
  assert (Hfree : forall n, n ∈ cli.tieredFlags -> pflag.Lookup flags n = None)
    by (intros n _; reflexivity).
  split; [exact Hfree|].
  destruct (TieredCacheConfig_RegisterFlags_defaults tcc flags Hfree) as (Hout & Hcfg & _).
  split; [exact Hout|]. rewrite Hcfg. reflexivity.
Defined.

(** X27.  The flag names are fixed, so a flag set takes one registration
    of the remote flags.  Once [RemoteCacheConfig.RegisterFlags] has
    returned, a second registration on the same set, of the remote flags
    or of the tiered flags, panics on "cache-urls": no flag is added, and
    the seed addresses of the configuration have been overwritten by the
    default by then, the other fields not. *)
Theorem RegisterFlags_twice_panics (rcc rcc' : RemoteCacheConfig.t)
    (tcc : TieredCacheConfig.t) (flags : pflag.FlagSet) :
  (forall n, n ∈ cli.remoteFlags -> pflag.Lookup flags n = None) ->
  let once := cli.RemoteCacheConfig_RegisterFlags (rcc, flags) in
  let flags1 := (state_of once).2 in
  let redefined := Panic (pflag.name flags +:+ " flag redefined: cache-urls") in
  outcome_of once = Ret tt /\
  cli.RemoteCacheConfig_RegisterFlags (rcc', flags1) =
    (redefined,
     (RemoteCacheConfig.mk cli.defaultURLs (RemoteCacheConfig.AuthToken rcc')
        (RemoteCacheConfig.Timeout rcc') (RemoteCacheConfig.TracingEnabled rcc'), flags1),
     []) /\
  cli.TieredCacheConfig_RegisterFlags (tcc, flags1) =
    (redefined,
     (TieredCacheConfig.mk
        (RemoteCacheConfig.mk cli.defaultURLs
           (RemoteCacheConfig.AuthToken (TieredCacheConfig.RemoteConfig tcc))
           (RemoteCacheConfig.Timeout (TieredCacheConfig.RemoteConfig tcc))
           (RemoteCacheConfig.TracingEnabled (TieredCacheConfig.RemoteConfig tcc)))
        (TieredCacheConfig.LocalConfig tcc) (TieredCacheConfig.Encoder tcc)
        (TieredCacheConfig.TracingEnabled tcc), flags1),
     []).
Proof.
  intros Hfree once flags1 redefined. subst redefined flags1 once.
  destruct flags as [nm fm]. unfold pflag.Lookup in Hfree. simpl in Hfree.
  destruct (RemoteCacheConfig_RegisterFlags_run rcc nm fm Hfree)
    as (fm1 & Hrun & Hdef & _).
  rewrite Hrun. unfold outcome_of, state_of. cbn [fst snd pflag.name].
  split; [reflexivity|].
  assert (Hurls : is_Some (pflag.Lookup (pflag.mkFlagSet nm fm1) "cache-urls")).
  { apply Hdef. unfold cli.remoteFlags. rewrite elem_of_cons. auto. }
  assert (Hremote : forall c : RemoteCacheConfig.t,
            cli.RemoteCacheConfig_RegisterFlags (c, pflag.mkFlagSet nm fm1) =
              (Panic (nm +:+ " flag redefined: cache-urls"),
               (RemoteCacheConfig.mk cli.defaultURLs (RemoteCacheConfig.AuthToken c)
                  (RemoteCacheConfig.Timeout c) (RemoteCacheConfig.TracingEnabled c),
                pflag.mkFlagSet nm fm1), [])).
  { intros c. unfold cli.RemoteCacheConfig_RegisterFlags. unfold bind at 1 2 3.
    rewrite var_redefined by exact Hurls. reflexivity. }
  split; [apply Hremote|].
  unfold cli.TieredCacheConfig_RegisterFlags, cli.onField. unfold bind at 1 2.
  cbn [fst snd]. rewrite Hremote. reflexivity.
Qed.

Lemma RegisterFlags_twice_panics_witness :
  let flags := pflag.NewFlagSet "app" in
  let rcc := RemoteCacheConfig.mk [] "" 0%Z false in
  let tcc := TieredCacheConfig.mk rcc (LocalCacheConfig.mk 0%Z 0%Z 0%Z false) None false in
  (forall n, n ∈ cli.remoteFlags -> pflag.Lookup flags n = None) /\
  outcome_of (cli.TieredCacheConfig_RegisterFlags
                (tcc, (state_of (cli.RemoteCacheConfig_RegisterFlags (rcc, flags))).2)) =
    Panic "app flag redefined: cache-urls".
Proof.
  intros flags rcc tcc.
  assert (Hfree : forall n, n ∈ cli.remoteFlags -> pflag.Lookup flags n = None)
    by (intros n _; reflexivity).
  split; [exact Hfree|].
  destruct (RegisterFlags_twice_panics rcc rcc tcc flags Hfree) as (_ & _ & Htiered).
  rewrite Htiered. reflexivity.
Defined.

(** X28.  The defaults that the flags leave in the configuration build
    a cache: the shard count of zero passes the guard of the Local
    constructor, which asks the engine for its own number of shards, a
    life window of an hour and the clean window that goes with an
    eviction time of five seconds; the Remote constructor seeds the
    cluster with the six local addresses and, the token being empty,
    takes no connection to authenticate. *)
Theorem default_flags_build_a_cache {E N : Type} `{!bigcache.Engine E, !redisc.Cluster N}
    (tcc : TieredCacheConfig.t) (setName : string) (encoder : option CacheEncoder.t)
    (metrics localMetrics remoteMetrics : option CacheMetrics.t) :
  let tcc' := (state_of (cli.TieredCacheConfig_RegisterFlags
                           (tcc, pflag.NewFlagSet setName))).1 in
  let defaults := bigcache.DefaultConfig E (5 * Second)%Z in
  let res := TieredCacheConfig.NewCache (E := E) (N := N) tcc' encoder metrics localMetrics
               remoteMetrics sharedCluster.init in
  LocalCacheConfig.shardsRejected (TieredCacheConfig.LocalConfig tcc') = false /\
  LocalCacheConfig.engineConfig (E := E) (TieredCacheConfig.LocalConfig tcc') =
    bigcache.mkConfig (bigcache.Shards defaults) (60 * Minute)%Z
      (bigcache.CleanWindow defaults) /\
  head (trace_of res) =
    Some (Call ToCluster "New" (map AStr cli.defaultURLs ++ [AInt (5 * Second)%Z])) /\
  connCalls (trace_of res) = [] /\
  engineConstructed (trace_of res) =
    negb (failed (redisc.Refresh (redisc.New cli.defaultURLs (5 * Second)%Z)).1).
Proof.
  intros tcc' defaults res.
  assert (Htcc : tcc' =
            TieredCacheConfig.mk
              (RemoteCacheConfig.mk cli.defaultURLs "" (5 * Second)%Z true)
              (LocalCacheConfig.mk (5 * Second)%Z (60 * Minute)%Z 0%Z true)
              (TieredCacheConfig.Encoder tcc) true).
  { subst tcc'. destruct tcc. reflexivity. }
  subst res defaults. rewrite Htcc. clear Htcc tcc'.
  split; [reflexivity|]. split; [reflexivity|].
  unfold TieredCacheConfig.NewCache, TieredCacheConfig.stateless,
    RemoteCacheConfig.NewCache, RemoteCacheConfig.createCluster, sync.Do,
    sharedCluster.onCluster, LocalCacheConfig.NewCache.
  unfold_go. simpl.
  destruct (redisc.Refresh _) as [[e|] n1]; simpl; [repeat split|].
  destruct (bigcache.NewBigCache _) as [engine [e|]]; simpl; repeat split.
Qed.

(** X29.  [Delete] and [Purge] of a [LocalCache] and [Purge] of a
    [RemoteCache] return the error of the one call they make on the
    engine or on the connection, and record by that error: [DeleteMiss]
    or [PurgeMiss] exactly when they return an error, [DeleteHit] or
    [PurgeHit] when they return none. *)
Theorem leaf_Delete_Purge_record_returned_error {E N : Type}
    `{!bigcache.Engine E, !redisc.Cluster N}
    (lc : LocalCache.t E) (rc : RemoteCache.t N) (e : E) (n : N) (key : string) :
  LocalCache.Cache lc = Some e ->
  RemoteCache.cluster rc = Some n ->
  (let res := LocalCache.Delete key lc in
   outcome_of res = Ret (bigcache.Delete key e).1 /\
   engineCalls (trace_of res) = [("Delete", [AStr key])] /\
   LocalCache.Metrics (state_of res) =
     CacheMetrics.record (LocalCache.Metrics lc)
       (if failed (bigcache.Delete key e).1
        then CacheMetrics.DeleteMiss else CacheMetrics.DeleteHit)) /\
  (let res := LocalCache.Purge lc in
   outcome_of res = Ret (bigcache.Reset e).1 /\
   engineCalls (trace_of res) = [("Reset", [])] /\
   LocalCache.Metrics (state_of res) =
     CacheMetrics.record (LocalCache.Metrics lc)
       (if failed (bigcache.Reset e).1
        then CacheMetrics.PurgeMiss else CacheMetrics.PurgeHit)) /\
  (let res := RemoteCache.Purge rc in
   let flush := redisc.Do "FLUSHALL" [] (redisc.Get n) in
   outcome_of res = Ret flush.1.2 /\
   connCalls (trace_of res) = [("Do", [AStr "FLUSHALL"]); ("Close", [])] /\
   RemoteCache.Metrics (state_of res) =
     CacheMetrics.record (RemoteCache.Metrics rc)
       (if failed flush.1.2 then CacheMetrics.PurgeMiss else CacheMetrics.PurgeHit)).
Proof.
  intros He Hn.
  destruct lc as [c enc m tracing]. destruct rc as [c' enc' m' tracing'].
  simpl in He, Hn. subst c c'.
  split; [|split].
  - unfold_local. unfold_go. simpl. repeat split.
  - unfold_local. unfold_go. simpl. repeat split.
  - unfold_remote. unfold_go. simpl. destruct tracing'; simpl; repeat split.
Qed.

Lemma leaf_Delete_Purge_record_returned_error_witness :
  let rc := RemoteCache.mk (Some (Doubles.miniredis [] [true])) None (Some []) false in
  LocalCache.Cache gobLocal = Some ∅ /\
  RemoteCache.cluster rc = Some (Doubles.miniredis [] [true]) /\
  outcome_of (LocalCache.Delete "test-key" gobLocal) = Ret (Some Doubles.entryNotFound) /\
  LocalCache.Metrics (state_of (LocalCache.Delete "test-key" gobLocal)) =
    Some [CacheMetrics.DeleteMiss] /\
  outcome_of (RemoteCache.Purge rc) = Ret (Some Doubles.connRefused) /\
  RemoteCache.Metrics (state_of (RemoteCache.Purge rc)) = Some [CacheMetrics.PurgeMiss].
Proof.
  intros rc. split; [reflexivity|]. split; [reflexivity|].
  destruct (leaf_Delete_Purge_record_returned_error gobLocal rc "test-key" eq_refl eq_refl)
    as ((Hout & _ & Hm) & _ & (Hpout & _ & Hpm)).
  repeat split; assumption.
Defined.
